(** * Driver Telemetry: cache layer, metrics derivation and analyzers

    A shallow embedding of the analytics engine of the Driver Telemetry
    Forge app (TypeScript) and the properties its specification states.

    Conventions of the embedding:
    - a JavaScript [Date] is the integer number of milliseconds since the
      epoch ([Z]); [new Date()] reads an injected clock;
    - a JavaScript [number] that only ever holds integers is a [Z] or a
      [nat]; one that holds fractions (averages, ratios, hours) is an exact
      rational ([Q]), so rounding of IEEE doubles is not modelled;
    - [Record<string, T>] and the Forge key/value storage are [gmap]s, a
      JavaScript [Map] walked in insertion order is an association list;
    - an [async] function that reads or writes the storage is a function in
      the state monad [M] over the storage. *)

From Stdlib Require Import ZArith QArith Qminmax Qabs Qround Lia List Ascii String.
From stdpp Require Import gmap strings list sorting pretty.

Local Open Scope string_scope.
Local Open Scope Z_scope.

(** ** utils/dateHelpers.ts *)

Module DateHelpers.

Definition MS_PER_HOUR : Z := 1000 * 60 * 60.
Definition MS_PER_DAY : Z := 1000 * 60 * 60 * 24.

(** [Math.floor(diffMs / (1000 * 60 * 60 * 24))]: [Z.div] rounds towards
    minus infinity, as [Math.floor] does. *)
Definition daysBetween (start end_ : Z) : Z :=
  let diffMs := end_ - start in
  diffMs / MS_PER_DAY.

(** [getTimeRange]: the number of days handed to [getDaysAgo];
    [range.toLowerCase()] is taken on ASCII letters. *)
Definition lowerAscii (c : ascii) : ascii :=
  let n := nat_of_ascii c in
  if (65 <=? n)%nat && (n <=? 90)%nat then ascii_of_nat (n + 32) else c.

Fixpoint toLowerCase (s : string) : string :=
  match s with
  | EmptyString => EmptyString
  | String c rest => String (lowerAscii c) (toLowerCase rest)
  end.

Definition timeRangeDays (range : string) : Z :=
  let r := toLowerCase range in
  if String.eqb r "1week" || String.eqb r "week" then 7
  else if String.eqb r "2weeks" then 14
  else if String.eqb r "1month" || String.eqb r "month" then 30
  else if String.eqb r "3months" then 90
  else if String.eqb r "6months" then 180
  else if String.eqb r "1year" || String.eqb r "year" then 365
  else 180.

(** [getDaysAgo(days)] moves the calendar date back; here a day is 24
    hours. *)
Definition getDaysAgo (now : Z) (days : Z) : Z := now - days * MS_PER_DAY.

Definition getTimeRange (now : Z) (range : string) : Z * Z :=
  (getDaysAgo now (timeRangeDays range), now).

End DateHelpers.

(** ** models/issue.ts *)

Record IssueChangelog := {
  cl_id : string;
  cl_issueKey : string;
  timestamp : Z;
  author : string;
  authorAccountId : string;
  field : string;
  fromValue : string;
  toValue : string
}.

(** ** data/jira/metrics.ts *)

Module Metrics.
Import DateHelpers.

(** The predicate handed to the first [find] of [calculateCycleTime]. *)
Definition isInProgressChange (c : IssueChangelog) : bool :=
  String.eqb (field c) "status" &&
  (String.eqb (toValue c) "In Progress" || String.eqb (toValue c) "In Development").

(** The predicate handed to the [find] for the done transition. *)
Definition isDoneChange (c : IssueChangelog) : bool :=
  String.eqb (field c) "status" &&
  (String.eqb (toValue c) "Done" || String.eqb (toValue c) "Closed" || String.eqb (toValue c) "Resolved").

Definition calculateCycleTime (changelogs : list IssueChangelog) : Z :=
  let inProgressChange := List.find isInProgressChange changelogs in
  let doneChange := List.find isDoneChange changelogs in
  match inProgressChange, doneChange with
  | Some ip, Some d => daysBetween (timestamp ip) (timestamp d)
  | _, _ => 0
  end.

Definition calculateLeadTime (changelogs : list IssueChangelog) : Z :=
  match changelogs with
  | [] => 0
  | firstChange :: _ =>
      match List.find isDoneChange changelogs with
      | None => 0
      | Some d => daysBetween (timestamp firstChange) (timestamp d)
      end
  end.

(** The cycle time as the specification words it: the first transition
    into an in-progress status, then the first done transition that
    occurs after it in the history; 0 when either is missing. *)
Fixpoint spec_cycleTime (changelogs : list IssueChangelog) : Z :=
  match changelogs with
  | [] => 0
  | c :: rest =>
      if isInProgressChange c then
        match List.find isDoneChange rest with
        | Some d => daysBetween (timestamp c) (timestamp d)
        | None => 0
        end
      else spec_cycleTime rest
  end.

Definition statusChange (t : Z) (to : string) : IssueChangelog :=
  {| cl_id := "1"; cl_issueKey := "DT-1"; timestamp := t;
     author := "dev"; authorAccountId := "acc-1";
     field := "status"; fromValue := ""; toValue := to |}.

(** A history sorted by timestamp: closed on day 0, taken up again on
    day 2, closed for good on day 5. *)
Definition reopenedHistory : list IssueChangelog :=
  [ statusChange 0 "Done";
    statusChange (2 * MS_PER_DAY) "In Progress";
    statusChange (5 * MS_PER_DAY) "Done" ].

End Metrics.

(** ** Numbers with fractions *)

Definition Qltb (a b : Q) : bool := negb (Qle_bool b a).
Definition Qgtb (a b : Q) : bool := Qltb b a.

Definition sumQ (numbers : list Q) : Q := fold_left Qplus numbers (0%Q).

(** utils/calculations.ts, [average]. *)
Definition average (numbers : list Q) : Q :=
  match numbers with
  | [] => 0%Q
  | _ => (sumQ numbers / inject_Z (Z.of_nat (length numbers)))%Q
  end.

Inductive Confidence := high | medium | low.

(** utils/calculations.ts, [calculateConfidence]. *)
Definition calculateConfidence (dataPoints : nat) : Confidence :=
  if (30 <=? dataPoints)%nat then high
  else if (10 <=? dataPoints)%nat then medium
  else low.

(** ** models/issue.ts, continued *)

Record JiraIssue := {
  i_id : string;
  i_key : string;
  i_summary : string;
  i_issueType : string;
  i_status : string;
  i_assignee : string;
  i_assigneeAccountId : string;
  i_created : Z;
  i_updated : Z;
  i_resolved : option Z;
  i_storyPoints : option Q;
  i_components : list string;
  i_labels : list string;
  i_priority : option string;
  i_project : string;
  i_sprint : option string
}.

Record IssueMetrics := {
  m_issueKey : string;
  cycleTimeDays : Z;
  leadTimeDays : Z;
  inProgressDuration : Q;
  reviewDuration : Q;
  wasReopened : bool;
  hadDefect : bool;
  numberOfRevisions : nat
}.

(** [IssueWithMetrics extends JiraIssue]; the analyzers receive it as
    [any] and guard every use of [metrics] with [i.metrics && ...], so the
    field is optional here. *)
Record IssueWithMetrics := {
  issue :> JiraIssue;
  metrics : option IssueMetrics
}.

(** The recurring
    [.filter(i => i.metrics && i.metrics.cycleTimeDays > 0).map(i => i.metrics.cycleTimeDays)]. *)
Definition positiveCycleTimes (issues : list IssueWithMetrics) : list Z :=
  omap (fun i => match metrics i with
                 | Some m => if 0 <? cycleTimeDays m then Some (cycleTimeDays m) else None
                 | None => None
                 end) issues.

(** ** A state monad for the asynchronous code over the storage *)

Definition M (S A : Type) : Type := S -> A * S.

Definition ret {S A : Type} (a : A) : M S A := fun s => (a, s).

Definition bind {S A B : Type} (m : M S A) (k : A -> M S B) : M S B :=
  fun s => let (a, s') := m s in k a s'.

Notation "'await' x <~ c 'in' k" := (bind c (fun x => k))
  (at level 10, x name, c at level 100, k at level 200).
Notation "'perform' c 'in' k" := (bind c (fun _ => k))
  (at level 10, c at level 100, k at level 200).

(** ** models/cache.ts and data/cache.ts *)

Module Cache.

Inductive Namespace :=
  timing | strengths | collaboration | load | trends | status
| burnout | pitcrew | predictions.

Definition namespaceName (n : Namespace) : string :=
  match n with
  | timing => "timing" | strengths => "strengths"
  | collaboration => "collaboration" | load => "load"
  | trends => "trends" | status => "status" | burnout => "burnout"
  | pitcrew => "pitcrew" | predictions => "predictions"
  end.

Record CacheKey := {
  namespace : Namespace;
  accountId : string;
  suffix : option string
}.

(** The key literal [{ namespace, accountId }] of the analyzers. *)
Definition mkKey (n : Namespace) (a : string) : CacheKey :=
  {| namespace := n; accountId := a; suffix := None |}.

(** [if (key.suffix)] is true of a present, non-empty string. *)
Definition buildCacheKey (key : CacheKey) : string :=
  let parts := ["user"; accountId key; namespaceName (namespace key)] in
  let parts :=
    match suffix key with
    | Some s => if String.eqb s "" then parts else (parts ++ [s])%list
    | None => parts
    end in
  String.concat ":" parts.

Definition CACHE_VERSION : string := "1.2.0".
Definition DEFAULT_TTL_HOURS : Q := 24%Q.
Definition STATUS_TTL_HOURS : Q := (1 # 4)%Q.

Section WithPayload.
Context {T : Type}.

Record CacheEntry := {
  data : T;
  lastUpdated : Z;
  ttlHours : Q;
  version : string
}.

(** The Forge storage: [storage.get], [storage.set], [storage.delete]. *)
Definition storage_get (k : string) : M (gmap string CacheEntry) (option CacheEntry) :=
  fun st => (st !! k, st).
Definition storage_set (k : string) (e : CacheEntry) : M (gmap string CacheEntry) unit :=
  fun st => (tt, <[k := e]> st).
Definition storage_delete (k : string) : M (gmap string CacheEntry) unit :=
  fun st => (tt, delete k st).

(** [now] is what [new Date().getTime()] returns during the call. *)
Definition getCached (now : Z) (key : CacheKey) (ttlHours : Q)
  : M (gmap string CacheEntry) (option T) :=
  let cacheKey := buildCacheKey key in
  await entry <~ storage_get cacheKey in
  match entry with
  | None => ret None
  | Some entry =>
      if negb (String.eqb (version entry) CACHE_VERSION) then
        perform storage_delete cacheKey in
        ret None
      else
        let lastUpd := lastUpdated entry in
        let age := now - lastUpd in
        let maxAge := (ttlHours * 60 * 60 * 1000)%Q in
        if Qgtb (inject_Z age) maxAge then ret None
        else ret (Some (data entry))
  end.

Definition setCache (now : Z) (key : CacheKey) (data : T) (ttlHours : Q)
  : M (gmap string CacheEntry) unit :=
  let cacheKey := buildCacheKey key in
  let entry := {| data := data; lastUpdated := now;
                  ttlHours := ttlHours; version := CACHE_VERSION |} in
  storage_set cacheKey entry.

End WithPayload.

Arguments CacheEntry : clear implicits.

End Cache.

(** ** models/metrics.ts and models/analysis.ts *)

Record ActivityEvent := {
  ev_timestamp : Z; ev_quality : Q; ev_issueKey : string; ev_resolved : bool
}.

Record HourlyActivity := {
  hour : Z; activities : list ActivityEvent; ha_qualityScore : Q; volume : nat
}.

Record DayPattern := {
  dayOfWeek : string; dp_quality : Q; dp_speed : Q; dp_volume : nat
}.

Record PeakWindow := {
  pw_start : Z; pw_end : Z; qualityMultiplier : Q; pw_description : string
}.

Record DangerZone := {
  dz_start : Z; dz_end : Z; revertMultiplier : Q; dz_description : string
}.

Record TimingAnalysis := {
  ta_accountId : string;
  peakWindow : PeakWindow;
  dangerZone : option DangerZone;
  dayPatterns : gmap string DayPattern;
  ta_recommendations : list string;
  ta_confidence : Confidence;
  ta_dataPoints : nat;
  ta_lastUpdated : Z
}.

Record StrengthMetric := {
  sm_type : string; sm_userAvg : Q; sm_teamAvg : option Q; sm_delta : Q;
  sm_count : nat; sm_qualityScore : Q
}.

Inductive Expertise := expert | strong | average_expertise | developing | avoid.

Record ComponentStrength := {
  cs_component : string; cs_userAvg : Q; cs_teamAvg : option Q;
  cs_count : nat; expertise : Expertise; cs_qualityScore : Q
}.

Record StrengthAnalysis := {
  sa_accountId : string;
  ticketTypes : gmap string StrengthMetric;
  components : gmap string ComponentStrength;
  sa_recommendations : list string;
  sa_confidence : Confidence;
  sa_dataPoints : nat;
  sa_lastUpdated : Z
}.

Inductive ReviewRating := rr_excellent | rr_good | rr_average | rr_slow.

Record ReviewerProfile := {
  rp_accountId : string; rp_displayName : string; avgReviewTimeDays : Q;
  approvalRate : Q; changesRequestedRate : Q; totalReviews : nat;
  rp_rating : ReviewRating
}.

Record ReviewerStats := {
  rs_accountId : string; rs_displayName : string; rs_totalReviews : nat;
  avgReviewTimeHours : Q; rs_approvalRate : Q; thoroughnessScore : Q
}.

Record PairMetrics := {
  partnerAccountId : string; partnerName : string; pm_speedMultiplier : Q;
  pm_qualityMultiplier : Q; pm_collaborationCount : nat
}.

Record CollaborationAnalysis := {
  ca_accountId : string;
  bestReviewers : list ReviewerProfile;
  reviewerStats : gmap string ReviewerStats;
  pairEffectiveness : gmap string PairMetrics;
  ca_recommendations : list string;
  ca_confidence : Confidence;
  ca_dataPoints : nat;
  ca_lastUpdated : Z
}.

Inductive LoadStatus := under | optimal | over | critical_load.

Record OptimalRange := { or_min : Z; or_max : Z }.

Record LoadPoint := {
  lp_load : nat; lp_cycleTime : Q; lp_defectRate : Q; lp_completionRate : Q;
  lp_score : Q
}.

Record LoadAnalysis := {
  la_accountId : string;
  optimalRange : OptimalRange;
  loadCurve : gmap nat LoadPoint;
  currentLoad : nat;
  currentStatus : LoadStatus;
  la_recommendations : list string;
  la_confidence : Confidence;
  la_dataPoints : nat;
  la_lastUpdated : Z
}.

Inductive Trend := up | down | stable.

Record TrendData := {
  td_period : string; td_startDate : Z; td_endDate : Z; td_value : Q;
  td_trend : Trend
}.

Inductive SkillTrend := growing | declining | stable_skill.

Record SkillEvolution := {
  skill : string; currentLevel : Q; previousLevel : Q; growth : Q;
  se_trend : SkillTrend
}.

Record PeriodMetrics := {
  pm_period : string; issuesCompleted : nat; storyPoints : Q;
  avgCycleTime : Q; pm_qualityScore : Q; pm_defectRate : Q
}.

Record PeriodComparison := {
  pc_current : PeriodMetrics; pc_previous : PeriodMetrics;
  pc_delta : gmap string Q
}.

Record TrendAnalysis := {
  tr_accountId : string;
  tr_velocityTrend : list TrendData;
  qualityTrend : list TrendData;
  skillsEvolution : list SkillEvolution;
  periodComparison : PeriodComparison;
  tr_recommendations : list string;
  tr_confidence : Confidence;
  tr_dataPoints : nat;
  tr_lastUpdated : Z
}.

Inductive RiskFactorKind :=
  sustained_overload | danger_hours | declining_velocity | long_cycles | no_breaks.

Inductive Severity := sev_low | sev_medium | sev_high | sev_critical.

Record BurnoutRiskFactor := {
  factor : RiskFactorKind;
  severity : Severity;
  rf_description : string;
  weeksAffected : nat;
  impact : Z
}.

Inductive RiskLevel := healthy | warning | high_risk | critical.

Record WeeklyData := {
  weeklyOverload : list Q;
  dangerHourWork : list Q;
  velocityTrend : list nat
}.

Record BurnoutAnalysis := {
  ba_accountId : string;
  burnoutScore : Z;
  riskLevel : RiskLevel;
  riskFactors : list BurnoutRiskFactor;
  ba_trends : WeeklyData;
  ba_recommendations : list string;
  recoveryPlan : option (list string);
  ba_confidence : Confidence;
  ba_dataPoints : nat;
  ba_lastUpdated : Z
}.

Record TeamMateProfile := {
  tm_accountId : string; tm_displayName : string; collaborationCount : nat;
  tm_sharedIssues : nat; mentionCount : nat
}.

Record CollaborationEdge := {
  ce_from : string; ce_to : string; strength : Q; issueCount : nat;
  ce_avgCycleTime : Q
}.

Inductive Rating := excellent | good | neutral | needs_work.

Record ChemistryScore := {
  teammate : string;
  cs_displayName : string;
  score : Z;
  speedMultiplier : Q;
  collaborations : nat;
  rating : Rating
}.

Record BestPair := { bp_teammate : string; bp_displayName : string; speedup : Q }.

Record TeamMetrics := {
  avgCollaborationCycleTime : Q;
  fastestUnblocker : option TeamMateProfile;
  bestPair : option BestPair;
  totalCollaborations : nat
}.

Record PitCrewAnalysis := {
  pc_accountId : string;
  teammates : list TeamMateProfile;
  collaborationNetwork : list CollaborationEdge;
  chemistryScores : gmap string ChemistryScore;
  teamMetrics : TeamMetrics;
  pc_recommendations : list string;
  pc_confidence : Confidence;
  pc_dataPoints : nat;
  pc_lastUpdated : Z
}.

Record TicketRisk := {
  tk_issueKey : string; tk_summary : string; tk_riskLevel : Severity;
  estimatedDaysRemaining : Z; tk_factors : list string;
  recommendedAction : string
}.

Inductive ScenarioAdvice := safe | risky | avoid_scenario.

Record WhatIfScenario := {
  scenario : string; ws_impact : string; ws_completionProbability : Q;
  ws_recommendation : ScenarioAdvice
}.

Record ConfidenceInterval := { ci_low : option nat; ci_high : option nat }.

Record Predictions := {
  completionProbability : Q;
  expectedTicketsCompleted : Z;
  confidenceInterval : ConfidenceInterval;
  atRiskTickets : list TicketRisk
}.

Record CurrentState := {
  totalTickets : nat; completedTickets : nat; remainingTickets : nat;
  st_daysRemaining : Z; currentVelocity : nat
}.

Record SprintPrediction := {
  sp_accountId : string;
  sprintName : option string;
  predictions : Predictions;
  currentState : CurrentState;
  whatIfScenarios : list WhatIfScenario;
  sp_recommendations : list string;
  sp_confidence : Confidence;
  sp_lastUpdated : Z
}.

(** What the storage holds: the payload of any analyzer. *)
Inductive Analysis :=
| TimingResult (a : TimingAnalysis)
| StrengthResult (a : StrengthAnalysis)
| CollaborationResult (a : CollaborationAnalysis)
| LoadResult (a : LoadAnalysis)
| TrendResult (a : TrendAnalysis)
| BurnoutResult (a : BurnoutAnalysis)
| PitCrewResult (a : PitCrewAnalysis)
| PredictionResult (a : SprintPrediction).

Definition confidenceOf (a : Analysis) : Confidence :=
  match a with
  | TimingResult a => ta_confidence a
  | StrengthResult a => sa_confidence a
  | CollaborationResult a => ca_confidence a
  | LoadResult a => la_confidence a
  | TrendResult a => tr_confidence a
  | BurnoutResult a => ba_confidence a
  | PitCrewResult a => pc_confidence a
  | PredictionResult a => sp_confidence a
  end.

(** The unchecked casts [getCached<T>]: every cache key carries the
    namespace of the analyzer that wrote it, so the payload under an
    analyzer's key is of that analyzer's type; a payload of another type
    is read as absent. *)
Definition asTiming (a : Analysis) : option TimingAnalysis :=
  match a with TimingResult a => Some a | _ => None end.
Definition asStrength (a : Analysis) : option StrengthAnalysis :=
  match a with StrengthResult a => Some a | _ => None end.
Definition asCollaboration (a : Analysis) : option CollaborationAnalysis :=
  match a with CollaborationResult a => Some a | _ => None end.
Definition asLoad (a : Analysis) : option LoadAnalysis :=
  match a with LoadResult a => Some a | _ => None end.
Definition asTrend (a : Analysis) : option TrendAnalysis :=
  match a with TrendResult a => Some a | _ => None end.
Definition asBurnout (a : Analysis) : option BurnoutAnalysis :=
  match a with BurnoutResult a => Some a | _ => None end.
Definition asPitCrew (a : Analysis) : option PitCrewAnalysis :=
  match a with PitCrewResult a => Some a | _ => None end.
Definition asPrediction (a : Analysis) : option SprintPrediction :=
  match a with PredictionResult a => Some a | _ => None end.

Abbreviation Storage := (gmap string (Cache.CacheEntry Analysis)).

Definition getCachedAs {T : Type} (cast : Analysis -> option T)
    (now : Z) (key : Cache.CacheKey) (ttlHours : Q) : M Storage (option T) :=
  await cached <~ Cache.getCached now key ttlHours in
  ret (match cached with Some a => cast a | None => None end).

(** ** The world outside the analyzers

    The issue tracker behind [data/jira/issues.ts] (whose functions turn
    every failure into an empty list), the clock and the random source.
    One run of an analyzer sees one instant [now]. *)
Record Env := {
  now : Z;
  getHours : Z -> Z;
  getUserIssuesWithMetrics : string -> Z -> list IssueWithMetrics;
  getActiveIssues : string -> list JiraIssue;
  random : nat -> nat -> Q
}.

(** data/jira/issues.ts, [countActiveTickets]. *)
Definition countActiveTickets (env : Env) (accountId : string) : nat :=
  let activeIssues := getActiveIssues env accountId in
  length activeIssues.

(** Record of one collaborator in [extractCollaborationData]. *)
Record CollaborationData := {
  cd_accountId : string;
  cd_displayName : string;
  sharedIssues : list string;
  cycleTimes : list Z
}.

(** Functions of the analyzers whose results are stored in the analysis
    and read by nothing that is modelled here; they are parameters. *)
Record Helpers := {
  (* analyzers/timing.ts *)
  groupByHour : list IssueWithMetrics -> list HourlyActivity;
  analyzeDayPatterns : list IssueWithMetrics -> gmap string DayPattern;
  findPeakWindow : list HourlyActivity -> PeakWindow;
  findDangerZone : list HourlyActivity -> option DangerZone;
  generateTimingRecommendations :
    PeakWindow -> option DangerZone -> gmap string DayPattern -> list string;
  (* analyzers/load.ts *)
  buildLoadCurve : list (IssueWithMetrics * nat) -> gmap nat LoadPoint;
  generateLoadRecommendations :
    nat -> LoadStatus -> OptimalRange -> gmap nat LoadPoint -> list string;
  (* analyzers/strengths.ts *)
  analyzeByTicketType :
    list IssueWithMetrics -> string -> bool -> gmap string StrengthMetric;
  analyzeByComponent :
    list IssueWithMetrics -> string -> bool -> gmap string ComponentStrength;
  generateStrengthRecommendations :
    gmap string StrengthMetric -> gmap string ComponentStrength -> list string;
  (* analyzers/trends.ts *)
  groupByMonth : list IssueWithMetrics -> gmap string (list IssueWithMetrics);
  calculateVelocityTrend : gmap string (list IssueWithMetrics) -> list TrendData;
  calculateQualityTrend : gmap string (list IssueWithMetrics) -> list TrendData;
  calculateSkillsEvolution : gmap string (list IssueWithMetrics) -> list SkillEvolution;
  calculatePeriodComparison : gmap string (list IssueWithMetrics) -> PeriodComparison;
  generateTrendRecommendations :
    list TrendData -> list TrendData -> list SkillEvolution -> list string;
  (* analyzers/burnout.ts *)
  generateBurnoutRecommendations :
    RiskLevel -> list BurnoutRiskFactor -> WeeklyData -> list string;
  generateRecoveryPlan : RiskLevel -> list BurnoutRiskFactor -> list string;
  (* analyzers/pitcrew.ts *)
  buildTeammateProfiles : list (string * CollaborationData) -> list TeamMateProfile;
  buildCollaborationNetwork :
    string -> list TeamMateProfile -> gmap string ChemistryScore -> list CollaborationEdge;
  calculateTeamMetrics :
    list TeamMateProfile -> gmap string ChemistryScore ->
    list (string * CollaborationData) -> TeamMetrics;
  generatePitCrewRecommendations :
    list TeamMateProfile -> gmap string ChemistryScore -> TeamMetrics -> list string;
  (* analyzers/predictions.ts *)
  identifyAtRiskTickets : list JiraIssue -> list Z -> Z -> list TicketRisk;
  generateWhatIfScenarios : nat -> list Z -> Z -> list WhatIfScenario;
  generatePredictionRecommendations :
    Q -> list TicketRisk -> nat -> Z -> list string;
  (* Number.prototype.toFixed(0) on a fraction *)
  toFixed0 : Q -> string
}.

(** ** analyzers/load.ts *)

Module Load.

(** [issue.created] is a [Date] object and so never falsy: the guard
    [if (!issue.created) return 1] cannot fire on a parsed issue.
    [now] stands for [new Date().getTime()]. *)
Definition calculateConcurrentLoad (now : Z) (issue : IssueWithMetrics)
    (allIssues : list IssueWithMetrics) : nat :=
  let issueStart := i_created issue in
  let issueEnd := match i_resolved issue with Some r => r | None => now end in
  let concurrent :=
    fold_left
      (fun concurrent (other : IssueWithMetrics) =>
         if String.eqb (i_key other) (i_key issue) then concurrent
         else
           let otherStart := i_created other in
           let otherEnd := match i_resolved other with Some r => r | None => now end in
           if (otherStart <=? issueEnd) && (otherEnd >=? issueStart)
           then S concurrent
           else concurrent)
      allIssues 0%nat in
  Nat.max 1 concurrent.

Definition findOptimalLoadRange (loadCurve : gmap nat LoadPoint) : OptimalRange :=
  {| or_min := 5; or_max := 9 |}.

Definition determineLoadStatus (currentLoad : nat) (optimalRange : OptimalRange)
  : LoadStatus :=
  if (currentLoad <? 5)%nat then under
  else if (5 <=? currentLoad)%nat && (currentLoad <=? 9)%nat then optimal
  else if (10 <=? currentLoad)%nat && (currentLoad <=? 12)%nat then over
  else critical_load.

Definition createInsufficientDataResponse (now : Z) (accountId : string)
    (dataPoints : nat) : LoadAnalysis :=
  {| la_accountId := accountId;
     optimalRange := {| or_min := 5; or_max := 9 |};
     loadCurve := ∅;
     currentLoad := 0;
     currentStatus := optimal;
     la_recommendations :=
       [ "Currently have " +:+ pretty dataPoints +:+
           " data points, need at least 10 for detailed load analysis";
         "Complete more tickets and check back in a week or two";
         "General guidance: Most individual contributors perform best with 5-9 concurrent tickets" ];
     la_confidence := low;
     la_dataPoints := dataPoints;
     la_lastUpdated := now |}.

(** [cached.currentLoad = ...; cached.currentStatus = ...] on the object
    read from the cache. *)
Definition refreshCurrentLoad (cached : LoadAnalysis) (load : nat) : LoadAnalysis :=
  {| la_accountId := la_accountId cached;
     optimalRange := optimalRange cached;
     loadCurve := loadCurve cached;
     currentLoad := load;
     currentStatus := determineLoadStatus load (optimalRange cached);
     la_recommendations := la_recommendations cached;
     la_confidence := la_confidence cached;
     la_dataPoints := la_dataPoints cached;
     la_lastUpdated := la_lastUpdated cached |}.

Section WithEnv.
Context (env : Env) (h : Helpers).

Definition analyzeLoadPatterns (accountId : string) : M Storage LoadAnalysis :=
  await cached <~ getCachedAs asLoad (now env) (Cache.mkKey Cache.load accountId) 24 in
  match cached with
  | Some cached =>
      ret (refreshCurrentLoad cached (countActiveTickets env accountId))
  | None =>
      let issues := getUserIssuesWithMetrics env accountId 180 in
      if (length issues <? 10)%nat then
        ret (createInsufficientDataResponse (now env) accountId (length issues))
      else
        let issuesWithLoad :=
          map (fun issue => (issue, calculateConcurrentLoad (now env) issue issues))
              issues in
        let loadCurve := buildLoadCurve h issuesWithLoad in
        let optimalRange := findOptimalLoadRange loadCurve in
        let currentLoad := countActiveTickets env accountId in
        let currentStatus := determineLoadStatus currentLoad optimalRange in
        let recommendations :=
          generateLoadRecommendations h currentLoad currentStatus optimalRange loadCurve in
        let analysis :=
          {| la_accountId := accountId;
             optimalRange := optimalRange;
             loadCurve := loadCurve;
             currentLoad := currentLoad;
             currentStatus := currentStatus;
             la_recommendations := recommendations;
             la_confidence := calculateConfidence (length issues);
             la_dataPoints := length issues;
             la_lastUpdated := now env |} in
        perform Cache.setCache (now env) (Cache.mkKey Cache.load accountId)
                  (LoadResult analysis) 24 in
        ret analysis
  end.

End WithEnv.

End Load.

(** ** analyzers/timing.ts *)

Module Timing.

Definition createInsufficientDataResponse (now : Z) (accountId : string)
    (dataPoints : nat) : TimingAnalysis :=
  {| ta_accountId := accountId;
     peakWindow :=
       {| pw_start := 10; pw_end := 12; qualityMultiplier := 1%Q;
          pw_description := "Insufficient data - need at least 10 completed tickets" |};
     dangerZone := None;
     dayPatterns := ∅;
     ta_recommendations :=
       [ "Currently have " +:+ pretty dataPoints +:+
           " data points, need at least 10 for timing analysis";
         "Complete more tickets and check back in a week or two" ];
     ta_confidence := low;
     ta_dataPoints := dataPoints;
     ta_lastUpdated := now |}.

Section WithEnv.
Context (env : Env) (h : Helpers).

Definition analyzeTimingPatterns (accountId : string) (timeRange : string)
  : M Storage TimingAnalysis :=
  await cached <~ getCachedAs asTiming (now env) (Cache.mkKey Cache.timing accountId) 24 in
  match cached with
  | Some cached => ret cached
  | None =>
      let '(start, end_) := DateHelpers.getTimeRange (now env) timeRange in
      let daysBack := (end_ - start) / DateHelpers.MS_PER_DAY in
      let issues := getUserIssuesWithMetrics env accountId daysBack in
      if (length issues <? 10)%nat then
        ret (createInsufficientDataResponse (now env) accountId (length issues))
      else
        let hourlyActivity := groupByHour h issues in
        let dayPatterns := analyzeDayPatterns h issues in
        let peakWindow := findPeakWindow h hourlyActivity in
        let dangerZone := findDangerZone h hourlyActivity in
        let recommendations :=
          generateTimingRecommendations h peakWindow dangerZone dayPatterns in
        let analysis :=
          {| ta_accountId := accountId;
             peakWindow := peakWindow;
             dangerZone := dangerZone;
             dayPatterns := dayPatterns;
             ta_recommendations := recommendations;
             ta_confidence := calculateConfidence (length issues);
             ta_dataPoints := length issues;
             ta_lastUpdated := now env |} in
        perform Cache.setCache (now env) (Cache.mkKey Cache.timing accountId)
                  (TimingResult analysis) 24 in
        ret analysis
  end.

End WithEnv.

End Timing.

(** ** analyzers/strengths.ts *)

Module Strengths.

Definition createInsufficientDataResponse (now : Z) (accountId : string)
    (dataPoints : nat) : StrengthAnalysis :=
  {| sa_accountId := accountId;
     ticketTypes := ∅;
     components := ∅;
     sa_recommendations :=
       [ "Currently have " +:+ pretty dataPoints +:+
           " data points, need at least 10 for strength analysis";
         "Complete more tickets across different types and components";
         "Check back in a few weeks for personalized insights" ];
     sa_confidence := low;
     sa_dataPoints := dataPoints;
     sa_lastUpdated := now |}.

Section WithEnv.
Context (env : Env) (h : Helpers).

Definition analyzeStrengthPatterns (accountId : string) (compareToTeam : bool)
  : M Storage StrengthAnalysis :=
  let cacheKey := Cache.mkKey Cache.strengths accountId in
  await cached <~ getCachedAs asStrength (now env) cacheKey 24 in
  match cached with
  | Some cached => ret cached
  | None =>
      let userIssues := getUserIssuesWithMetrics env accountId 180 in
      if (length userIssues <? 10)%nat then
        ret (createInsufficientDataResponse (now env) accountId (length userIssues))
      else
        let ticketTypes := analyzeByTicketType h userIssues accountId compareToTeam in
        let components := analyzeByComponent h userIssues accountId compareToTeam in
        let recommendations := generateStrengthRecommendations h ticketTypes components in
        let analysis :=
          {| sa_accountId := accountId;
             ticketTypes := ticketTypes;
             components := components;
             sa_recommendations := recommendations;
             sa_confidence := calculateConfidence (length userIssues);
             sa_dataPoints := length userIssues;
             sa_lastUpdated := now env |} in
        perform Cache.setCache (now env) cacheKey (StrengthResult analysis) 24 in
        ret analysis
  end.

End WithEnv.

End Strengths.

(** ** analyzers/trends.ts *)

Module Trends.

Definition emptyPeriod (period : string) : PeriodMetrics :=
  {| pm_period := period; issuesCompleted := 0; storyPoints := 0%Q;
     avgCycleTime := 0%Q; pm_qualityScore := 0%Q; pm_defectRate := 0%Q |}.

Definition createInsufficientDataResponse (now : Z) (accountId : string)
    (dataPoints : nat) (months : Z) : TrendAnalysis :=
  {| tr_accountId := accountId;
     tr_velocityTrend := [];
     qualityTrend := [];
     skillsEvolution := [];
     periodComparison :=
       {| pc_current := emptyPeriod "Current";
          pc_previous := emptyPeriod "Previous";
          pc_delta := ∅ |};
     tr_recommendations :=
       [ "Currently have " +:+ pretty dataPoints +:+
           " data points, need at least 10 for trend analysis";
         "Trend analysis requires " +:+ pretty months +:+ " months of history";
         "Complete more tickets and check back later for insights" ];
     tr_confidence := low;
     tr_dataPoints := dataPoints;
     tr_lastUpdated := now |}.

Section WithEnv.
Context (env : Env) (h : Helpers).

Definition analyzeTrends (accountId : string) (months : Z)
  : M Storage TrendAnalysis :=
  let cacheKey := Cache.mkKey Cache.trends accountId in
  await cached <~ getCachedAs asTrend (now env) cacheKey 24 in
  match cached with
  | Some cached => ret cached
  | None =>
      let daysBack := months * 30 in
      let userIssues := getUserIssuesWithMetrics env accountId daysBack in
      if (length userIssues <? 10)%nat then
        ret (createInsufficientDataResponse (now env) accountId (length userIssues) months)
      else
        let monthlyGroups := groupByMonth h userIssues in
        let velocityTrend := calculateVelocityTrend h monthlyGroups in
        let qualityTrend := calculateQualityTrend h monthlyGroups in
        let skillsEvolution := calculateSkillsEvolution h monthlyGroups in
        let periodComparison := calculatePeriodComparison h monthlyGroups in
        let recommendations :=
          generateTrendRecommendations h velocityTrend qualityTrend skillsEvolution in
        let analysis :=
          {| tr_accountId := accountId;
             tr_velocityTrend := velocityTrend;
             qualityTrend := qualityTrend;
             skillsEvolution := skillsEvolution;
             periodComparison := periodComparison;
             tr_recommendations := recommendations;
             tr_confidence := calculateConfidence (length userIssues);
             tr_dataPoints := length userIssues;
             tr_lastUpdated := now env |} in
        perform Cache.setCache (now env) cacheKey (TrendResult analysis) 24 in
        ret analysis
  end.

End WithEnv.

End Trends.

(** ** analyzers/collaboration.ts *)

Module Collaboration.

Definition createInsufficientDataResponse (now : Z) (accountId : string)
    (dataPoints : nat) : CollaborationAnalysis :=
  {| ca_accountId := accountId;
     bestReviewers := [];
     reviewerStats := ∅;
     pairEffectiveness := ∅;
     ca_recommendations :=
       [ "Currently have " +:+ pretty dataPoints +:+
           " data points, need at least 10 for collaboration analysis";
         "Collaboration analysis works best with Bitbucket integration";
         "Complete more tickets and enable Bitbucket connection for insights" ];
     ca_confidence := low;
     ca_dataPoints := dataPoints;
     ca_lastUpdated := now |}.

Section WithEnv.
Context (env : Env).

Definition analyzeCollaborationPatterns (accountId : string) (focusArea : string)
  : M Storage CollaborationAnalysis :=
  let cacheKey := Cache.mkKey Cache.collaboration accountId in
  await cached <~ getCachedAs asCollaboration (now env) cacheKey 24 in
  match cached with
  | Some cached => ret cached
  | None =>
      let userIssues := getUserIssuesWithMetrics env accountId 180 in
      if (length userIssues <? 10)%nat then
        ret (createInsufficientDataResponse (now env) accountId (length userIssues))
      else
        let recommendations :=
          [ "Full collaboration analysis requires Bitbucket integration";
            "Enable Bitbucket connection to see:";
            "  • Best code reviewers for your PRs";
            "  • Optimal pairing partners";
            "  • Review speed patterns";
            "For now, consider tracking manually who gives you the fastest, most helpful reviews" ] in
        let analysis :=
          {| ca_accountId := accountId;
             bestReviewers := [];
             reviewerStats := ∅;
             pairEffectiveness := ∅;
             ca_recommendations := recommendations;
             ca_confidence := low;
             ca_dataPoints := length userIssues;
             ca_lastUpdated := now env |} in
        perform Cache.setCache (now env) cacheKey (CollaborationResult analysis) 24 in
        ret analysis
  end.

End WithEnv.

End Collaboration.

(** ** analyzers/pitcrew.ts *)

Module PitCrew.

(** [Map.prototype.has] and the in-place change of the value under a key,
    on a [Map] kept in insertion order. *)
Definition mapHas {V : Type} (key : string) (m : list (string * V)) : bool :=
  existsb (fun kv => String.eqb (fst kv) key) m.

Definition mapUpdate {V : Type} (key : string) (f : V -> V) (m : list (string * V))
  : list (string * V) :=
  map (fun kv => if String.eqb (fst kv) key then (fst kv, f (snd kv)) else kv) m.

Definition recordShared (issue : IssueWithMetrics) (data : CollaborationData)
  : CollaborationData :=
  {| cd_accountId := cd_accountId data;
     cd_displayName := cd_displayName data;
     sharedIssues := (sharedIssues data ++ [i_key issue])%list;
     cycleTimes :=
       match metrics issue with
       | Some m =>
           if 0 <? cycleTimeDays m
           then (cycleTimes data ++ [cycleTimeDays m])%list
           else cycleTimes data
       | None => cycleTimes data
       end |}.

Definition extractCollaborationData (issues : list IssueWithMetrics)
    (currentUserId : string) : list (string * CollaborationData) :=
  fold_left
    (fun collaborations (issue : IssueWithMetrics) =>
       if negb (String.eqb (i_assigneeAccountId issue) "") &&
          negb (String.eqb (i_assigneeAccountId issue) currentUserId)
       then
         let key := i_assigneeAccountId issue in
         let collaborations :=
           if negb (mapHas key collaborations) then
             (collaborations ++
                [(key, {| cd_accountId := i_assigneeAccountId issue;
                          cd_displayName := i_assignee issue;
                          sharedIssues := [];
                          cycleTimes := [] |})])%list
           else collaborations in
         mapUpdate key (recordShared issue) collaborations
       else collaborations)
    issues [].

(** The body of the [forEach] of [calculateChemistryScores]. *)
Definition chemistryOf (soloAvg : Q) (accountId : string) (data : CollaborationData)
  : ChemistryScore :=
  let collaborationAvg :=
    if (0 <? length (cycleTimes data))%nat
    then average (map inject_Z (cycleTimes data))
    else soloAvg in
  let speedMultiplier :=
    if Qgtb soloAvg 0 then (soloAvg / collaborationAvg)%Q else 1%Q in
  let score := 50 in
  let score :=
    if Qgtb speedMultiplier (12 # 10) then score + 30
    else if Qgtb speedMultiplier 1 then score + 15
    else if Qltb speedMultiplier (8 # 10) then score - 20
    else score in
  let score :=
    if (10 <? length (sharedIssues data))%nat then score + 20
    else if (5 <? length (sharedIssues data))%nat then score + 10
    else score in
  let score := Z.max 0 (Z.min 100 score) in
  let rating :=
    if 80 <=? score then excellent
    else if 60 <=? score then good
    else if 40 <=? score then neutral
    else needs_work in
  {| teammate := accountId;
     cs_displayName :=
       if String.eqb (cd_displayName data) "" then "Unknown" else cd_displayName data;
     score := score;
     speedMultiplier := speedMultiplier;
     collaborations := length (sharedIssues data);
     rating := rating |}.

Definition calculateChemistryScores (collaborationData : list (string * CollaborationData))
    (allIssues : list IssueWithMetrics) : gmap string ChemistryScore :=
  let soloCycleTimes := positiveCycleTimes allIssues in
  let soloAvg :=
    if (0 <? length soloCycleTimes)%nat
    then average (map inject_Z soloCycleTimes)
    else 10%Q in
  fold_left
    (fun scores kv => <[fst kv := chemistryOf soloAvg (fst kv) (snd kv)]> scores)
    collaborationData ∅.

Definition createInsufficientDataResponse (now : Z) (accountId : string)
    (dataPoints : nat) : PitCrewAnalysis :=
  {| pc_accountId := accountId;
     teammates := [];
     collaborationNetwork := [];
     chemistryScores := ∅;
     teamMetrics :=
       {| avgCollaborationCycleTime := 0%Q; fastestUnblocker := None;
          bestPair := None; totalCollaborations := 0 |};
     pc_recommendations :=
       [ "Need more data for pit crew analysis (have " +:+ pretty dataPoints +:+
           ", need 10+)";
         "Work with teammates on issues to build collaboration history";
         "Full analysis available after more team interactions" ];
     pc_confidence := low;
     pc_dataPoints := dataPoints;
     pc_lastUpdated := now |}.

Section WithEnv.
Context (env : Env) (h : Helpers).

Definition analyzePitCrewPatterns (accountId : string) : M Storage PitCrewAnalysis :=
  let cacheKey := Cache.mkKey Cache.pitcrew accountId in
  await cached <~ getCachedAs asPitCrew (now env) cacheKey 24 in
  match cached with
  | Some cached => ret cached
  | None =>
      let userIssues := getUserIssuesWithMetrics env accountId 180 in
      if (length userIssues <? 10)%nat then
        ret (createInsufficientDataResponse (now env) accountId (length userIssues))
      else
        let collaborationData := extractCollaborationData userIssues accountId in
        let teammates := buildTeammateProfiles h collaborationData in
        let chemistryScores := calculateChemistryScores collaborationData userIssues in
        let collaborationNetwork :=
          buildCollaborationNetwork h accountId teammates chemistryScores in
        let teamMetrics :=
          calculateTeamMetrics h teammates chemistryScores collaborationData in
        let recommendations :=
          generatePitCrewRecommendations h teammates chemistryScores teamMetrics in
        let analysis :=
          {| pc_accountId := accountId;
             teammates := teammates;
             collaborationNetwork := collaborationNetwork;
             chemistryScores := chemistryScores;
             teamMetrics := teamMetrics;
             pc_recommendations := recommendations;
             pc_confidence :=
               if (50 <? length userIssues)%nat then high
               else if (25 <? length userIssues)%nat then medium
               else low;
             pc_dataPoints := length userIssues;
             pc_lastUpdated := now env |} in
        perform Cache.setCache (now env) cacheKey (PitCrewResult analysis) 24 in
        ret analysis
  end.

End WithEnv.

End PitCrew.

(** ** analyzers/burnout.ts *)

Module Burnout.

Definition MS_PER_WEEK : Z := 7 * DateHelpers.MS_PER_DAY.

Definition inWeek (weekStart weekEnd : Z) (date : Z) : bool :=
  (date >=? weekStart) && (date <? weekEnd).

(** One turn of the loop of [analyzeWeeklyPatterns]; [unshift] puts the
    week in front. [setDate(getDate() - 7)] is taken as 7 times 24
    hours. *)
Definition weekStep (now : Z) (issues : list IssueWithMetrics)
    (acc : WeeklyData) (i : nat) : WeeklyData :=
  let weekEnd := now - Z.of_nat i * MS_PER_WEEK in
  let weekStart := weekEnd - MS_PER_WEEK in
  let weekIssues :=
    List.filter (fun issue : IssueWithMetrics =>
              match i_resolved issue with
              | None => false
              | Some resolvedDate => inWeek weekStart weekEnd resolvedDate
              end) issues in
  let createdInWeek :=
    length (List.filter (fun issue : IssueWithMetrics =>
                      inWeek weekStart weekEnd (i_created issue)) issues) in
  let completedInWeek := length weekIssues in
  let netChange := Z.of_nat createdInWeek - Z.of_nat completedInWeek in
  let overloadEstimate :=
    if 0 <? netChange
    then Qmin 100 ((inject_Z netChange / 9) * 100)
    else 0%Q in
  let dangerHourEstimate := 0%Q in
  {| weeklyOverload := overloadEstimate :: weeklyOverload acc;
     dangerHourWork := dangerHourEstimate :: dangerHourWork acc;
     velocityTrend := length weekIssues :: velocityTrend acc |}.

Definition analyzeWeeklyPatterns (now : Z) (issues : list IssueWithMetrics)
    (loadAnalysis : LoadAnalysis) (timingAnalysis : TimingAnalysis) : WeeklyData :=
  let weeks := 8%nat in
  fold_left (weekStep now issues) (seq 0 weeks)
    {| weeklyOverload := []; dangerHourWork := []; velocityTrend := [] |}.

(** [a.reduce((a, b) => a + b, 0) / a.length] *)
Definition meanOfCounts (l : list nat) : Q :=
  (inject_Z (Z.of_nat (fold_left Nat.add l 0%nat)) / inject_Z (Z.of_nat (length l)))%Q.

Section WithHelpers.
Context (h : Helpers).

(** The five blocks of [detectRiskFactors], in the order of the source;
    each pushes at most one factor onto [factors]. *)

(** Factor 1: sustained overload. *)
Definition sustainedOverloadFactor (weeklyData : WeeklyData)
    (factors : list BurnoutRiskFactor) : list BurnoutRiskFactor :=
  let weeksOverloaded :=
    length (List.filter (fun w => Qgtb w 50) (weeklyOverload weeklyData)) in
  if (2 <=? weeksOverloaded)%nat then
    let '(severity, impact) :=
      if (6 <=? weeksOverloaded)%nat then (sev_critical, 40)
      else if (4 <=? weeksOverloaded)%nat then (sev_high, 30)
      else if (2 <=? weeksOverloaded)%nat then (sev_medium, 20)
      else (sev_low, 0) in
    (factors ++
       [ {| factor := sustained_overload;
            severity := severity;
            rf_description :=
              "You've been over capacity for " +:+ pretty weeksOverloaded +:+
              " of the last 8 weeks";
            weeksAffected := weeksOverloaded;
            impact := impact |} ])%list
  else factors.

(** Factor 2: current overload status. *)
Definition currentLoadFactor (loadAnalysis : LoadAnalysis)
    (factors : list BurnoutRiskFactor) : list BurnoutRiskFactor :=
  match currentStatus loadAnalysis with
  | critical_load | over =>
      (factors ++
         [ {| factor := sustained_overload;
              severity :=
                match currentStatus loadAnalysis with
                | critical_load => sev_critical | _ => sev_high end;
              rf_description :=
                "Currently " +:+ pretty (currentLoad loadAnalysis) +:+
                " tickets (optimal: " +:+
                pretty (or_min (optimalRange loadAnalysis)) +:+ "-" +:+
                pretty (or_max (optimalRange loadAnalysis)) +:+ ")";
              weeksAffected := 1;
              impact :=
                match currentStatus loadAnalysis with
                | critical_load => 25 | _ => 15 end |} ])%list
  | _ =>
      if (7 <=? currentLoad loadAnalysis)%nat then
        (factors ++
           [ {| factor := sustained_overload;
                severity := sev_low;
                rf_description :=
                  "Currently at " +:+ pretty (currentLoad loadAnalysis) +:+
                  " tickets (near upper limit of optimal range)";
                weeksAffected := 1;
                impact := 5 |} ])%list
      else factors
  end.

(** Factor 3: declining velocity; [slice(-4)] and [slice(0, 4)]. *)
Definition decliningVelocityFactor (weeklyData : WeeklyData)
    (factors : list BurnoutRiskFactor) : list BurnoutRiskFactor :=
  let trend := velocityTrend weeklyData in
  let recentVelocity := drop (length trend - 4) trend in
  let olderVelocity := take 4 trend in
  let recentAvg := meanOfCounts recentVelocity in
  let olderAvg := meanOfCounts olderVelocity in
  if Qgtb olderAvg 0 then
    let velocityChange := (((recentAvg - olderAvg) / olderAvg) * 100)%Q in
    if Qltb velocityChange (-20) then
      let '(severity, impact) :=
        if Qltb velocityChange (-40) then (sev_critical, 30)
        else if Qltb velocityChange (-30) then (sev_high, 25)
        else (sev_medium, 15) in
      (factors ++
         [ {| factor := declining_velocity;
              severity := severity;
              rf_description :=
                "Velocity dropped " +:+ toFixed0 h (Qabs velocityChange) +:+
                "% over last 4 weeks";
              weeksAffected := 4;
              impact := impact |} ])%list
    else factors
  else factors.

(** Factor 4: working during danger hours; [currentHour] stands for
    [new Date().getHours()]. *)
Definition dangerHoursFactor (currentHour : Z) (timingAnalysis : TimingAnalysis)
    (factors : list BurnoutRiskFactor) : list BurnoutRiskFactor :=
  match dangerZone timingAnalysis with
  | Some dz =>
      let inDangerZone := (currentHour >=? dz_start dz) && (currentHour <=? dz_end dz) in
      if inDangerZone then
        (factors ++
           [ {| factor := danger_hours;
                severity := sev_medium;
                rf_description :=
                  "Currently working during your danger zone (" +:+
                  pretty (dz_start dz) +:+ ":00-" +:+ pretty (dz_end dz) +:+ ":00)";
                weeksAffected := 1;
                impact := 10 |} ])%list
      else factors
  | None => factors
  end.

(** Factor 5: high-velocity crunch weeks. *)
Definition crunchWeeksFactor (weeklyData : WeeklyData)
    (factors : list BurnoutRiskFactor) : list BurnoutRiskFactor :=
  let highVelocityWeeks :=
    length (List.filter (fun v => (8 <=? v)%nat) (velocityTrend weeklyData)) in
  if (3 <=? highVelocityWeeks)%nat then
    (factors ++
       [ {| factor := sustained_overload;
            severity := sev_medium;
            rf_description :=
              pretty highVelocityWeeks +:+
              " high-velocity weeks detected (potential crunch periods)";
            weeksAffected := highVelocityWeeks;
            impact := 15 |} ])%list
  else factors.

Definition detectRiskFactors (currentHour : Z) (weeklyData : WeeklyData)
    (loadAnalysis : LoadAnalysis) (timingAnalysis : TimingAnalysis)
  : list BurnoutRiskFactor :=
  let factors : list BurnoutRiskFactor := [] in
  let factors := sustainedOverloadFactor weeklyData factors in
  let factors := currentLoadFactor loadAnalysis factors in
  let factors := decliningVelocityFactor weeklyData factors in
  let factors := dangerHoursFactor currentHour timingAnalysis factors in
  let factors := crunchWeeksFactor weeklyData factors in
  factors.

End WithHelpers.

Definition calculateBurnoutScore (factors : list BurnoutRiskFactor) : Z :=
  if (length factors =? 0)%nat then 0
  else
    let totalImpact := fold_left (fun sum factor => sum + impact factor) factors 0 in
    Z.min 100 totalImpact.

Definition determinRiskLevel (score : Z) : RiskLevel :=
  if score >=? 70 then critical
  else if score >=? 50 then high_risk
  else if score >=? 30 then warning
  else healthy.

Definition baselineFactor : BurnoutRiskFactor :=
  {| factor := sustained_overload;
     severity := sev_low;
     rf_description := "Baseline health monitoring (no specific risks detected)";
     weeksAffected := 0;
     impact := 5 |}.

Definition createInsufficientDataResponse (now : Z) (accountId : string)
    (dataPoints : nat) : BurnoutAnalysis :=
  {| ba_accountId := accountId;
     burnoutScore := 0;
     riskLevel := healthy;
     riskFactors := [];
     ba_trends := {| weeklyOverload := []; dangerHourWork := []; velocityTrend := [] |};
     ba_recommendations :=
       [ "Need more data for burnout analysis (have " +:+ pretty dataPoints +:+
           ", need 5+)";
         "Complete more tickets over the next few weeks";
         "Monitor your workload and take regular breaks" ];
     recoveryPlan := None;
     ba_confidence := low;
     ba_dataPoints := dataPoints;
     ba_lastUpdated := now |}.

Section WithEnv.
Context (env : Env) (h : Helpers).

(** The cache is read, but the block that returns the cached value is
    commented out in the source ("TEMPORARILY DISABLE CACHE FOR
    DEBUGGING"), so [cached] is not used. *)
Definition analyzeBurnoutRisk (accountId : string) : M Storage BurnoutAnalysis :=
  let cacheKey := Cache.mkKey Cache.burnout accountId in
  await cached <~ getCachedAs asBurnout (now env) cacheKey 6 in
  let issues := getUserIssuesWithMetrics env accountId 84 in
  if (length issues <? 5)%nat then
    ret (createInsufficientDataResponse (now env) accountId (length issues))
  else
    await loadAnalysis <~ Load.analyzeLoadPatterns env h accountId in
    await timingAnalysis <~ Timing.analyzeTimingPatterns env h accountId "6months" in
    let weeklyData := analyzeWeeklyPatterns (now env) issues loadAnalysis timingAnalysis in
    let riskFactors :=
      detectRiskFactors h (getHours env (now env)) weeklyData loadAnalysis timingAnalysis in
    let riskFactors :=
      if (length riskFactors =? 0)%nat
      then (riskFactors ++ [baselineFactor])%list
      else riskFactors in
    let burnoutScore := calculateBurnoutScore riskFactors in
    let riskLevel := determinRiskLevel burnoutScore in
    let recommendations :=
      generateBurnoutRecommendations h riskLevel riskFactors weeklyData in
    let recovery := generateRecoveryPlan h riskLevel riskFactors in
    let analysis :=
      {| ba_accountId := accountId;
         burnoutScore := burnoutScore;
         riskLevel := riskLevel;
         riskFactors := riskFactors;
         ba_trends := weeklyData;
         ba_recommendations := recommendations;
         recoveryPlan := if (0 <? length recovery)%nat then Some recovery else None;
         ba_confidence :=
           if (30 <? length issues)%nat then high
           else if (15 <? length issues)%nat then medium
           else low;
         ba_dataPoints := length issues;
         ba_lastUpdated := now env |} in
    perform Cache.setCache (now env) cacheKey (BurnoutResult analysis) 6 in
    ret analysis.

End WithEnv.

End Burnout.

(** ** analyzers/predictions.ts *)

Module Predictions.

(** [historicalCycleTimes[Math.floor(r * historicalCycleTimes.length)]];
    [None] is JavaScript's [undefined] of an index outside the array. *)
Definition sample (historicalCycleTimes : list Z) (r : Q) : option Z :=
  let index := Qfloor (r * inject_Z (Z.of_nat (length historicalCycleTimes))) in
  if index <? 0 then None else historicalCycleTimes !! Z.to_nat index.

(** The inner loop over the tickets of one trial, from ticket number
    [ticket] on with [remaining] tickets left; [draw j] is the value of
    the call of [Math.random()] made for ticket [j]. Adding [undefined]
    makes [daysUsed] [NaN], the comparison false, and the loop stops. *)
Fixpoint simulateTickets (draw : nat -> Q) (historicalCycleTimes : list Z)
    (daysAvailable : Z) (remaining ticket : nat) (daysUsed : Z) (completed : nat) : nat :=
  match remaining with
  | O => completed
  | S remaining' =>
      match sample historicalCycleTimes (draw ticket) with
      | None => completed
      | Some randomCycleTime =>
          let daysUsed := daysUsed + randomCycleTime in
          if daysUsed <=? daysAvailable then
            simulateTickets draw historicalCycleTimes daysAvailable
              remaining' (S ticket) daysUsed (S completed)
          else completed
      end
  end.

Record SimulationResult := {
  sim_completionProbability : Q;
  expectedCompleted : Z;
  sim_confidenceInterval : ConfidenceInterval
}.

(** The list [results] after the outer loop: one entry per iteration.
    [rnd i j] is the random number drawn in iteration [i] for ticket [j]. *)
Definition simulationResults (rnd : nat -> nat -> Q) (ticketCount : nat)
    (historicalCycleTimes : list Z) (daysAvailable : Z) (iterations : nat) : list nat :=
  map (fun i => simulateTickets (rnd i) historicalCycleTimes daysAvailable
                  ticketCount 0 0 0)
      (seq 0 iterations).

Definition runMonteCarloSimulation (rnd : nat -> nat -> Q) (ticketCount : nat)
    (historicalCycleTimes : list Z) (daysAvailable : Z) (iterations : nat)
  : SimulationResult :=
  let results :=
    simulationResults rnd ticketCount historicalCycleTimes daysAvailable iterations in
  let expectedCompleted := average (map (fun r => inject_Z (Z.of_nat r)) results) in
  let completionProbability :=
    (inject_Z (Z.of_nat (length (List.filter (fun r => (r =? ticketCount)%nat) results)))
     / inject_Z (Z.of_nat iterations))%Q in
  let sorted := merge_sort Nat.le results in
  let lowIndex := Qfloor (inject_Z (Z.of_nat iterations) * (1 # 10)) in
  let highIndex := Qfloor (inject_Z (Z.of_nat iterations) * (9 # 10)) in
  {| sim_completionProbability := completionProbability;
     expectedCompleted := Qfloor (expectedCompleted + (1 # 2));
     sim_confidenceInterval :=
       {| ci_low := sorted !! Z.to_nat lowIndex;
          ci_high := sorted !! Z.to_nat highIndex |} |}.

Definition createInsufficientDataResponse (now : Z) (accountId : string)
    (dataPoints : nat) : SprintPrediction :=
  {| sp_accountId := accountId;
     sprintName := None;
     predictions :=
       {| completionProbability := 1 # 2;
          expectedTicketsCompleted := 0;
          confidenceInterval := {| ci_low := Some 0%nat; ci_high := Some 0%nat |};
          atRiskTickets := [] |};
     currentState :=
       {| totalTickets := 0; completedTickets := 0; remainingTickets := 0;
          st_daysRemaining := 0; currentVelocity := 0 |};
     whatIfScenarios := [];
     sp_recommendations :=
       [ "Need more data for sprint predictions (have " +:+ pretty dataPoints +:+
           ", need 5+)";
         "Complete more tickets to build historical data";
         "Predictions improve with more completed work" ];
     sp_confidence := low;
     sp_lastUpdated := now |}.

Section WithEnv.
Context (env : Env) (h : Helpers).

Definition predictSprintCompletion (accountId : string) : M Storage SprintPrediction :=
  let cacheKey := Cache.mkKey Cache.predictions accountId in
  await cached <~ getCachedAs asPrediction (now env) cacheKey 1 in
  match cached with
  | Some cached => ret cached
  | None =>
      let activeTickets := getActiveIssues env accountId in
      let historicalIssues := getUserIssuesWithMetrics env accountId 90 in
      if (length historicalIssues <? 5)%nat then
        ret (createInsufficientDataResponse (now env) accountId (length historicalIssues))
      else
        let cycleTimes := positiveCycleTimes historicalIssues in
        if (length cycleTimes =? 0)%nat then
          ret (createInsufficientDataResponse (now env) accountId 0)
        else
          let weekAgo := now env - 7 * DateHelpers.MS_PER_DAY in
          let recentCompletions :=
            List.filter (fun i : IssueWithMetrics =>
                      match i_resolved i with
                      | Some resolved => resolved >=? weekAgo
                      | None => false
                      end) historicalIssues in
          let currentVelocity := length recentCompletions in
          let daysRemaining := 10 in
          let simResults :=
            runMonteCarloSimulation (random env) (length activeTickets) cycleTimes
              daysRemaining 1000 in
          let atRiskTickets :=
            identifyAtRiskTickets h activeTickets cycleTimes daysRemaining in
          let whatIfScenarios :=
            generateWhatIfScenarios h (length activeTickets) cycleTimes daysRemaining in
          let recommendations :=
            generatePredictionRecommendations h (sim_completionProbability simResults)
              atRiskTickets (length activeTickets) daysRemaining in
          let prediction :=
            {| sp_accountId := accountId;
               sprintName := Some "Current Sprint";
               predictions :=
                 {| completionProbability := sim_completionProbability simResults;
                    expectedTicketsCompleted := expectedCompleted simResults;
                    confidenceInterval := sim_confidenceInterval simResults;
                    atRiskTickets := atRiskTickets |};
               currentState :=
                 {| totalTickets := length activeTickets;
                    completedTickets := 0;
                    remainingTickets := length activeTickets;
                    st_daysRemaining := daysRemaining;
                    currentVelocity := currentVelocity |};
               whatIfScenarios := whatIfScenarios;
               sp_recommendations := recommendations;
               sp_confidence :=
                 if (30 <? length historicalIssues)%nat then high
                 else if (15 <? length historicalIssues)%nat then medium
                 else low;
               sp_lastUpdated := now env |} in
          perform Cache.setCache (now env) cacheKey (PredictionResult prediction) 1 in
          ret prediction
  end.

End WithEnv.

End Predictions.

(** ** The analyzer entry points, side by side *)

Inductive Analyzer :=
| TimingAnalyzer | LoadAnalyzer | StrengthAnalyzer | TrendAnalyzer
| CollaborationAnalyzer | PitCrewAnalyzer | BurnoutAnalyzer | PredictionAnalyzer.

Definition lift {A : Type} (inj : A -> Analysis) (m : M Storage A) : M Storage Analysis :=
  await a <~ m in ret (inj a).

(** Each entry point with the default arguments of its signature
    ([timeRange = '6months'], [compareToTeam = true], [months = 6],
    [focusArea = 'all']). *)
Definition runAnalyzer (env : Env) (h : Helpers) (a : Analyzer) (accountId : string)
  : M Storage Analysis :=
  match a with
  | TimingAnalyzer =>
      lift TimingResult (Timing.analyzeTimingPatterns env h accountId "6months")
  | LoadAnalyzer => lift LoadResult (Load.analyzeLoadPatterns env h accountId)
  | StrengthAnalyzer =>
      lift StrengthResult (Strengths.analyzeStrengthPatterns env h accountId true)
  | TrendAnalyzer => lift TrendResult (Trends.analyzeTrends env h accountId 6)
  | CollaborationAnalyzer =>
      lift CollaborationResult (Collaboration.analyzeCollaborationPatterns env accountId "all")
  | PitCrewAnalyzer => lift PitCrewResult (PitCrew.analyzePitCrewPatterns env h accountId)
  | BurnoutAnalyzer => lift BurnoutResult (Burnout.analyzeBurnoutRisk env h accountId)
  | PredictionAnalyzer =>
      lift PredictionResult (Predictions.predictSprintCompletion env h accountId)
  end.

(** The cache key and the TTL (hours) each entry point reads and writes. *)
Definition analyzerNamespace (a : Analyzer) : Cache.Namespace :=
  match a with
  | TimingAnalyzer => Cache.timing
  | LoadAnalyzer => Cache.load
  | StrengthAnalyzer => Cache.strengths
  | TrendAnalyzer => Cache.trends
  | CollaborationAnalyzer => Cache.collaboration
  | PitCrewAnalyzer => Cache.pitcrew
  | BurnoutAnalyzer => Cache.burnout
  | PredictionAnalyzer => Cache.predictions
  end.

Definition analyzerTtl (a : Analyzer) : Q :=
  match a with
  | BurnoutAnalyzer => 6
  | PredictionAnalyzer => 1
  | _ => 24
  end.

(** The insufficient-data variant of each analyzer. *)
Definition insufficientData (now : Z) (a : Analyzer) (accountId : string)
    (dataPoints : nat) : Analysis :=
  match a with
  | TimingAnalyzer =>
      TimingResult (Timing.createInsufficientDataResponse now accountId dataPoints)
  | LoadAnalyzer =>
      LoadResult (Load.createInsufficientDataResponse now accountId dataPoints)
  | StrengthAnalyzer =>
      StrengthResult (Strengths.createInsufficientDataResponse now accountId dataPoints)
  | TrendAnalyzer =>
      TrendResult (Trends.createInsufficientDataResponse now accountId dataPoints 6)
  | CollaborationAnalyzer =>
      CollaborationResult (Collaboration.createInsufficientDataResponse now accountId dataPoints)
  | PitCrewAnalyzer =>
      PitCrewResult (PitCrew.createInsufficientDataResponse now accountId dataPoints)
  | BurnoutAnalyzer =>
      BurnoutResult (Burnout.createInsufficientDataResponse now accountId dataPoints)
  | PredictionAnalyzer =>
      PredictionResult (Predictions.createInsufficientDataResponse now accountId dataPoints)
  end.

(** * Properties *)

(** ** Metrics derivation *)

Section MetricsFacts.
Import Metrics.

(** Whether a done transition precedes the first in-progress one. *)
Fixpoint doneBeforeProgress (changelogs : list IssueChangelog) : bool :=
  match changelogs with
  | [] => false
  | c :: rest =>
      if isInProgressChange c then false
      else if isDoneChange c then true
      else doneBeforeProgress rest
  end.

Lemma in_progress_not_done c : isInProgressChange c = true -> isDoneChange c = false.
Proof.
  unfold isInProgressChange, isDoneChange.
  destruct (String.eqb (field c) "status"); simpl; [|discriminate].
  intros H. apply orb_true_iff in H as [H | H];
    apply String.eqb_eq in H; rewrite H; reflexivity.
Qed.

(** Without a done transition the cycle time and the lead time are 0. *)
Lemma no_done_cycle_and_lead_zero changelogs :
  List.find isDoneChange changelogs = None ->
  calculateCycleTime changelogs = 0 /\ calculateLeadTime changelogs = 0.
Proof.
  intros H. unfold calculateCycleTime, calculateLeadTime. rewrite H.
  split.
  - destruct (List.find isInProgressChange changelogs); reflexivity.
  - destruct changelogs; reflexivity.
Qed.

(** Without an in-progress transition the cycle time is 0. *)
Lemma no_in_progress_cycle_zero changelogs :
  List.find isInProgressChange changelogs = None ->
  calculateCycleTime changelogs = 0.
Proof. intros H. unfold calculateCycleTime. rewrite H. reflexivity. Qed.

(** When no done transition precedes the first in-progress one, the
    code computes the cycle time of the specification. *)
Lemma cycle_time_is_spec_when_ordered changelogs :
  doneBeforeProgress changelogs = false ->
  calculateCycleTime changelogs = spec_cycleTime changelogs.
Proof.
  unfold calculateCycleTime.
  induction changelogs as [|c rest IH]; simpl; [reflexivity|].
  destruct (isInProgressChange c) eqn:Hp.
  - intros _. rewrite (in_progress_not_done c Hp). reflexivity.
  - destruct (isDoneChange c) eqn:Hd; [discriminate|].
    intros H. apply IH, H.
Qed.

(** C1 (the code departs from the claim): on a history that is closed on
    day 0, taken up again on day 2 and closed on day 5, the code pairs
    the first in-progress transition with the first done transition of
    the whole history, which lies before it, and returns -2; the cycle
    time of the claim, up to the first done transition after the
    in-progress one, is 3 and is never negative. *)
Theorem cycle_time_reopened_history :
  calculateCycleTime reopenedHistory = -2 /\
  spec_cycleTime reopenedHistory = 3 /\
  calculateCycleTime reopenedHistory < 0.
Proof. repeat split; vm_compute; reflexivity. Qed.

End MetricsFacts.

(** ** Concurrent load *)

Section LoadFacts.
Import Load.

(** The end of an item's activity interval: resolved, or now. *)
Definition intervalEnd (now : Z) (i : IssueWithMetrics) : Z :=
  match i_resolved i with Some r => r | None => now end.

(** Two activity intervals overlap when they share an instant. *)
Definition overlap (now : Z) (a b : IssueWithMetrics) : Prop :=
  exists t, (i_created a <= t <= intervalEnd now a) /\
            (i_created b <= t <= intervalEnd now b).

Definition plainIssue (key : string) (created : Z) (resolved : option Z)
  : IssueWithMetrics :=
  {| issue :=
       {| i_id := key; i_key := key; i_summary := ""; i_issueType := "Task";
          i_status := "Done"; i_assignee := "dev"; i_assigneeAccountId := "acc-1";
          i_created := created; i_updated := created; i_resolved := resolved;
          i_storyPoints := None; i_components := []; i_labels := [];
          i_priority := None; i_project := "DT"; i_sprint := None |};
     metrics := None |}.

Definition itemA := plainIssue "DT-1" 0 (Some 10).
Definition itemB := plainIssue "DT-2" 5 (Some 15).
Definition itemC := plainIssue "DT-3" 8 None.

Lemma overlap_counts now a b :
  overlap now a b ->
  (i_created b <=? intervalEnd now a) && (intervalEnd now b >=? i_created a) = true.
Proof.
  intros [t [[Ha1 Ha2] [Hb1 Hb2]]].
  apply andb_true_iff. split; [apply Z.leb_le | apply Z.geb_le]; lia.
Qed.

(** C2, as stated, fails: three items that pairwise overlap get a
    concurrent load of 2 each, not 3. *)
Lemma concurrent_load_of_three_is_not_3 :
  overlap 20 itemA itemB /\ overlap 20 itemA itemC /\ overlap 20 itemB itemC /\
  calculateConcurrentLoad 20 itemA [itemA; itemB; itemC] <> 3%nat /\
  calculateConcurrentLoad 20 itemB [itemA; itemB; itemC] <> 3%nat /\
  calculateConcurrentLoad 20 itemC [itemA; itemB; itemC] <> 3%nat.
Proof.
  repeat split;
    try (exists 9; vm_compute; repeat split; discriminate);
    vm_compute; discriminate.
Qed.

(** C2, amended: for three items with distinct keys whose activity
    intervals pairwise overlap, the concurrent load of each, computed
    among these three, is 2: the item itself is left out and the two
    others are counted. *)
Theorem concurrent_load_of_three now (a b c : IssueWithMetrics) :
  i_key a <> i_key b -> i_key a <> i_key c -> i_key b <> i_key c ->
  overlap now a b -> overlap now a c -> overlap now b c ->
  calculateConcurrentLoad now a [a; b; c] = 2%nat /\
  calculateConcurrentLoad now b [a; b; c] = 2%nat /\
  calculateConcurrentLoad now c [a; b; c] = 2%nat.
Proof.
  intros Hab Hac Hbc Oab Oac Obc.
  assert (Oba : overlap now b a) by (destruct Oab as [t [? ?]]; exists t; tauto).
  assert (Oca : overlap now c a) by (destruct Oac as [t [? ?]]; exists t; tauto).
  assert (Ocb : overlap now c b) by (destruct Obc as [t [? ?]]; exists t; tauto).
  apply overlap_counts in Oab, Oac, Obc, Oba, Oca, Ocb.
  unfold intervalEnd in *.
  apply String.eqb_neq in Hab as Hab', Hac as Hac', Hbc as Hbc'.
  assert (Hba' : String.eqb (i_key b) (i_key a) = false)
    by (apply String.eqb_neq; congruence).
  assert (Hca' : String.eqb (i_key c) (i_key a) = false)
    by (apply String.eqb_neq; congruence).
  assert (Hcb' : String.eqb (i_key c) (i_key b) = false)
    by (apply String.eqb_neq; congruence).
  unfold calculateConcurrentLoad; simpl.
  rewrite !String.eqb_refl, Hab', Hac', Hbc', Hba', Hca', Hcb'.
  rewrite Oab, Oac, Obc, Oba, Oca, Ocb.
  repeat split; reflexivity.
Qed.

Lemma concurrent_load_of_three_witness :
  calculateConcurrentLoad 20 itemA [itemA; itemB; itemC] = 2%nat /\
  calculateConcurrentLoad 20 itemB [itemA; itemB; itemC] = 2%nat /\
  calculateConcurrentLoad 20 itemC [itemA; itemB; itemC] = 2%nat.
Proof.
  apply (concurrent_load_of_three 20 itemA itemB itemC);
    try (vm_compute; discriminate);
    exists 9; vm_compute; repeat split; discriminate.
Defined.

End LoadFacts.

(** ** Cache layer *)

Section CacheFacts.
Import Cache.
Context {T : Type}.

Implicit Types (st : gmap string (CacheEntry T)) (e : CacheEntry T).

(** The TTL in milliseconds, [ttlHours * 60 * 60 * 1000]. *)
Definition maxAgeOf (ttlHours : Q) : Q := (ttlHours * 60 * 60 * 1000)%Q.

Lemma Qgtb_true a b : Qgtb a b = true <-> (b < a)%Q.
Proof.
  unfold Qgtb, Qltb. rewrite negb_true_iff.
  split; intros H.
  - apply Qnot_le_lt. intros Hle. apply Qle_bool_iff in Hle. congruence.
  - destruct (Qle_bool a b) eqn:E; [|reflexivity].
    apply Qle_bool_iff in E. exfalso. eapply Qlt_not_le; eassumption.
Qed.

Lemma Qgtb_false a b : Qgtb a b = false <-> (a <= b)%Q.
Proof.
  unfold Qgtb, Qltb. rewrite negb_false_iff. apply Qle_bool_iff.
Qed.

Lemma Qltb_true a b : Qltb a b = true <-> (a < b)%Q.
Proof. apply (Qgtb_true b a). Qed.

Lemma Qltb_false a b : Qltb a b = false <-> (b <= a)%Q.
Proof. apply (Qgtb_false b a). Qed.

(** What [getCached] does with the entry found under the key. *)
Lemma getCached_found now key ttl st e :
  st !! buildCacheKey key = Some e ->
  getCached now key ttl st =
    if negb (String.eqb (version e) CACHE_VERSION)
    then (None, delete (buildCacheKey key) st)
    else if Qgtb (inject_Z (now - lastUpdated e)) (maxAgeOf ttl)
         then (None, st)
         else (Some (data e), st).
Proof.
  intros H. unfold getCached, bind, storage_get, storage_delete, ret, maxAgeOf.
  rewrite H.
  destruct (negb (String.eqb (version e) CACHE_VERSION)); [reflexivity|].
  destruct (Qgtb _ _); reflexivity.
Qed.

Lemma getCached_missing now key ttl st :
  st !! buildCacheKey key = None -> getCached now key ttl st = (None, st).
Proof.
  intros H. unfold getCached, bind, storage_get, ret. rewrite H. reflexivity.
Qed.

Lemma setCache_lookup now key (d : T) ttl st :
  snd (setCache now key d ttl st) !! buildCacheKey key =
    Some {| data := d; lastUpdated := now; ttlHours := ttl; version := CACHE_VERSION |}.
Proof. unfold setCache, storage_set. simpl. apply lookup_insert_eq. Qed.

(** C4: a [get] after a [set] of the same key with the same TTL returns
    the payload that was set as long as the time elapsed between the two
    is at most the TTL, and returns absent once more time has elapsed; an
    entry whose version differs from the current schema version is read as
    absent (and is deleted), whatever its age. *)
Theorem cache_get_after_set (key : CacheKey) (d : T) (ttl : Q) (t0 t1 : Z) st :
  let st' := snd (setCache t0 key d ttl st) in
  ((inject_Z (t1 - t0) <= maxAgeOf ttl)%Q ->
     getCached t1 key ttl st' = (Some d, st')) /\
  ((maxAgeOf ttl < inject_Z (t1 - t0))%Q ->
     getCached t1 key ttl st' = (None, st')) /\
  (forall e, st !! buildCacheKey key = Some e ->
     version e <> CACHE_VERSION ->
     getCached t1 key ttl st = (None, delete (buildCacheKey key) st)).
Proof.
  intros st'. repeat split.
  - intros Hage. subst st'.
    rewrite (getCached_found _ _ _ _ _ (setCache_lookup t0 key d ttl st)). simpl.
    apply Qgtb_false in Hage. rewrite Hage. reflexivity.
  - intros Hage. subst st'.
    rewrite (getCached_found _ _ _ _ _ (setCache_lookup t0 key d ttl st)). simpl.
    apply Qgtb_true in Hage. rewrite Hage. reflexivity.
  - intros e He Hv. rewrite (getCached_found _ _ _ _ _ He).
    apply String.eqb_neq in Hv. rewrite Hv. reflexivity.
Qed.

(** C5, amended: a version-matching entry is read as absent exactly when
    its age exceeds the TTL the reader passes to [getCached]; the
    [ttlHours] recorded in the entry plays no part. *)
Theorem cache_expiry_uses_reader_ttl now (key : CacheKey) (readerTtl : Q) st e :
  st !! buildCacheKey key = Some e ->
  version e = CACHE_VERSION ->
  (fst (getCached now key readerTtl st) = None <->
     (maxAgeOf readerTtl < inject_Z (now - lastUpdated e))%Q) /\
  (forall declaredTtl,
     let e' := {| data := data e; lastUpdated := lastUpdated e;
                  ttlHours := declaredTtl; version := version e |} in
     fst (getCached now key readerTtl (<[buildCacheKey key := e']> st)) =
     fst (getCached now key readerTtl st)).
Proof.
  intros He Hv.
  assert (Hvb : negb (String.eqb (version e) CACHE_VERSION) = false)
    by (rewrite Hv, String.eqb_refl; reflexivity).
  split.
  - rewrite (getCached_found _ _ _ _ _ He), Hvb.
    destruct (Qgtb _ _) eqn:E; simpl.
    + apply Qgtb_true in E. tauto.
    + apply Qgtb_false in E. split; [discriminate|].
      intros Hlt. exfalso. eapply Qlt_not_le; eassumption.
  - intros declaredTtl e'.
    rewrite (getCached_found now key readerTtl _ e' (lookup_insert_eq _ _ _)).
    rewrite (getCached_found _ _ _ _ _ He). subst e'. simpl. rewrite Hvb.
    destruct (Qgtb _ _); reflexivity.
Qed.

End CacheFacts.

Definition statusKey : Cache.CacheKey := Cache.mkKey Cache.status "acc-1".

(** An entry declared with a TTL of one hour, written at time 0. *)
Definition shortLivedStore : gmap string (Cache.CacheEntry nat) :=
  snd (Cache.setCache 0 statusKey 42%nat 1 ∅).

Lemma cache_get_after_set_witness :
  Cache.getCached DateHelpers.MS_PER_HOUR statusKey 1 shortLivedStore
    = (Some 42%nat, shortLivedStore).
Proof.
  apply (cache_get_after_set statusKey 42%nat 1 0 DateHelpers.MS_PER_HOUR ∅).
  vm_compute. discriminate.
Defined.

(** C5, as stated, fails: two hours after an entry was written with a
    declared TTL of one hour, a reader that passes 24 hours still gets the
    payload. *)
Lemma stale_entry_served_to_patient_reader :
  shortLivedStore !! Cache.buildCacheKey statusKey =
    Some {| Cache.data := 42%nat; Cache.lastUpdated := 0;
            Cache.ttlHours := 1; Cache.version := Cache.CACHE_VERSION |} /\
  (maxAgeOf 1 < inject_Z (2 * DateHelpers.MS_PER_HOUR - 0))%Q /\
  fst (Cache.getCached (2 * DateHelpers.MS_PER_HOUR) statusKey 24 shortLivedStore)
    = Some 42%nat.
Proof. repeat split; vm_compute; reflexivity. Qed.

Lemma cache_expiry_uses_reader_ttl_witness :
  fst (Cache.getCached (2 * DateHelpers.MS_PER_HOUR) statusKey 24 shortLivedStore) = None
  <-> (maxAgeOf 24 < inject_Z (2 * DateHelpers.MS_PER_HOUR - 0))%Q.
Proof.
  apply (cache_expiry_uses_reader_ttl (2 * DateHelpers.MS_PER_HOUR) statusKey 24
           shortLivedStore
           {| Cache.data := 42%nat; Cache.lastUpdated := 0;
              Cache.ttlHours := 1; Cache.version := Cache.CACHE_VERSION |});
    vm_compute; reflexivity.
Defined.

(** ** Burnout risk *)

Section BurnoutFacts.
Import Burnout.

Definition impactInRange (f : BurnoutRiskFactor) : Prop := 5 <= impact f <= 40.

Ltac push_factor :=
  first
    [ assumption
    | apply Forall_app_2;
      [ assumption
      | constructor; [unfold impactInRange; simpl; lia | constructor] ] ].

Lemma sustainedOverloadFactor_impacts weeklyData factors :
  Forall impactInRange factors ->
  Forall impactInRange (sustainedOverloadFactor weeklyData factors).
Proof.
  intros H. unfold sustainedOverloadFactor. cbv zeta.
  repeat case_match; simplify_eq; push_factor.
Qed.

Lemma currentLoadFactor_impacts loadAnalysis factors :
  Forall impactInRange factors ->
  Forall impactInRange (currentLoadFactor loadAnalysis factors).
Proof.
  intros H. unfold currentLoadFactor.
  destruct (currentStatus loadAnalysis); repeat case_match; push_factor.
Qed.

Lemma decliningVelocityFactor_impacts h weeklyData factors :
  Forall impactInRange factors ->
  Forall impactInRange (decliningVelocityFactor h weeklyData factors).
Proof.
  intros H. unfold decliningVelocityFactor. cbv zeta.
  repeat case_match; simplify_eq; push_factor.
Qed.

Lemma dangerHoursFactor_impacts currentHour timingAnalysis factors :
  Forall impactInRange factors ->
  Forall impactInRange (dangerHoursFactor currentHour timingAnalysis factors).
Proof.
  intros H. unfold dangerHoursFactor. cbv zeta.
  repeat case_match; push_factor.
Qed.

Lemma crunchWeeksFactor_impacts weeklyData factors :
  Forall impactInRange factors ->
  Forall impactInRange (crunchWeeksFactor weeklyData factors).
Proof.
  intros H. unfold crunchWeeksFactor. cbv zeta.
  repeat case_match; push_factor.
Qed.

(** Every factor that [detectRiskFactors] reports weighs between 5 and 40. *)
Lemma detected_impacts h currentHour weeklyData loadAnalysis timingAnalysis :
  Forall impactInRange
    (detectRiskFactors h currentHour weeklyData loadAnalysis timingAnalysis).
Proof.
  unfold detectRiskFactors. cbv zeta.
  apply crunchWeeksFactor_impacts, dangerHoursFactor_impacts,
    decliningVelocityFactor_impacts, currentLoadFactor_impacts,
    sustainedOverloadFactor_impacts.
  constructor.
Qed.

Lemma total_impact_from factors acc :
  Forall impactInRange factors ->
  acc + 5 * Z.of_nat (length factors)
    <= fold_left (fun sum factor => sum + impact factor) factors acc.
Proof.
  intros H. revert acc.
  induction H as [|f fs Hf _ IH]; intros acc; simpl fold_left.
  - simpl. lia.
  - specialize (IH (acc + impact f)). unfold impactInRange in Hf.
    rewrite length_cons, Nat2Z.inj_succ. lia.
Qed.

(** The cap: no list of factors scores more than 100. *)
Lemma calculateBurnoutScore_capped factors : calculateBurnoutScore factors <= 100.
Proof. unfold calculateBurnoutScore. case_match; lia. Qed.

(** The score of a non-empty list of factors in range lies in [5, 100]. *)
Lemma score_of_factors factors :
  Forall impactInRange factors -> factors <> [] ->
  5 <= calculateBurnoutScore factors <= 100.
Proof.
  intros H Hne. unfold calculateBurnoutScore.
  destruct factors as [|f fs]; [congruence|].
  change (length (f :: fs) =? 0)%nat with false. cbv iota.
  pose proof (total_impact_from (f :: fs) 0 H) as Hsum.
  rewrite length_cons, Nat2Z.inj_succ in Hsum. lia.
Qed.

(** The factors that are scored: the detected ones, or the baseline factor
    when none was detected. *)
Definition withBaseline (riskFactors : list BurnoutRiskFactor) : list BurnoutRiskFactor :=
  if (length riskFactors =? 0)%nat then (riskFactors ++ [baselineFactor])%list
  else riskFactors.

Lemma withBaseline_scored riskFactors :
  Forall impactInRange riskFactors ->
  Forall impactInRange (withBaseline riskFactors) /\ withBaseline riskFactors <> [].
Proof.
  intros H. unfold withBaseline. destruct riskFactors as [|f fs]; simpl.
  - split; [|discriminate].
    constructor; [unfold impactInRange; simpl; lia | constructor].
  - split; [assumption | discriminate].
Qed.

(** The shape of a run of the burnout analyzer. *)
Lemma analyzeBurnoutRisk_cases env h accountId (st : Storage) :
  let issues := getUserIssuesWithMetrics env accountId 84 in
  let r := fst (analyzeBurnoutRisk env h accountId st) in
  ((length issues < 5)%nat /\
     r = createInsufficientDataResponse (now env) accountId (length issues)) \/
  ((5 <= length issues)%nat /\
     exists loadAnalysis timingAnalysis,
       let detected :=
         detectRiskFactors h (getHours env (now env))
           (analyzeWeeklyPatterns (now env) issues loadAnalysis timingAnalysis)
           loadAnalysis timingAnalysis in
       riskFactors r = withBaseline detected /\
       burnoutScore r = calculateBurnoutScore (withBaseline detected) /\
       riskLevel r = determinRiskLevel (burnoutScore r)).
Proof.
  intros issues r. subst r. unfold analyzeBurnoutRisk, bind.
  destruct (getCachedAs asBurnout _ _ _ st) as [cached st1].
  fold issues.
  destruct (length issues <? 5)%nat eqn:E.
  - left. apply Nat.ltb_lt in E. split; [assumption | reflexivity].
  - right. apply Nat.ltb_ge in E. split; [assumption|].
    destruct (Load.analyzeLoadPatterns env h accountId st1) as [la st2].
    destruct (Timing.analyzeTimingPatterns env h accountId "6months" st2) as [ta st3].
    exists la, ta. simpl. unfold withBaseline. repeat split; reflexivity.
Qed.

(** The risk levels in order of severity. *)
Definition riskRank (l : RiskLevel) : Z :=
  match l with healthy => 0 | warning => 1 | high_risk => 2 | critical => 3 end.

Lemma determinRiskLevel_rank score :
  riskRank (determinRiskLevel score) =
    if score >=? 70 then 3 else if score >=? 50 then 2
    else if score >=? 30 then 1 else 0.
Proof. unfold determinRiskLevel. repeat case_match; reflexivity. Qed.

(** C3: the burnout score of every run of the analyzer lies in [0, 100]
    and the reported risk level is the threshold function of that score:
    healthy below 30, warning from 30 to 49, high from 50 to 69, critical
    from 70 on; the level never decreases when the score grows, 69 is high
    and 70 is critical. *)
Theorem burnout_score_bounds_and_levels :
  (forall env h accountId (st : Storage),
     let r := fst (analyzeBurnoutRisk env h accountId st) in
     0 <= burnoutScore r <= 100 /\
     riskLevel r = determinRiskLevel (burnoutScore r)) /\
  (forall score,
     (determinRiskLevel score = healthy <-> score < 30) /\
     (determinRiskLevel score = warning <-> 30 <= score <= 49) /\
     (determinRiskLevel score = high_risk <-> 50 <= score <= 69) /\
     (determinRiskLevel score = critical <-> 70 <= score)) /\
  (forall s1 s2, s1 <= s2 ->
     riskRank (determinRiskLevel s1) <= riskRank (determinRiskLevel s2)) /\
  determinRiskLevel 69 = high_risk /\
  determinRiskLevel 70 = critical.
Proof.
  split; [|split; [|split; [|split; reflexivity]]].
  - intros env h accountId st r.
    destruct (analyzeBurnoutRisk_cases env h accountId st) as [[_ Hr] | [_ Hr]];
      fold r in Hr.
    + rewrite Hr. simpl. split; [lia | reflexivity].
    + destruct Hr as (la & ta & _ & Hscore & Hlevel).
      split; [|exact Hlevel]. rewrite Hscore.
      destruct (withBaseline_scored _ (detected_impacts h (getHours env (now env))
                  (analyzeWeeklyPatterns (now env) (getUserIssuesWithMetrics env accountId 84) la ta)
                  la ta)) as [Hall Hne].
      pose proof (score_of_factors _ Hall Hne). lia.
  - intros score. unfold determinRiskLevel.
    destruct (score >=? 70) eqn:E1; [|destruct (score >=? 50) eqn:E2;
      [|destruct (score >=? 30) eqn:E3]];
      rewrite ?Z.geb_leb, ?Z.leb_le, ?Z.leb_gt in *;
      repeat split; intros; try discriminate; try lia; try reflexivity.
  - intros s1 s2 Hle. rewrite !determinRiskLevel_rank.
    repeat case_match; rewrite ?Z.geb_leb, ?Z.leb_le, ?Z.leb_gt in *; lia.
Qed.

(** C10: with at least 5 sample items the burnout analyzer returns a score
    of at least 5; when no risk factor is detected, the factors it scores
    are the single baseline factor of impact 5; so a score of 0 comes from
    the insufficient-data path only. *)
Theorem burnout_score_at_least_5 env h accountId (st : Storage) :
  let issues := getUserIssuesWithMetrics env accountId 84 in
  let r := fst (analyzeBurnoutRisk env h accountId st) in
  ((5 <= length issues)%nat ->
     5 <= burnoutScore r /\
     riskFactors r <> [] /\
     (exists loadAnalysis timingAnalysis,
        let detected :=
          detectRiskFactors h (getHours env (now env))
            (analyzeWeeklyPatterns (now env) issues loadAnalysis timingAnalysis)
            loadAnalysis timingAnalysis in
        riskFactors r = (if (length detected =? 0)%nat then [baselineFactor] else detected))) /\
  (burnoutScore r = 0 ->
     (length issues < 5)%nat /\
     r = createInsufficientDataResponse (now env) accountId (length issues)) /\
  calculateBurnoutScore [baselineFactor] = 5 /\
  impact baselineFactor = 5 /\ factor baselineFactor = sustained_overload.
Proof.
  intros issues r.
  pose proof (analyzeBurnoutRisk_cases env h accountId st) as Hcases.
  fold issues r in Hcases. cbv zeta in Hcases.
  assert (Hfull : (5 <= length issues)%nat ->
            exists la ta,
              let detected :=
                detectRiskFactors h (getHours env (now env))
                  (analyzeWeeklyPatterns (now env) issues la ta) la ta in
              riskFactors r = withBaseline detected /\
              5 <= burnoutScore r /\ riskFactors r <> []).
  { intros Hlen. destruct Hcases as [[Hlt _] | [_ Hr]]; [lia|].
    destruct Hr as (la & ta & Hfac & Hscore & _).
    exists la, ta. cbv zeta. split; [exact Hfac|].
    destruct (withBaseline_scored _ (detected_impacts h (getHours env (now env))
                (analyzeWeeklyPatterns (now env) issues la ta) la ta)) as [Hall Hne].
    pose proof (score_of_factors _ Hall Hne).
    rewrite Hscore, Hfac. split; [lia | exact Hne]. }
  split; [|split; [|repeat split; reflexivity]].
  - intros Hlen. destruct (Hfull Hlen) as (la & ta & Hfac & Hscore & Hne).
    split; [exact Hscore|]. split; [exact Hne|].
    exists la, ta. cbv zeta. rewrite Hfac. unfold withBaseline.
    destruct (detectRiskFactors _ _ _ _ _); reflexivity.
  - intros Hzero. destruct Hcases as [[Hlt Hr] | [Hge _]].
    + split; assumption.
    + destruct (Hfull Hge) as (_ & _ & _ & Hscore & _). lia.
Qed.

End BurnoutFacts.

(** ** Sprint prediction *)

Section PredictionFacts.
Import Predictions.

(** A trial that completes all of its tickets also completes all of them
    when the last ticket is dropped and the random draws are the same. *)
Lemma simulateTickets_all_but_last draw times days remaining :
  forall ticket daysUsed completed,
    simulateTickets draw times days (S remaining) ticket daysUsed completed
      = (completed + S remaining)%nat ->
    simulateTickets draw times days remaining ticket daysUsed completed
      = (completed + remaining)%nat.
Proof.
  induction remaining as [|n IH]; intros ticket daysUsed completed H.
  - simpl. lia.
  - remember (S n) as m eqn:Hm. simpl in H.
    destruct (sample times (draw ticket)) as [c|] eqn:Hs; [|lia].
    destruct (daysUsed + c <=? days) eqn:Hd; [|lia].
    subst m. simpl simulateTickets at 1. rewrite Hs, Hd.
    rewrite (IH (S ticket) (daysUsed + c) (S completed)); [lia|].
    rewrite H. lia.
Qed.

(** The number of trials that complete every ticket does not grow with
    the number of tickets. *)
Lemma full_trials_antitone rnd times days iterations ticketCount :
  (length (List.filter (fun r => (r =? S ticketCount)%nat)
             (simulationResults rnd (S ticketCount) times days iterations))
   <= length (List.filter (fun r => (r =? ticketCount)%nat)
             (simulationResults rnd ticketCount times days iterations)))%nat.
Proof.
  unfold simulationResults.
  induction (seq 0 iterations) as [|i l IH]; cbn [map List.filter length]; [lia|].
  destruct (simulateTickets (rnd i) times days (S ticketCount) 0 0 0 =? S ticketCount)%nat
    eqn:E.
  - apply Nat.eqb_eq in E.
    pose proof (simulateTickets_all_but_last (rnd i) times days ticketCount 0 0 0%nat E) as E'.
    rewrite Nat.add_0_l in E'. rewrite E', Nat.eqb_refl. cbn [length]. lia.
  - destruct (_ =? ticketCount)%nat; cbn [length]; lia.
Qed.

(** C6: with the historical cycle times, the day budget, the number of
    iterations and the random draws (iteration by iteration and ticket by
    ticket) held fixed, the completion probability reported for N + 1
    tickets is at most the one reported for N tickets. *)
Theorem completion_probability_antitone
    (rnd : nat -> nat -> Q) (historicalCycleTimes : list Z) (daysAvailable : Z)
    (iterations ticketCount : nat) :
  (0 < iterations)%nat ->
  (sim_completionProbability
     (runMonteCarloSimulation rnd (S ticketCount) historicalCycleTimes daysAvailable iterations)
   <= sim_completionProbability
     (runMonteCarloSimulation rnd ticketCount historicalCycleTimes daysAvailable iterations))%Q.
Proof.
  intros Hit. unfold runMonteCarloSimulation. cbv zeta. simpl sim_completionProbability.
  pose proof (full_trials_antitone rnd historicalCycleTimes daysAvailable iterations ticketCount)
    as Hcount.
  unfold Qdiv. apply Qmult_le_compat_r.
  - rewrite <- Zle_Qle. lia.
  - apply Qinv_le_0_compat. change 0%Q with (inject_Z 0). rewrite <- Zle_Qle. lia.
Qed.

(** Draws that always pick the first historical cycle time. *)
Definition firstSample : nat -> nat -> Q := fun _ _ => 0%Q.

Lemma completion_probability_antitone_witness :
  Qle (sim_completionProbability (runMonteCarloSimulation firstSample 4 [3; 5] 10 20))
      (sim_completionProbability (runMonteCarloSimulation firstSample 3 [3; 5] 10 20)).
Proof.
  apply (completion_probability_antitone firstSample [3; 5] 10 20 3). lia.
Defined.

(** Draws that always pick the second of two historical cycle times. *)
Definition secondSample : nat -> nat -> Q := fun _ _ => (1 # 2)%Q.

(** The coupling matters: when the two simulations see different draws,
    the one with more tickets can report the higher probability. *)
Remark uncoupled_draws_can_favour_more_tickets :
  Qlt (sim_completionProbability (runMonteCarloSimulation secondSample 1 [3; 50] 10 20))
      (sim_completionProbability (runMonteCarloSimulation firstSample 2 [3; 50] 10 20)).
Proof. vm_compute. reflexivity. Qed.

End PredictionFacts.

(** ** Collaboration chemistry *)

Section ChemistryFacts.
Import PitCrew.

(** The chemistry score as the specification words it, from the speed
    multiplier and the number of shared items. *)
Definition spec_chemistryScore (multiplier : Q) (shared : nat) : Z :=
  let speed :=
    if Qgtb multiplier (12 # 10) then 30
    else if Qgtb multiplier 1 then 15
    else if Qltb multiplier (8 # 10) then -20
    else 0 in
  let frequency :=
    if (10 <? shared)%nat then 20
    else if (5 <? shared)%nat then 10
    else 0 in
  Z.max 0 (Z.min 100 (50 + speed + frequency)).

Lemma chemistryOf_spec soloAvg accountId data :
  let c := chemistryOf soloAvg accountId data in
  score c = spec_chemistryScore (speedMultiplier c) (collaborations c) /\
  0 <= score c <= 100 /\
  (rating c = excellent <-> 80 <= score c).
Proof.
  unfold chemistryOf, spec_chemistryScore. cbv zeta.
  cbn [score speedMultiplier collaborations rating].
  set (m := if Qgtb soloAvg 0 then _ else _).
  set (n := length (sharedIssues data)).
  split; [|split].
  - repeat case_match; reflexivity.
  - lia.
  - repeat case_match; rewrite ?Z.leb_le, ?Z.leb_gt in *;
      split; intros; try discriminate; try reflexivity; try lia.
Qed.

(** Every entry of the result of [calculateChemistryScores] is the score
    record of one collaborator. *)
Lemma chemistry_entries soloAvg (collaborationData : list (string * CollaborationData)) :
  forall (acc : gmap string ChemistryScore),
    (forall id c, acc !! id = Some c -> exists data, c = chemistryOf soloAvg id data) ->
    forall id c,
      fold_left
        (fun scores kv => <[fst kv := chemistryOf soloAvg (fst kv) (snd kv)]> scores)
        collaborationData acc !! id = Some c ->
      exists data, c = chemistryOf soloAvg id data.
Proof.
  induction collaborationData as [|[k d] rest IH]; intros acc Hacc id c; simpl.
  - apply Hacc.
  - apply IH. intros id' c' H.
    destruct (decide (k = id')) as [->|Hne].
    + rewrite lookup_insert_eq in H. inversion H. eauto.
    + rewrite lookup_insert_ne in H by assumption. eauto.
Qed.

Definition teammateIssue (key assignee : string) (cycle : Z) : IssueWithMetrics :=
  {| issue :=
       {| i_id := key; i_key := key; i_summary := ""; i_issueType := "Task";
          i_status := "Done"; i_assignee := assignee; i_assigneeAccountId := assignee;
          i_created := 0; i_updated := 0; i_resolved := Some 0;
          i_storyPoints := None; i_components := []; i_labels := [];
          i_priority := None; i_project := "DT"; i_sprint := None |};
     metrics :=
       Some {| m_issueKey := key; cycleTimeDays := cycle; leadTimeDays := cycle;
               inProgressDuration := 0; reviewDuration := 0; wasReopened := false;
               hadDefect := false; numberOfRevisions := 0 |} |}.

(** Twelve items shared with "bob" that took 7 days each and twelve
    items of the subject ("me") that took 13 days each: the mean over all
    items, which the code calls the solo average, is 10 days. *)
Definition sharedHistory : list IssueWithMetrics :=
  (map (fun n => teammateIssue ("S-" +:+ pretty n) "bob" 7) (seq 0 12) ++
   map (fun n => teammateIssue ("M-" +:+ pretty n) "me" 13) (seq 0 12))%list.



(** What [extractCollaborationData] collects about "bob" in that history,
    and the score record computed from it. *)
Definition bobData : CollaborationData :=
  {| cd_accountId := "bob";
     cd_displayName := "bob";
     sharedIssues := map (fun n => "S-" +:+ pretty n) (seq 0 12);
     cycleTimes := repeat 7 12 |}.

Definition bobScore : ChemistryScore :=
  chemistryOf (average (map inject_Z (positiveCycleTimes sharedHistory))) "bob" bobData.


End ChemistryFacts.

(** ** The analyzer entry points and the cache *)

Section EntryPointFacts.
Import Cache.

(** The window of history (days back) each entry point fetches. *)
Definition analyzerDaysBack (a : Analyzer) : Z :=
  match a with
  | BurnoutAnalyzer => 84
  | PredictionAnalyzer => 90
  | _ => 180
  end.

(** Whether a payload is the analysis of the given analyzer. *)
Definition payloadOf (a : Analyzer) (p : Analysis) : bool :=
  match a, p with
  | TimingAnalyzer, TimingResult _ | LoadAnalyzer, LoadResult _
  | StrengthAnalyzer, StrengthResult _ | TrendAnalyzer, TrendResult _
  | CollaborationAnalyzer, CollaborationResult _ | PitCrewAnalyzer, PitCrewResult _
  | BurnoutAnalyzer, BurnoutResult _ | PredictionAnalyzer, PredictionResult _ => true
  | _, _ => false
  end.

(** What an entry point hands back on a cache hit: the payload, with the
    current load and its status refreshed in the case of the load
    analysis. *)
Definition servedFromCache (env : Env) (accountId : string) (p : Analysis) : Analysis :=
  match p with
  | LoadResult l => LoadResult (Load.refreshCurrentLoad l (countActiveTickets env accountId))
  | _ => p
  end.

Lemma getCachedAs_eq {A : Type} (cast : Analysis -> option A) now key ttl (st : Storage) :
  getCachedAs cast now key ttl st =
    (match fst (getCached now key ttl st) with Some a => cast a | None => None end,
     snd (getCached now key ttl st)).
Proof.
  unfold getCachedAs, bind, ret. destruct (getCached now key ttl st). reflexivity.
Qed.

Lemma getCached_hit now key ttl (st : Storage) e :
  st !! buildCacheKey key = Some e ->
  version e = CACHE_VERSION ->
  (inject_Z (now - lastUpdated e) <= maxAgeOf ttl)%Q ->
  getCached now key ttl st = (Some (data e), st).
Proof.
  intros He Hv Hage. rewrite (getCached_found _ _ _ _ _ He).
  rewrite Hv, String.eqb_refl. simpl.
  apply Qgtb_false in Hage. rewrite Hage. reflexivity.
Qed.

Lemma timing_daysBack now :
  (snd (DateHelpers.getTimeRange now "6months") - fst (DateHelpers.getTimeRange now "6months"))
    / DateHelpers.MS_PER_DAY = 180.
Proof.
  unfold DateHelpers.getTimeRange, DateHelpers.getDaysAgo. simpl fst. simpl snd.
  change (DateHelpers.timeRangeDays "6months") with 180.
  replace (now - (now - 180 * DateHelpers.MS_PER_DAY)) with (180 * DateHelpers.MS_PER_DAY) by lia.
  apply Z.div_mul. discriminate.
Qed.

(** C8, amended: on a version-matching entry under its key that is not
    older than the TTL the entry point passes, the timing, strength,
    trend, collaboration, pit-crew and prediction entry points return the
    cached payload as it is, and the load entry point returns it with
    [currentLoad] and [currentStatus] set from the live count of active
    tickets; none of them fetches the history, recomputes the analysis or
    writes the storage. *)
Theorem cached_result_returned env h (a : Analyzer) accountId (st : Storage) e :
  a <> BurnoutAnalyzer ->
  st !! buildCacheKey (mkKey (analyzerNamespace a) accountId) = Some e ->
  version e = CACHE_VERSION ->
  (inject_Z (now env - lastUpdated e) <= maxAgeOf (analyzerTtl a))%Q ->
  payloadOf a (data e) = true ->
  runAnalyzer env h a accountId st =
    (match a with
     | LoadAnalyzer => servedFromCache env accountId (data e)
     | _ => data e
     end, st).
Proof.
  intros Hb He Hv Hage Hp.
  pose proof (getCached_hit _ _ _ _ _ He Hv Hage) as Hhit.
  destruct a; try congruence; destruct (data e) as [p|p|p|p|p|p|p|p] eqn:Hd;
    try discriminate Hp; simpl in Hhit |- *;
    unfold lift, bind,
      Timing.analyzeTimingPatterns, Load.analyzeLoadPatterns,
      Strengths.analyzeStrengthPatterns, Trends.analyzeTrends,
      Collaboration.analyzeCollaborationPatterns, PitCrew.analyzePitCrewPatterns,
      Predictions.predictSprintCompletion;
    cbv zeta; unfold bind; rewrite getCachedAs_eq, Hhit; reflexivity.
Qed.

(** C9: when the history an entry point fetches has exactly 4 items (the
    fetch takes place on a cache miss; the burnout entry point fetches in
    any case), the entry point returns its insufficient-data variant for 4
    data points, whose confidence is low, and writes nothing to the
    cache. *)
Theorem four_items_insufficient env h (a : Analyzer) accountId (st : Storage) :
  length (getUserIssuesWithMetrics env accountId (analyzerDaysBack a)) = 4%nat ->
  (a <> BurnoutAnalyzer ->
   fst (getCached (now env) (mkKey (analyzerNamespace a) accountId) (analyzerTtl a) st) = None) ->
  fst (runAnalyzer env h a accountId st) = insufficientData (now env) a accountId 4 /\
  confidenceOf (fst (runAnalyzer env h a accountId st)) = low /\
  snd (runAnalyzer env h a accountId st) =
    snd (getCached (now env) (mkKey (analyzerNamespace a) accountId) (analyzerTtl a) st).
Proof.
  intros Hlen Hmiss.
  assert (Hres : runAnalyzer env h a accountId st =
            (insufficientData (now env) a accountId 4,
             snd (getCached (now env) (mkKey (analyzerNamespace a) accountId)
                    (analyzerTtl a) st))).
  { destruct a; simpl in Hlen, Hmiss |- *;
      try (specialize (Hmiss ltac:(discriminate)));
      unfold lift, bind,
        Timing.analyzeTimingPatterns, Load.analyzeLoadPatterns,
        Strengths.analyzeStrengthPatterns, Trends.analyzeTrends,
        Collaboration.analyzeCollaborationPatterns, PitCrew.analyzePitCrewPatterns,
        Burnout.analyzeBurnoutRisk, Predictions.predictSprintCompletion;
      cbv zeta; unfold bind; rewrite getCachedAs_eq; try rewrite Hmiss;
      try (rewrite (surjective_pairing (DateHelpers.getTimeRange (now env) "6months")),
             timing_daysBack);
      try change (6 * 30) with 180;
      rewrite Hlen; reflexivity. }
  rewrite Hres. simpl fst. simpl snd. repeat split.
  destruct a; reflexivity.
Qed.

End EntryPointFacts.

(** ** Concrete runs *)

(** Helper functions that return empty results. *)
Definition emptyHelpers : Helpers :=
  {| groupByHour := fun _ => [];
     analyzeDayPatterns := fun _ => ∅;
     findPeakWindow := fun _ =>
       {| pw_start := 10; pw_end := 12; qualityMultiplier := 1; pw_description := "" |};
     findDangerZone := fun _ => None;
     generateTimingRecommendations := fun _ _ _ => [];
     buildLoadCurve := fun _ => ∅;
     generateLoadRecommendations := fun _ _ _ _ => [];
     analyzeByTicketType := fun _ _ _ => ∅;
     analyzeByComponent := fun _ _ _ => ∅;
     generateStrengthRecommendations := fun _ _ => [];
     groupByMonth := fun _ => ∅;
     calculateVelocityTrend := fun _ => [];
     calculateQualityTrend := fun _ => [];
     calculateSkillsEvolution := fun _ => [];
     calculatePeriodComparison := fun _ =>
       {| pc_current := Trends.emptyPeriod "Current";
          pc_previous := Trends.emptyPeriod "Previous";
          pc_delta := ∅ |};
     generateTrendRecommendations := fun _ _ _ => [];
     generateBurnoutRecommendations := fun _ _ _ => [];
     generateRecoveryPlan := fun _ _ => [];
     buildTeammateProfiles := fun _ => [];
     buildCollaborationNetwork := fun _ _ _ => [];
     calculateTeamMetrics := fun _ _ _ =>
       {| avgCollaborationCycleTime := 0; fastestUnblocker := None;
          bestPair := None; totalCollaborations := 0 |};
     generatePitCrewRecommendations := fun _ _ _ => [];
     identifyAtRiskTickets := fun _ _ _ => [];
     generateWhatIfScenarios := fun _ _ _ => [];
     generatePredictionRecommendations := fun _ _ _ _ => [];
     toFixed0 := fun _ => "" |}.

Definition day (n : Z) : Z := n * DateHelpers.MS_PER_DAY.

(** A subject with [n] resolved items in every window and 12 active
    tickets, seen on day 1000 at 10 o'clock. *)
Definition subjectWith (n : nat) : Env :=
  {| now := day 1000;
     getHours := fun _ => 10;
     getUserIssuesWithMetrics := fun _ _ =>
       map (fun k => plainIssue ("DT-" +:+ pretty k) (day 990) (Some (day 995))) (seq 0 n);
     getActiveIssues := fun _ =>
       map (fun k => issue (plainIssue ("AC-" +:+ pretty k) (day 999) None)) (seq 0 12);
     random := fun _ _ => 0%Q |}.

Definition cachedBurnout : BurnoutAnalysis :=
  {| ba_accountId := "acc-1"; burnoutScore := 50; riskLevel := high_risk;
     riskFactors := []; 
     ba_trends := {| weeklyOverload := []; dangerHourWork := []; velocityTrend := [] |};
     ba_recommendations := []; recoveryPlan := None; ba_confidence := medium;
     ba_dataPoints := 20; ba_lastUpdated := day 1000 - 1 |}.

Definition cachedLoad : LoadAnalysis :=
  {| la_accountId := "acc-1"; optimalRange := {| or_min := 5; or_max := 9 |};
     loadCurve := ∅; currentLoad := 3; currentStatus := under;
     la_recommendations := []; la_confidence := medium; la_dataPoints := 20;
     la_lastUpdated := day 1000 - 1 |}.

Definition cachedTiming : TimingAnalysis :=
  {| ta_accountId := "acc-1";
     peakWindow :=
       {| pw_start := 9; pw_end := 11; qualityMultiplier := 1; pw_description := "" |};
     dangerZone := None; dayPatterns := ∅; ta_recommendations := [];
     ta_confidence := medium; ta_dataPoints := 20; ta_lastUpdated := day 1000 - 1 |}.

Definition freshEntry (p : Analysis) (ttl : Q) : Cache.CacheEntry Analysis :=
  {| Cache.data := p; Cache.lastUpdated := day 1000 - 1;
     Cache.ttlHours := ttl; Cache.version := Cache.CACHE_VERSION |}.

(** A storage with entries written one millisecond before the run. *)
Definition warmStorage : Storage :=
  <[ "user:acc-1:burnout" := freshEntry (BurnoutResult cachedBurnout) 6 ]>
  (<[ "user:acc-1:load" := freshEntry (LoadResult cachedLoad) 24 ]>
   (<[ "user:acc-1:timing" := freshEntry (TimingResult cachedTiming) 24 ]> ∅)).

(** C8, as stated, fails: with version-matching, unexpired entries in the
    cache, the burnout entry point returns a freshly computed analysis
    (score 15) instead of the cached one (score 50), and the load entry
    point returns the cached analysis with the current load replaced. *)
Lemma cached_result_not_returned :
  warmStorage !! Cache.buildCacheKey (Cache.mkKey Cache.burnout "acc-1")
    = Some (freshEntry (BurnoutResult cachedBurnout) 6) /\
  warmStorage !! Cache.buildCacheKey (Cache.mkKey Cache.load "acc-1")
    = Some (freshEntry (LoadResult cachedLoad) 24) /\
  (inject_Z (now (subjectWith 5) - (day 1000 - 1)) <= maxAgeOf 6)%Q /\
  fst (runAnalyzer (subjectWith 5) emptyHelpers BurnoutAnalyzer "acc-1" warmStorage)
    <> BurnoutResult cachedBurnout /\
  (exists r,
     fst (runAnalyzer (subjectWith 5) emptyHelpers BurnoutAnalyzer "acc-1" warmStorage)
       = BurnoutResult r /\ burnoutScore r = 15) /\
  fst (runAnalyzer (subjectWith 5) emptyHelpers LoadAnalyzer "acc-1" warmStorage)
    <> LoadResult cachedLoad.
Proof.
  split; [vm_compute; reflexivity|].
  split; [vm_compute; reflexivity|].
  split; [vm_compute; discriminate|].
  split; [vm_compute; discriminate|].
  split; [eexists; split; vm_compute; reflexivity|].
  vm_compute; discriminate.
Qed.

Lemma cached_result_returned_witness :
  runAnalyzer (subjectWith 5) emptyHelpers TimingAnalyzer "acc-1" warmStorage
    = (TimingResult cachedTiming, warmStorage).
Proof.
  apply (cached_result_returned (subjectWith 5) emptyHelpers TimingAnalyzer "acc-1"
           warmStorage (freshEntry (TimingResult cachedTiming) 24)).
  - discriminate.
  - vm_compute. reflexivity.
  - reflexivity.
  - vm_compute. discriminate.
  - reflexivity.
Defined.

Lemma four_items_insufficient_witness :
  fst (runAnalyzer (subjectWith 4) emptyHelpers PredictionAnalyzer "acc-1" ∅)
    = insufficientData (now (subjectWith 4)) PredictionAnalyzer "acc-1" 4 /\
  confidenceOf (fst (runAnalyzer (subjectWith 4) emptyHelpers PredictionAnalyzer "acc-1" ∅))
    = low /\
  snd (runAnalyzer (subjectWith 4) emptyHelpers PredictionAnalyzer "acc-1" ∅)
    = snd (Cache.getCached (now (subjectWith 4))
             (Cache.mkKey (analyzerNamespace PredictionAnalyzer) "acc-1")
             (analyzerTtl PredictionAnalyzer) ∅).
Proof.
  apply (four_items_insufficient (subjectWith 4) emptyHelpers PredictionAnalyzer "acc-1" ∅).
  - reflexivity.
  - intros _. reflexivity.
Defined.

Lemma burnout_score_bounds_and_levels_witness :
  Burnout.determinRiskLevel 69 = high_risk /\
  riskRank (Burnout.determinRiskLevel 69) <= riskRank (Burnout.determinRiskLevel 70).
Proof.
  split.
  - apply burnout_score_bounds_and_levels.
  - apply (proj1 (proj2 (proj2 burnout_score_bounds_and_levels)) 69 70). lia.
Defined.

Lemma burnout_score_at_least_5_witness :
  5 <= burnoutScore
         (fst (Burnout.analyzeBurnoutRisk (subjectWith 5) emptyHelpers "acc-1" warmStorage)).
Proof.
  apply (burnout_score_at_least_5 (subjectWith 5) emptyHelpers "acc-1" warmStorage).
  simpl. lia.
Defined.

(** * Further properties of the code *)

(** ** data/cache.ts: invalidation and metadata *)

Module CacheAdmin.
Import Cache.

Section WithPayload.
Context {T : Type}.

Definition invalidateCache (key : CacheKey) : M (gmap string (CacheEntry T)) unit :=
  let cacheKey := buildCacheKey key in
  storage_delete cacheKey.

(** The namespaces listed in [invalidateAllUserCache]. *)
Definition allNamespaces : list Namespace :=
  [timing; strengths; collaboration; load; trends; status; burnout; pitcrew; predictions].

(** [Promise.all(namespaces.map(namespace => invalidateCache(...)))]: the
    deletions, one per namespace. *)
Definition invalidateAllUserCache (accountId : string)
  : M (gmap string (CacheEntry T)) unit :=
  fold_right
    (fun namespace rest =>
       perform invalidateCache {| namespace := namespace; accountId := accountId;
                                  suffix := None |} in rest)
    (ret tt) allNamespaces.

(** The object returned by [getCacheMetadata]; absent fields are [None]. *)
Record CacheMetadata := {
  md_exists : bool;
  md_age : option Z;
  md_ttl : option Q;
  md_version : option string
}.

Definition getCacheMetadata (now : Z) (key : CacheKey)
  : M (gmap string (CacheEntry T)) CacheMetadata :=
  let cacheKey := buildCacheKey key in
  await entry <~ storage_get cacheKey in
  match entry with
  | None =>
      ret {| md_exists := false; md_age := None; md_ttl := None; md_version := None |}
  | Some entry =>
      let age := now - lastUpdated entry in
      ret {| md_exists := true; md_age := Some age;
             md_ttl := Some (ttlHours entry); md_version := Some (version entry) |}
  end.

End WithPayload.

End CacheAdmin.

Section CacheKeyFacts.
Import Cache.

Fixpoint hasColon (s : string) : bool :=
  match s with
  | EmptyString => false
  | String c rest => Ascii.eqb c ":"%char || hasColon rest
  end.

Lemma namespaceName_no_colon n : hasColon (namespaceName n) = false.
Proof. destruct n; reflexivity. Qed.

Lemma namespaceName_inj n1 n2 : namespaceName n1 = namespaceName n2 -> n1 = n2.
Proof. destruct n1, n2; simpl; intros H; (reflexivity || discriminate H). Qed.

(** Splitting at the last colon: the part after it has no colon. *)
Lemma split_at_last_colon (a1 a2 s1 s2 : string) :
  hasColon s1 = false -> hasColon s2 = false ->
  (a1 ++ String ":"%char s1 = a2 ++ String ":"%char s2)%string ->
  a1 = a2 /\ s1 = s2.
Proof.
  intros H1 H2. revert a2.
  induction a1 as [|c a1 IH]; intros a2 H; destruct a2 as [|c2 a2]; simpl in H.
  - inversion H. split; reflexivity.
  - inversion H as [[Hc Hs]]. subst s1. exfalso.
    clear -H1. induction a2 as [|d a2 IH]; simpl in H1.
    + discriminate.
    + apply orb_false_iff in H1 as [_ H1]. auto.
  - inversion H as [[Hc Hs]]. subst s2. exfalso.
    clear -H2. induction a1 as [|d a1 IH]; simpl in H2.
    + discriminate.
    + apply orb_false_iff in H2 as [_ H2]. auto.
  - inversion H as [[Hc Hs]]. destruct (IH a2 Hs) as [-> ->]. split; reflexivity.
Qed.

Lemma buildCacheKey_plain n a :
  buildCacheKey (mkKey n a) = ("user:" ++ a ++ String ":"%char (namespaceName n))%string.
Proof. reflexivity. Qed.

Lemma plain_keys_differ n1 a1 n2 a2 :
  buildCacheKey (mkKey n1 a1) = buildCacheKey (mkKey n2 a2) -> n1 = n2 /\ a1 = a2.
Proof.
  rewrite !buildCacheKey_plain. intros H.
  simpl in H. inversion H as [H'].
  destruct (split_at_last_colon a1 a2 _ _ (namespaceName_no_colon n1)
              (namespaceName_no_colon n2) H') as [Ha Hn].
  split; [apply namespaceName_inj, Hn | exact Ha].
Qed.

(** X1: the storage keys built for two cache keys without suffix are equal
    only if the namespace and the account id are equal, whatever
    characters (colons included) the account ids contain. *)
Theorem cache_key_injective (n1 n2 : Namespace) (a1 a2 : string) :
  buildCacheKey (mkKey n1 a1) = buildCacheKey (mkKey n2 a2) <-> n1 = n2 /\ a1 = a2.
Proof.
  split.
  - apply plain_keys_differ.
  - intros [-> ->]. reflexivity.
Qed.

Lemma cache_key_injective_witness : load = load /\ "712020:ab" = "712020:ab".
Proof.
  apply (proj1 (cache_key_injective load load "712020:ab" "712020:ab")).
  reflexivity.
Defined.

End CacheKeyFacts.

Section CacheAdminFacts.
Import Cache CacheAdmin.
Context {T : Type}.

Implicit Types (st : gmap string (CacheEntry T)) (e : CacheEntry T).

(** [getCached] on a storage that differs only under other keys. *)
Lemma getCached_fst_lookup now key ttl st1 st2 :
  st1 !! buildCacheKey key = st2 !! buildCacheKey key ->
  fst (getCached now key ttl st1) = fst (getCached now key ttl st2).
Proof.
  intros H.
  destruct (st2 !! buildCacheKey key) as [e|] eqn:E.
  - rewrite (getCached_found _ _ _ _ _ H), (getCached_found _ _ _ _ _ E).
    repeat case_match; reflexivity.
  - rewrite (getCached_missing _ _ _ _ H), (getCached_missing _ _ _ _ E). reflexivity.
Qed.

(** X2: writing the entry of one (namespace, account) pair does not change
    what a read of another pair returns. *)
Theorem setCache_other_key (n1 n2 : Namespace) (a1 a2 : string) (d : T)
    (ttl ttl' : Q) (t now : Z) st :
  (n1, a1) <> (n2, a2) ->
  fst (getCached now (mkKey n2 a2) ttl' (snd (setCache t (mkKey n1 a1) d ttl st)))
    = fst (getCached now (mkKey n2 a2) ttl' st).
Proof.
  intros Hne. apply getCached_fst_lookup.
  unfold setCache, storage_set. simpl snd.
  apply lookup_insert_ne. intros Heq.
  apply plain_keys_differ in Heq as [-> ->]. congruence.
Qed.

(** X3: after [invalidateCache], a read of the key returns absent at any
    time and for any TTL, and the entries under all other storage keys are
    as before. *)
Theorem invalidateCache_absent (key : CacheKey) (ttl : Q) (now : Z) st :
  let st' := snd (invalidateCache key st) in
  getCached now key ttl st' = (None, st') /\
  (forall k, k <> buildCacheKey key -> st' !! k = st !! k).
Proof.
  intros st'. subst st'. unfold invalidateCache, storage_delete. simpl snd. split.
  - apply getCached_missing, lookup_delete_eq.
  - intros k Hk. apply lookup_delete_ne. congruence.
Qed.

Lemma invalidate_fold_lookup accountId (namespaces : list Namespace) st k :
  snd (fold_right
         (fun namespace rest =>
            perform invalidateCache {| namespace := namespace; accountId := accountId;
                                       suffix := None |} in rest)
         (ret tt) namespaces st) !! k =
  if existsb (fun n => String.eqb (buildCacheKey (mkKey n accountId)) k) namespaces
  then None else st !! k.
Proof.
  revert st. induction namespaces as [|n ns IH]; intros st; cbn [fold_right existsb].
  - reflexivity.
  - change (snd (fold_right
                   (fun namespace rest =>
                      perform invalidateCache {| namespace := namespace;
                                                 accountId := accountId;
                                                 suffix := None |} in rest)
                   (ret tt) ns (delete (buildCacheKey (mkKey n accountId)) st)) !! k
            = if String.eqb (buildCacheKey (mkKey n accountId)) k
                 || existsb (fun n => String.eqb (buildCacheKey (mkKey n accountId)) k) ns
              then None else st !! k).
    rewrite IH. clear IH.
    destruct (String.eqb (buildCacheKey (mkKey n accountId)) k) eqn:E; cbn [orb].
    + apply String.eqb_eq in E. subst k.
      destruct (existsb _ ns); [reflexivity | apply lookup_delete_eq].
    + apply String.eqb_neq in E.
      destruct (existsb _ ns); [reflexivity | apply lookup_delete_ne; exact E].
Qed.

(** X4: after [invalidateAllUserCache], a read of any namespace of that
    account returns absent, and reads for every other account return what
    they returned before. *)
Theorem invalidateAllUserCache_spec (accountId : string) (now : Z) (ttl : Q) st :
  let st' := snd (invalidateAllUserCache accountId st) in
  (forall n, fst (getCached now (mkKey n accountId) ttl st') = None) /\
  (forall n other, other <> accountId ->
     fst (getCached now (mkKey n other) ttl st') = fst (getCached now (mkKey n other) ttl st)).
Proof.
  intros st'. subst st'. unfold invalidateAllUserCache. split.
  - intros n. rewrite getCached_missing; [reflexivity|].
    rewrite invalidate_fold_lookup.
    replace (existsb _ allNamespaces) with true; [reflexivity|].
    symmetry. apply existsb_exists. exists n. split.
    + destruct n; simpl; tauto.
    + apply String.eqb_refl.
  - intros n other Hne. apply getCached_fst_lookup.
    rewrite invalidate_fold_lookup.
    replace (existsb _ allNamespaces) with false; [reflexivity|].
    symmetry. apply not_true_is_false. intros Hex.
    apply existsb_exists in Hex as (m & _ & Hm).
    apply String.eqb_eq, plain_keys_differ in Hm as [_ Hm]. congruence.
Qed.

(** X5: the metadata read after a write reports the entry as existing,
    with the age elapsed since the write, the TTL declared by the writer
    and the current schema version; for a key that was never written (or
    was invalidated) it reports [exists: false] and nothing else.
    Reading metadata does not change the storage. *)
Theorem getCacheMetadata_after_set (key : CacheKey) (d : T) (ttl : Q) (t0 t1 : Z) st :
  let st' := snd (setCache t0 key d ttl st) in
  getCacheMetadata t1 key st' =
    ({| md_exists := true; md_age := Some (t1 - t0); md_ttl := Some ttl;
        md_version := Some CACHE_VERSION |}, st') /\
  (st !! buildCacheKey key = None ->
   getCacheMetadata t1 key st =
     ({| md_exists := false; md_age := None; md_ttl := None; md_version := None |}, st)).
Proof.
  intros st'. split.
  - unfold getCacheMetadata, bind, storage_get, ret.
    subst st'. rewrite (setCache_lookup t0 key d ttl st). reflexivity.
  - intros H. unfold getCacheMetadata, bind, storage_get, ret. rewrite H. reflexivity.
Qed.

(** X6: a read is repeatable: reading the same key again at the same time
    gives the same answer and leaves the storage as the first read left
    it; a read never touches the entries under other storage keys, and it
    removes the entry under its own key only on a version mismatch (an
    expired entry stays in the storage). *)
Theorem getCached_repeatable (key : CacheKey) (ttl : Q) (now : Z) st :
  let r := fst (getCached now key ttl st) in
  let st' := snd (getCached now key ttl st) in
  getCached now key ttl st' = (r, st') /\
  (forall k, k <> buildCacheKey key -> st' !! k = st !! k) /\
  (forall e, st !! buildCacheKey key = Some e -> version e = CACHE_VERSION -> st' = st).
Proof.
  intros r st'. subst r st'.
  destruct (st !! buildCacheKey key) as [e|] eqn:E.
  - rewrite (getCached_found _ _ _ _ _ E).
    destruct (negb (String.eqb (version e) CACHE_VERSION)) eqn:Hv; simpl.
    + repeat split.
      * apply getCached_missing, lookup_delete_eq.
      * intros k Hk. apply lookup_delete_ne. congruence.
      * intros e' He' Hv'. inversion He'; subst e'.
        rewrite Hv', String.eqb_refl in Hv. discriminate.
    + destruct (Qgtb _ _) eqn:Hage; simpl; repeat split; try reflexivity;
        rewrite (getCached_found _ _ _ _ _ E), Hv, Hage; reflexivity.
  - rewrite (getCached_missing _ _ _ _ E). simpl. repeat split.
    apply getCached_missing, E.
Qed.

(** X7: the last write wins: after two writes of the same key the storage
    is what the second write alone produces, and a read within the TTL
    returns the second payload. *)
Theorem setCache_last_write_wins (key : CacheKey) (d1 d2 : T) (ttl1 ttl2 : Q)
    (t1 t2 now : Z) st :
  let st2 := snd (setCache t2 key d2 ttl2 (snd (setCache t1 key d1 ttl1 st))) in
  st2 = snd (setCache t2 key d2 ttl2 st) /\
  ((inject_Z (now - t2) <= maxAgeOf ttl2)%Q ->
   getCached now key ttl2 st2 = (Some d2, st2)).
Proof.
  intros st2. split.
  - subst st2. unfold setCache, storage_set. simpl. apply insert_insert_eq.
  - intros Hage.
    rewrite (getCached_found now key ttl2 st2
               {| data := d2; lastUpdated := t2; ttlHours := ttl2; version := CACHE_VERSION |}
               (setCache_lookup t2 key d2 ttl2 _)).
    simpl. apply Qgtb_false in Hage. rewrite Hage. reflexivity.
Qed.

End CacheAdminFacts.

Definition loadKeyOf (a : string) : Cache.CacheKey := Cache.mkKey Cache.load a.

Lemma setCache_other_key_witness :
  fst (Cache.getCached 5 (loadKeyOf "bob") 24
         (snd (Cache.setCache 0 (loadKeyOf "ann") 7%nat 24 ∅)))
    = fst (Cache.getCached 5 (loadKeyOf "bob") 24 (∅ : gmap string (Cache.CacheEntry nat))).
Proof.
  apply (setCache_other_key Cache.load Cache.load "ann" "bob" 7%nat 24 24 0 5 ∅).
  intros H. inversion H.
Defined.

Lemma invalidateCache_absent_witness :
  snd (CacheAdmin.invalidateCache statusKey shortLivedStore) !! "user:acc-2:status"
    = shortLivedStore !! "user:acc-2:status".
Proof.
  apply (proj2 (invalidateCache_absent statusKey 1 0 shortLivedStore)).
  vm_compute. discriminate.
Defined.

Lemma invalidateAllUserCache_spec_witness :
  fst (Cache.getCached 5 statusKey 1
         (snd (CacheAdmin.invalidateAllUserCache "acc-2" shortLivedStore)))
    = fst (Cache.getCached 5 statusKey 1 shortLivedStore).
Proof.
  apply (proj2 (invalidateAllUserCache_spec "acc-2" 5 1 shortLivedStore) Cache.status "acc-1").
  discriminate.
Defined.

Lemma getCacheMetadata_after_set_witness :
  CacheAdmin.getCacheMetadata 5 statusKey (∅ : gmap string (Cache.CacheEntry nat)) =
    ({| CacheAdmin.md_exists := false; CacheAdmin.md_age := None;
        CacheAdmin.md_ttl := None; CacheAdmin.md_version := None |}, ∅).
Proof.
  apply (proj2 (getCacheMetadata_after_set statusKey 0%nat 1 0 5 ∅)).
  reflexivity.
Defined.

Lemma getCached_repeatable_witness :
  snd (Cache.getCached (2 * DateHelpers.MS_PER_HOUR) statusKey 1 shortLivedStore)
    = shortLivedStore.
Proof.
  apply (proj2 (proj2 (getCached_repeatable statusKey 1 (2 * DateHelpers.MS_PER_HOUR)
                         shortLivedStore))
           {| Cache.data := 42%nat; Cache.lastUpdated := 0;
              Cache.ttlHours := 1; Cache.version := Cache.CACHE_VERSION |}).
  - vm_compute. reflexivity.
  - reflexivity.
Defined.

Lemma setCache_last_write_wins_witness :
  Cache.getCached 10 statusKey 1
    (snd (Cache.setCache 5 statusKey 2%nat 1 (snd (Cache.setCache 0 statusKey 1%nat 24 ∅))))
  = (Some 2%nat,
     snd (Cache.setCache 5 statusKey 2%nat 1 (snd (Cache.setCache 0 statusKey 1%nat 24 ∅)))).
Proof.
  apply (proj2 (setCache_last_write_wins statusKey 1%nat 2%nat 24 1 0 5 10 ∅)).
  vm_compute. discriminate.
Defined.

(** ** data/jira/metrics.ts: the other metrics *)

Module MetricsMore.
Import DateHelpers Metrics.

(** utils/dateHelpers.ts, [hoursBetween]. *)
Definition hoursBetween (start end_ : Z) : Q :=
  let diffMs := end_ - start in
  (inject_Z diffMs / inject_Z MS_PER_HOUR)%Q.

(** The raw changelog of the tracker: [data.values], each history with its
    [created] date, its optional author and its items. *)
Record RawItem := {
  raw_field : string;
  raw_fromString : option string;
  raw_toString : option string
}.

Record RawAuthor := { raw_displayName : option string; raw_accountId : option string }.

Record RawHistory := {
  raw_id : string;
  raw_created : Z;
  raw_author : option RawAuthor;
  raw_items : list RawItem
}.

Record RawChangelog := { raw_values : option (list RawHistory) }.

(** [x || fallback] on an optional string: the fallback replaces an absent
    and an empty one. *)
Definition orElse (x : option string) (fallback : string) : string :=
  match x with
  | Some s => if String.eqb s "" then fallback else s
  | None => fallback
  end.

(** [Array.prototype.sort((a, b) => a.timestamp - b.timestamp)]: a stable
    sort by timestamp. *)
Fixpoint insertByTimestamp (c : IssueChangelog) (sorted : list IssueChangelog)
  : list IssueChangelog :=
  match sorted with
  | [] => [c]
  | d :: rest =>
      if timestamp c <=? timestamp d then c :: d :: rest
      else d :: insertByTimestamp c rest
  end.

Definition sortByTimestamp (changelogs : list IssueChangelog) : list IssueChangelog :=
  fold_right insertByTimestamp [] changelogs.

Definition parseChangelogs (issueKey : string) (data : RawChangelog) : list IssueChangelog :=
  match raw_values data with
  | None => []
  | Some values =>
      let changelogs :=
        flat_map
          (fun history =>
             map (fun item =>
                    {| cl_id := raw_id history;
                       cl_issueKey := issueKey;
                       timestamp := raw_created history;
                       author :=
                         orElse (match raw_author history with
                                 | Some a => raw_displayName a | None => None end)
                                "Unknown";
                       authorAccountId :=
                         orElse (match raw_author history with
                                 | Some a => raw_accountId a | None => None end)
                                "";
                       field := raw_field item;
                       fromValue := orElse (raw_fromString item) "";
                       toValue := orElse (raw_toString item) "" |})
                 (raw_items history))
          values in
      sortByTimestamp changelogs
  end.

Definition isStatusChange (c : IssueChangelog) : bool := String.eqb (field c) "status".

Definition toInProgress (c : IssueChangelog) : bool :=
  String.eqb (toValue c) "In Progress" || String.eqb (toValue c) "In Development".

Definition toReview (c : IssueChangelog) : bool :=
  String.eqb (toValue c) "In Review" || String.eqb (toValue c) "Code Review".

(** One turn of the loop shared by [calculateInProgressTime] and
    [calculateReviewTime]: [enters] tells the tracked status; the state is
    [totalTime] and the start of the open interval. *)
Definition timeStep (enters : IssueChangelog -> bool) (state : Q * option Z)
    (change : IssueChangelog) : Q * option Z :=
  let '(totalTime, start) := state in
  if isStatusChange change then
    if enters change then (totalTime, Some (timestamp change))
    else
      match start with
      | Some s => ((totalTime + hoursBetween s (timestamp change))%Q, None)
      | None => (totalTime, start)
      end
  else (totalTime, start).

Definition calculateInProgressTime (changelogs : list IssueChangelog) : Q :=
  fst (fold_left (timeStep toInProgress) changelogs (0%Q, None)).

Definition calculateReviewTime (changelogs : list IssueChangelog) : Q :=
  fst (fold_left (timeStep toReview) changelogs (0%Q, None)).

Definition toDone (c : IssueChangelog) : bool :=
  String.eqb (toValue c) "Done" || String.eqb (toValue c) "Closed"
  || String.eqb (toValue c) "Resolved".

Definition toReopened (c : IssueChangelog) : bool :=
  String.eqb (toValue c) "Open" || String.eqb (toValue c) "Reopened"
  || String.eqb (toValue c) "In Progress".

(** The loop of [checkIfReopened] from a given value of [wasClosed]. *)
Fixpoint reopenedFrom (wasClosed : bool) (changelogs : list IssueChangelog) : bool :=
  match changelogs with
  | [] => false
  | change :: rest =>
      if isStatusChange change then
        if toDone change then reopenedFrom true rest
        else if wasClosed && toReopened change then true
        else reopenedFrom wasClosed rest
      else reopenedFrom wasClosed rest
  end.

Definition checkIfReopened (changelogs : list IssueChangelog) : bool :=
  reopenedFrom false changelogs.

(** [String.prototype.includes]. *)
Fixpoint includes (s sub : string) : bool :=
  String.prefix sub s ||
  match s with
  | EmptyString => false
  | String _ rest => includes rest sub
  end.

Definition defectLabels : list string := ["bug"; "defect"; "regression"; "hotfix"].

Definition checkIfHadDefect (changelogs : list IssueChangelog) : bool :=
  existsb
    (fun change =>
       String.eqb (field change) "labels" &&
       let addedLabels := toLowerCase (toValue change) in
       existsb (fun label => includes addedLabels label) defectLabels)
    changelogs.

Definition toReviewOrTesting (c : IssueChangelog) : bool :=
  String.eqb (toValue c) "In Review" || String.eqb (toValue c) "Code Review"
  || String.eqb (toValue c) "Testing".

(** One turn of the loop of [countRevisions]; the state is [revisions] and
    [wasInReview]. *)
Definition revisionStep (state : nat * bool) (change : IssueChangelog) : nat * bool :=
  let '(revisions, wasInReview) := state in
  if isStatusChange change then
    if toReviewOrTesting change then (revisions, true)
    else if wasInReview && toInProgress change then (S revisions, false)
    else (revisions, wasInReview)
  else (revisions, wasInReview).

Definition countRevisions (changelogs : list IssueChangelog) : nat :=
  fst (fold_left revisionStep changelogs (0%nat, false)).

(** [calculateIssueMetrics]; [None] when [jiraClient.getIssueChangelog]
    throws ([fetched] is [None]), which the function rethrows. *)
Definition calculateIssueMetrics (issueKey : string) (fetched : option RawChangelog)
  : option IssueMetrics :=
  match fetched with
  | None => None
  | Some changelogData =>
      let changelogs := parseChangelogs issueKey changelogData in
      Some {| m_issueKey := issueKey;
              cycleTimeDays := calculateCycleTime changelogs;
              leadTimeDays := calculateLeadTime changelogs;
              inProgressDuration := calculateInProgressTime changelogs;
              reviewDuration := calculateReviewTime changelogs;
              wasReopened := checkIfReopened changelogs;
              hadDefect := checkIfHadDefect changelogs;
              numberOfRevisions := countRevisions changelogs |}
  end.

(** data/jira/issues.ts, [createDefaultMetrics]. *)
Definition createDefaultMetrics (issueKey : string) : IssueMetrics :=
  {| m_issueKey := issueKey; cycleTimeDays := 0; leadTimeDays := 0;
     inProgressDuration := 0; reviewDuration := 0; wasReopened := false;
     hadDefect := false; numberOfRevisions := 0 |}.

(** data/jira/issues.ts, [getUserIssuesWithMetrics], from the issues that
    [getUserIssues] returned and the changelog the client delivers for an
    issue key ([None]: the client throws). *)
Definition getUserIssuesWithMetrics (issues : list JiraIssue)
    (getIssueChangelog : string -> option RawChangelog) : list IssueWithMetrics :=
  map (fun issue =>
         match calculateIssueMetrics (i_key issue) (getIssueChangelog (i_key issue)) with
         | Some metrics => {| issue := issue; metrics := Some metrics |}
         | None => {| issue := issue; metrics := Some (createDefaultMetrics (i_key issue)) |}
         end)
      issues.

End MetricsMore.

Section MetricsMoreFacts.
Import DateHelpers Metrics MetricsMore.

Definition byTimestamp (a b : IssueChangelog) : Prop := timestamp a <= timestamp b.

Lemma insertByTimestamp_perm c l : Permutation (insertByTimestamp c l) (c :: l).
Proof.
  induction l as [|d l IH]; simpl; [reflexivity|].
  destruct (timestamp c <=? timestamp d); [reflexivity|].
  rewrite IH. apply perm_swap.
Qed.

Lemma sortByTimestamp_perm l : Permutation (sortByTimestamp l) l.
Proof.
  induction l as [|c l IH]; simpl; [reflexivity|].
  rewrite insertByTimestamp_perm. apply perm_skip, IH.
Qed.

Lemma insertByTimestamp_sorted c l :
  StronglySorted byTimestamp l -> StronglySorted byTimestamp (insertByTimestamp c l).
Proof.
  induction l as [|d l IH]; intros Hs; simpl.
  - constructor; constructor.
  - inversion Hs as [|? ? Hl Hd]; subst.
    destruct (timestamp c <=? timestamp d) eqn:E.
    + apply Z.leb_le in E. constructor; [exact Hs|].
      constructor; [exact E|].
      eapply List.Forall_impl; [|exact Hd]. unfold byTimestamp. intros x Hx. lia.
    + apply Z.leb_gt in E. constructor; [apply IH, Hl|].
      rewrite insertByTimestamp_perm. constructor; [unfold byTimestamp; lia | exact Hd].
Qed.

Lemma sortByTimestamp_sorted l : StronglySorted byTimestamp (sortByTimestamp l).
Proof.
  induction l as [|c l IH]; simpl; [constructor|].
  apply insertByTimestamp_sorted, IH.
Qed.

Lemma parseChangelogs_sorted issueKey data :
  StronglySorted byTimestamp (parseChangelogs issueKey data).
Proof.
  unfold parseChangelogs. destruct (raw_values data); [|constructor].
  apply sortByTimestamp_sorted.
Qed.

Lemma find_in {A : Type} (f : A -> bool) (l : list A) (x : A) :
  List.find f l = Some x -> In x l.
Proof. intros H. apply List.find_some in H. tauto. Qed.

Lemma head_is_earliest c l d :
  StronglySorted byTimestamp (c :: l) -> In d (c :: l) -> timestamp c <= timestamp d.
Proof.
  intros Hs [<- | Hin]; [lia|].
  inversion Hs as [|? ? _ Hall]; subst.
  rewrite List.Forall_forall in Hall. apply (Hall d Hin).
Qed.

Lemma daysBetween_nonneg s e : s <= e -> 0 <= daysBetween s e.
Proof. intros H. unfold daysBetween. apply Z.div_pos; [lia | reflexivity]. Qed.

Lemma daysBetween_mono s1 s2 e : s1 <= s2 -> daysBetween s2 e <= daysBetween s1 e.
Proof.
  intros H. unfold daysBetween. apply Z.div_le_mono; [reflexivity | lia].
Qed.

Lemma sorted_lead_nonneg l : StronglySorted byTimestamp l -> 0 <= calculateLeadTime l.
Proof.
  intros Hs. unfold calculateLeadTime. destruct l as [|c l]; [lia|].
  destruct (List.find isDoneChange (c :: l)) as [d|] eqn:E; [|lia].
  apply daysBetween_nonneg, (head_is_earliest c l d Hs), (find_in _ _ _ E).
Qed.

Lemma sorted_cycle_le_lead l :
  StronglySorted byTimestamp l -> calculateCycleTime l <= calculateLeadTime l.
Proof.
  intros Hs. pose proof (sorted_lead_nonneg l Hs) as Hlead.
  unfold calculateCycleTime, calculateLeadTime in *.
  destruct l as [|c l].
  - simpl. lia.
  - destruct (List.find isDoneChange (c :: l)) as [d|] eqn:Ed.
    + destruct (List.find isInProgressChange (c :: l)) as [ip|] eqn:Eip; [|exact Hlead].
      apply daysBetween_mono, (head_is_earliest c l ip Hs), (find_in _ _ _ Eip).
    + destruct (List.find isInProgressChange (c :: l)); lia.
Qed.

Lemma hoursBetween_nonneg s e : s <= e -> (0 <= hoursBetween s e)%Q.
Proof.
  intros H. unfold hoursBetween, Qdiv.
  apply Qmult_le_0_compat.
  - change 0%Q with (inject_Z 0). rewrite <- Zle_Qle. lia.
  - apply Qinv_le_0_compat. discriminate.
Qed.

(** The accumulated time stays non-negative along a sorted history. *)
Lemma timeStep_nonneg enters l :
  StronglySorted byTimestamp l ->
  forall totalTime start,
    (0 <= totalTime)%Q ->
    (forall s, start = Some s -> Forall (fun c => s <= timestamp c) l) ->
    (0 <= fst (fold_left (timeStep enters) l (totalTime, start)))%Q.
Proof.
  induction 1 as [|c l Hl IH Hc]; intros totalTime start Htot Hstart; simpl.
  - exact Htot.
  - destruct (isStatusChange c).
    + destruct (enters c).
      * apply IH; [exact Htot|].
        intros s Hs. inversion Hs; subst. exact Hc.
      * destruct start as [s|].
        -- apply IH; [|discriminate].
           specialize (Hstart s eq_refl). inversion Hstart; subst.
           apply Qle_trans with (y := (totalTime + 0)%Q).
           ++ rewrite Qplus_0_r. exact Htot.
           ++ apply Qplus_le_r, hoursBetween_nonneg. assumption.
        -- apply IH; [exact Htot | discriminate].
    + apply IH; [exact Htot|].
      intros s Hs. specialize (Hstart s Hs). inversion Hstart; assumption.
Qed.

(** X8: the metrics derived from any changelog the tracker delivers have a
    non-negative lead time, a cycle time that does not exceed the lead
    time, and non-negative in-progress and review durations: the parsed
    changelog is sorted by timestamp before the metrics are computed. *)
Theorem issue_metrics_sane (issueKey : string) (data : RawChangelog) (m : IssueMetrics) :
  calculateIssueMetrics issueKey (Some data) = Some m ->
  0 <= leadTimeDays m /\
  cycleTimeDays m <= leadTimeDays m /\
  (0 <= inProgressDuration m)%Q /\
  (0 <= reviewDuration m)%Q.
Proof.
  intros H. unfold calculateIssueMetrics in H. inversion H; subst m; clear H. simpl.
  pose proof (parseChangelogs_sorted issueKey data) as Hs.
  split; [apply sorted_lead_nonneg, Hs|].
  split; [apply sorted_cycle_le_lead, Hs|].
  split; apply timeStep_nonneg; try exact Hs; try apply Qle_refl; discriminate.
Qed.

End MetricsMoreFacts.

Section ReopenFacts.
Import Metrics MetricsMore.

(** A status change back to an open state. *)
Definition isReopenChange (c : IssueChangelog) : bool :=
  isStatusChange c && toReopened c.

Lemma isDoneChange_split c : isDoneChange c = isStatusChange c && toDone c.
Proof. reflexivity. Qed.

Lemma toReopened_not_done c : toReopened c = true -> toDone c = false.
Proof.
  unfold toReopened, toDone. intros H.
  apply orb_true_iff in H as [H | H]; [apply orb_true_iff in H as [H | H]|];
    apply String.eqb_eq in H; rewrite H; reflexivity.
Qed.

Lemma reopenedFrom_closed l :
  reopenedFrom true l = existsb isReopenChange l.
Proof.
  induction l as [|c l IH]; simpl; [reflexivity|].
  unfold isReopenChange at 1.
  destruct (isStatusChange c); simpl; [|exact IH].
  destruct (toReopened c) eqn:Hr.
  - rewrite (toReopened_not_done c Hr). reflexivity.
  - destruct (toDone c); exact IH.
Qed.

Lemma reopenedFrom_open l :
  reopenedFrom false l = true <->
  exists l1 d l2, l = (l1 ++ d :: l2)%list /\ isDoneChange d = true /\
                  existsb isReopenChange l2 = true.
Proof.
  induction l as [|c l IH]; simpl.
  - split; [discriminate|]. intros (l1 & d & l2 & H & _). destruct l1; discriminate.
  - destruct (isStatusChange c && toDone c) eqn:Hd.
    + apply andb_true_iff in Hd as [Hs Hd]. rewrite Hs, Hd.
      rewrite reopenedFrom_closed. split.
      * intros H. exists [], c, l. rewrite isDoneChange_split, Hs, Hd. auto.
      * intros (l1 & d & l2 & Heq & Hdone & Hre).
        destruct l1 as [|x l1]; simpl in Heq; inversion Heq; subst; [exact Hre|].
        rewrite existsb_app. simpl. rewrite Hre, !orb_true_r. reflexivity.
    + assert (Hstep : (if isStatusChange c
                       then if toDone c then reopenedFrom true l
                            else reopenedFrom false l
                       else reopenedFrom false l) = reopenedFrom false l).
      { destruct (isStatusChange c); [|reflexivity].
        simpl in Hd. rewrite Hd. reflexivity. }
      simpl. rewrite Hstep, IH. split.
      * intros (l1 & d & l2 & -> & H1 & H2). exists (c :: l1), d, l2. auto.
      * intros (l1 & d & l2 & Heq & H1 & H2).
        destruct l1 as [|x l1]; simpl in Heq; inversion Heq; subst.
        -- rewrite isDoneChange_split in H1. congruence.
        -- exists l1, d, l2. auto.
Qed.

(** X9: [checkIfReopened] answers true exactly when some done transition
    is followed, later in the history, by a status change to Open,
    Reopened or In Progress; an item that was never closed is never
    reported as reopened. *)
Theorem checkIfReopened_iff (changelogs : list IssueChangelog) :
  (checkIfReopened changelogs = true <->
   exists l1 d l2 r l3,
     changelogs = (l1 ++ d :: l2 ++ r :: l3)%list /\
     isDoneChange d = true /\ isReopenChange r = true) /\
  (List.find isDoneChange changelogs = None -> checkIfReopened changelogs = false).
Proof.
  assert (Hiff : checkIfReopened changelogs = true <->
            exists l1 d l2 r l3,
              changelogs = (l1 ++ d :: l2 ++ r :: l3)%list /\
              isDoneChange d = true /\ isReopenChange r = true).
  { unfold checkIfReopened. rewrite reopenedFrom_open. split.
    - intros (l1 & d & l2 & -> & Hd & Hre).
      apply existsb_exists in Hre as (r & Hin & Hr).
      apply in_split in Hin as (m1 & m2 & ->).
      exists l1, d, m1, r, m2. auto.
    - intros (l1 & d & l2 & r & l3 & -> & Hd & Hr).
      exists l1, d, (l2 ++ r :: l3)%list. repeat split; [exact Hd|].
      rewrite existsb_app. simpl. rewrite Hr, orb_true_r. reflexivity. }
  split; [exact Hiff|].
  intros Hnone. apply not_true_is_false. intros H.
  apply Hiff in H as (l1 & d & l2 & r & l3 & -> & Hd & _).
  assert (Hin : In d (l1 ++ d :: l2 ++ r :: l3))
    by (apply in_or_app; right; left; reflexivity).
  pose proof (List.find_none _ _ Hnone d Hin). congruence.
Qed.

Lemma checkIfReopened_iff_witness :
  checkIfReopened [statusChange 0 "To Do"; statusChange 1 "In Progress"] = false.
Proof.
  apply (proj2 (checkIfReopened_iff [statusChange 0 "To Do"; statusChange 1 "In Progress"])).
  reflexivity.
Defined.

Definition countWhere (f : IssueChangelog -> bool) (l : list IssueChangelog) : nat :=
  length (List.filter f l).

Lemma isInProgressChange_split c : isInProgressChange c = isStatusChange c && toInProgress c.
Proof. reflexivity. Qed.

Lemma revisionStep_eq revisions wasInReview c :
  revisionStep (revisions, wasInReview) c =
    if isStatusChange c then
      if toReviewOrTesting c then (revisions, true)
      else if wasInReview && toInProgress c then (S revisions, false)
      else (revisions, wasInReview)
    else (revisions, wasInReview).
Proof. reflexivity. Qed.

Lemma revisionStep_bounds l :
  forall revisions wasInReview,
    let n := fst (fold_left revisionStep l (revisions, wasInReview)) in
    (n <= revisions + countWhere isInProgressChange l)%nat /\
    (n <= revisions + countWhere (fun c => isStatusChange c && toReviewOrTesting c) l
          + (if wasInReview then 1 else 0))%nat /\
    (revisions <= n)%nat.
Proof.
  unfold countWhere.
  induction l as [|c l IH]; intros revisions wasInReview; cbv zeta;
    cbn [fold_left List.filter].
  - simpl. destruct wasInReview; lia.
  - rewrite revisionStep_eq, isInProgressChange_split.
    destruct (isStatusChange c); cbn [andb].
    + destruct (toReviewOrTesting c) eqn:Hr.
      * specialize (IH revisions true). cbv zeta iota in IH.
        destruct (toInProgress c); cbn [length]; destruct wasInReview; lia.
      * destruct wasInReview; cbn [andb].
        -- destruct (toInProgress c).
           ++ specialize (IH (S revisions) false). cbv zeta iota in IH. cbn [length]. lia.
           ++ specialize (IH revisions true). cbv zeta iota in IH. lia.
        -- specialize (IH revisions false). cbv zeta iota in IH.
           destruct (toInProgress c); cbn [length]; lia.
    + specialize (IH revisions wasInReview). cbv zeta iota in IH. lia.
Qed.

(** X10: the revision count is at most the number of transitions into an
    in-progress status and at most the number of transitions into a
    review or testing status; a history that never enters review or
    testing has no revisions. *)
Theorem countRevisions_bounds (changelogs : list IssueChangelog) :
  (countRevisions changelogs <= countWhere isInProgressChange changelogs)%nat /\
  (countRevisions changelogs
     <= countWhere (fun c => isStatusChange c && toReviewOrTesting c) changelogs)%nat.
Proof.
  unfold countRevisions.
  pose proof (revisionStep_bounds changelogs 0 false) as H. simpl in H. lia.
Qed.

Lemma timeStep_ignores enters l :
  forall state,
    existsb (fun c => isStatusChange c && enters c) l = false ->
    snd state = None ->
    fold_left (timeStep enters) l state = state.
Proof.
  induction l as [|c l IH]; intros [total start] Hno Hstart; simpl in *; [reflexivity|].
  apply orb_false_iff in Hno as [Hc Hl]. subst start.
  destruct (isStatusChange c); simpl in Hc.
  - rewrite Hc. apply IH; [exact Hl | reflexivity].
  - apply IH; [exact Hl | reflexivity].
Qed.

(** X11: an interval that is still open when the history ends is not
    counted: a transition into an in-progress status at the end of a
    history leaves the in-progress time unchanged; and a history without
    any transition into an in-progress status has in-progress time 0. *)
Theorem in_progress_time_open_interval (changelogs : list IssueChangelog)
    (c : IssueChangelog) :
  (isInProgressChange c = true ->
   calculateInProgressTime (changelogs ++ [c]) = calculateInProgressTime changelogs) /\
  (List.find isInProgressChange changelogs = None ->
   calculateInProgressTime changelogs = 0%Q).
Proof.
  split.
  - intros Hc. unfold calculateInProgressTime. rewrite fold_left_app. simpl.
    destruct (fold_left _ changelogs _) as [total start]. simpl.
    unfold isInProgressChange in Hc. fold (isStatusChange c) in Hc. fold (toInProgress c) in Hc.
    apply andb_true_iff in Hc as [Hs Hp]. rewrite Hs, Hp. reflexivity.
  - intros Hnone. unfold calculateInProgressTime.
    rewrite timeStep_ignores; [reflexivity| |reflexivity].
    apply not_true_is_false. intros Hex.
    apply existsb_exists in Hex as (x & Hin & Hx).
    pose proof (List.find_none _ _ Hnone x Hin) as Hf.
    unfold isInProgressChange in Hf. fold (isStatusChange x) in Hf.
    fold (toInProgress x) in Hf. congruence.
Qed.

Lemma in_progress_time_open_interval_witness :
  calculateInProgressTime ([statusChange 0 "In Progress"; statusChange 7200000 "Done"]
                           ++ [statusChange 9000000 "In Progress"])
  = calculateInProgressTime [statusChange 0 "In Progress"; statusChange 7200000 "Done"].
Proof.
  apply (proj1 (in_progress_time_open_interval
                  [statusChange 0 "In Progress"; statusChange 7200000 "Done"]
                  (statusChange 9000000 "In Progress"))).
  reflexivity.
Defined.


End ReopenFacts.

(** ** analyzers/load.ts: the load curve *)

Module LoadCurve.

(** An issue of [issuesWithLoad]: the issue and its [concurrentLoad]. *)
Definition loadOf (entry : IssueWithMetrics * nat) : nat :=
  if (snd entry =? 0)%nat then 1%nat else snd entry.

(** The first loop of [buildLoadCurve]: [loadGroups[load].push(issue)]
    with [load = issue.concurrentLoad || 1]. *)
Definition groupByLoad (issues : list (IssueWithMetrics * nat))
  : gmap nat (list (IssueWithMetrics * nat)) :=
  fold_left
    (fun loadGroups entry =>
       let load := loadOf entry in
       <[load := (default [] (loadGroups !! load) ++ [entry])%list]> loadGroups)
    issues ∅.

Definition hasDefect (entry : IssueWithMetrics * nat) : bool :=
  match metrics (fst entry) with Some m => hadDefect m | None => false end.

Definition isResolved (entry : IssueWithMetrics * nat) : bool :=
  match i_resolved (fst entry) with Some _ => true | None => false end.

Definition ratio (part whole : nat) : Q :=
  (inject_Z (Z.of_nat part) / inject_Z (Z.of_nat whole))%Q.

(** The body of the second loop of [buildLoadCurve], for one load level. *)
Definition loadPoint (loadNum : nat) (loadIssues : list (IssueWithMetrics * nat))
  : LoadPoint :=
  let cycleTimes := positiveCycleTimes (map fst loadIssues) in
  let defects := List.filter hasDefect loadIssues in
  let defectRate :=
    if (0 <? length loadIssues)%nat then ratio (length defects) (length loadIssues)
    else 0%Q in
  let completed := List.filter isResolved loadIssues in
  let completionRate :=
    if (0 <? length loadIssues)%nat then ratio (length completed) (length loadIssues)
    else 0%Q in
  let avgCycleTime :=
    if (0 <? length cycleTimes)%nat then average (map inject_Z cycleTimes) else 0%Q in
  let score :=
    if Qgtb avgCycleTime 0
    then ((1 / avgCycleTime) * (1 - defectRate) * completionRate)%Q
    else 0%Q in
  {| lp_load := loadNum; lp_cycleTime := avgCycleTime; lp_defectRate := defectRate;
     lp_completionRate := completionRate; lp_score := score |}.

Definition buildLoadCurve (issues : list (IssueWithMetrics * nat)) : gmap nat LoadPoint :=
  map_imap (fun load loadIssues => Some (loadPoint load loadIssues)) (groupByLoad issues).

End LoadCurve.

Section LoadMoreFacts.
Import Load LoadCurve.

(** The loop of [calculateConcurrentLoad] counts the other issues whose
    interval meets the issue's. *)
Definition countsAgainst (now : Z) (issue other : IssueWithMetrics) : bool :=
  negb (String.eqb (i_key other) (i_key issue)) &&
  ((i_created other <=? intervalEnd now issue) &&
   (intervalEnd now other >=? i_created issue)).

Lemma concurrent_loop_count now (issue : IssueWithMetrics) (allIssues : list IssueWithMetrics) :
  forall n,
    fold_left
      (fun concurrent (other : IssueWithMetrics) =>
         if String.eqb (i_key other) (i_key issue) then concurrent
         else
           let otherStart := i_created other in
           let otherEnd := match i_resolved other with Some r => r | None => now end in
           if (otherStart <=? match i_resolved issue with Some r => r | None => now end)
              && (otherEnd >=? i_created issue)
           then S concurrent
           else concurrent)
      allIssues n
    = (n + length (List.filter (countsAgainst now issue) allIssues))%nat.
Proof.
  induction allIssues as [|o l IH]; intros n; simpl; [lia|].
  rewrite IH. unfold countsAgainst at 2, intervalEnd.
  destruct (String.eqb (i_key o) (i_key issue)); simpl; [lia|].
  destruct (_ && _); simpl; lia.
Qed.

Lemma concurrent_load_count now (issue : IssueWithMetrics) (allIssues : list IssueWithMetrics) :
  calculateConcurrentLoad now issue allIssues
    = Nat.max 1 (length (List.filter (countsAgainst now issue) allIssues)).
Proof.
  unfold calculateConcurrentLoad. cbv zeta. rewrite concurrent_loop_count. reflexivity.
Qed.

Lemma filter_excludes_one {A : Type} (f : A -> bool) (l : list A) (x : A) :
  In x l -> f x = false -> (length (List.filter f l) <= length l - 1)%nat.
Proof.
  induction l as [|y l IH]; intros Hin Hf; [destruct Hin|].
  simpl. destruct Hin as [-> | Hin].
  - rewrite Hf. pose proof (List.filter_length_le f l). lia.
  - specialize (IH Hin Hf). destruct l as [|z l]; [destruct Hin|].
    destruct (f y); simpl in *; lia.
Qed.

(** X13: the concurrent load of an item is at least 1 and, when the item
    is one of the issues it is measured against, at most the number of
    the other issues (or 1): an item is never counted against itself, and
    an item that overlaps nothing still gets load 1. *)
Theorem concurrent_load_bounds (now : Z) (issue : IssueWithMetrics)
    (allIssues : list IssueWithMetrics) :
  (1 <= calculateConcurrentLoad now issue allIssues)%nat /\
  (In issue allIssues ->
   (calculateConcurrentLoad now issue allIssues <= Nat.max 1 (length allIssues - 1))%nat) /\
  (Forall (fun other => countsAgainst now issue other = false) allIssues ->
   calculateConcurrentLoad now issue allIssues = 1%nat).
Proof.
  rewrite concurrent_load_count. repeat split.
  - lia.
  - intros Hin.
    assert (Hself : countsAgainst now issue issue = false)
      by (unfold countsAgainst; rewrite String.eqb_refl; reflexivity).
    pose proof (filter_excludes_one _ _ _ Hin Hself). lia.
  - intros Hnone.
    replace (List.filter (countsAgainst now issue) allIssues) with (@nil IssueWithMetrics);
      [reflexivity|].
    symmetry. induction Hnone as [|o l Ho _ IH]; simpl; [reflexivity|].
    rewrite Ho. exact IH.
Qed.

Lemma concurrent_load_bounds_witness :
  (calculateConcurrentLoad 20 itemA [itemA; itemB; itemC] <= Nat.max 1 (3 - 1))%nat.
Proof.
  apply (proj1 (proj2 (concurrent_load_bounds 20 itemA [itemA; itemB; itemC]))).
  left. reflexivity.
Defined.

(** X14: the load status is a partition of the ticket counts into the
    zones under (below 5), optimal (5 to 9), over (10 to 12) and critical
    (13 and more), and it does not depend on the optimal range that is
    passed in. *)
Theorem load_status_zones (currentLoad : nat) (range : OptimalRange) :
  (determineLoadStatus currentLoad range = under <-> (currentLoad < 5)%nat) /\
  (determineLoadStatus currentLoad range = optimal <-> (5 <= currentLoad <= 9)%nat) /\
  (determineLoadStatus currentLoad range = over <-> (10 <= currentLoad <= 12)%nat) /\
  (determineLoadStatus currentLoad range = critical_load <-> (13 <= currentLoad)%nat) /\
  (forall range', determineLoadStatus currentLoad range'
                  = determineLoadStatus currentLoad range).
Proof.
  unfold determineLoadStatus.
  destruct (currentLoad <? 5)%nat eqn:E1;
    [|destruct ((5 <=? currentLoad)%nat && (currentLoad <=? 9)%nat) eqn:E2;
      [|destruct ((10 <=? currentLoad)%nat && (currentLoad <=? 12)%nat) eqn:E3]];
    rewrite ?andb_true_iff, ?andb_false_iff, ?Nat.ltb_lt, ?Nat.ltb_ge,
      ?Nat.leb_le, ?Nat.leb_gt in *;
    repeat split; intros; try discriminate; try reflexivity; try lia.
Qed.

Lemma load_status_zones_witness :
  determineLoadStatus 11 {| or_min := 5; or_max := 9 |} = over.
Proof.
  apply (proj1 (proj2 (proj2 (load_status_zones 11 {| or_min := 5; or_max := 9 |})))).
  lia.
Defined.

Lemma groupByLoad_keys issues :
  forall (acc : gmap nat (list (IssueWithMetrics * nat))),
    (forall k l, acc !! k = Some l -> (1 <= k)%nat /\ l <> []) ->
    forall k l,
      fold_left
        (fun loadGroups entry =>
           let load := loadOf entry in
           <[load := (default [] (loadGroups !! load) ++ [entry])%list]> loadGroups)
        issues acc !! k = Some l ->
      (1 <= k)%nat /\ l <> [].
Proof.
  induction issues as [|e issues IH]; intros acc Hacc k l; simpl.
  - apply Hacc.
  - apply IH. intros k' l' H.
    destruct (decide (loadOf e = k')) as [<-|Hne].
    + rewrite lookup_insert_eq in H. inversion H; subst. split.
      * unfold loadOf. destruct (snd e =? 0)%nat eqn:E; [lia|].
        apply Nat.eqb_neq in E. lia.
      * intros Hnil. apply app_eq_nil in Hnil as [_ Hnil]. discriminate.
    + rewrite lookup_insert_ne in H by assumption. eauto.
Qed.

Lemma ratio_unit part whole :
  (part <= whole)%nat -> (0 < whole)%nat -> (0 <= ratio part whole)%Q /\ (ratio part whole <= 1)%Q.
Proof.
  intros Hle Hpos. unfold ratio.
  assert (Hw : (0 < inject_Z (Z.of_nat whole))%Q)
    by (change 0%Q with (inject_Z 0); rewrite <- Zlt_Qlt; lia).
  split.
  - apply Qle_shift_div_l; [exact Hw|]. rewrite Qmult_0_l.
    change 0%Q with (inject_Z 0). rewrite <- Zle_Qle. lia.
  - apply Qle_shift_div_r; [exact Hw|]. rewrite Qmult_1_l.
    rewrite <- Zle_Qle. lia.
Qed.

Lemma rate_unit {A : Type} (f : A -> bool) (l : list A) :
  let rate := if (0 <? length l)%nat then ratio (length (List.filter f l)) (length l)
              else 0%Q in
  (0 <= rate)%Q /\ (rate <= 1)%Q.
Proof.
  cbv zeta. destruct (0 <? length l)%nat eqn:E.
  - apply Nat.ltb_lt in E. apply ratio_unit; [apply List.filter_length_le | exact E].
  - split; discriminate.
Qed.

(** X15: every point of the load curve sits under its own load level,
    which is at least 1; its defect rate and completion rate lie between
    0 and 1 and its composite score is not negative. *)
Theorem load_curve_points (issues : list (IssueWithMetrics * nat)) (load : nat)
    (p : LoadPoint) :
  buildLoadCurve issues !! load = Some p ->
  lp_load p = load /\ (1 <= load)%nat /\
  (0 <= lp_defectRate p)%Q /\ (lp_defectRate p <= 1)%Q /\
  (0 <= lp_completionRate p)%Q /\ (lp_completionRate p <= 1)%Q /\
  (0 <= lp_score p)%Q.
Proof.
  unfold buildLoadCurve. rewrite map_lookup_imap. intros H.
  destruct (groupByLoad issues !! load) as [l|] eqn:E; simpl in H; [|discriminate].
  inversion H; subst p; clear H.
  destruct (groupByLoad_keys issues ∅ ltac:(intros k l' Hk; rewrite lookup_empty in Hk; discriminate)
              load l E) as [Hk _].
  unfold loadPoint. cbv zeta. cbn [lp_load lp_defectRate lp_completionRate lp_score].
  pose proof (rate_unit hasDefect l) as [Hd0 Hd1].
  pose proof (rate_unit isResolved l) as [Hc0 Hc1].
  cbv zeta in Hd0, Hd1, Hc0, Hc1.
  repeat split; try assumption.
  destruct (Qgtb _ 0) eqn:Havg; [|discriminate].
  apply Qgtb_true in Havg.
  apply Qmult_le_0_compat; [apply Qmult_le_0_compat|]; try assumption.
  - apply Qle_shift_div_l; [exact Havg|]. rewrite Qmult_0_l. discriminate.
  - apply (Qplus_le_r _ _ (lp_defectRate (loadPoint load l))). 
    unfold loadPoint. cbv zeta. cbn [lp_defectRate]. ring_simplify.
    exact Hd1.
Qed.

End LoadMoreFacts.

(** ** analyzers/burnout.ts: the weekly patterns *)

Section WeeklyFacts.
Import Burnout.

Definition emptyWeeks : WeeklyData :=
  {| weeklyOverload := []; dangerHourWork := []; velocityTrend := [] |}.

Definition weeksBack (now : Z) (issues : list IssueWithMetrics) (n : nat) : WeeklyData :=
  fold_left (weekStep now issues) (seq 0 n) emptyWeeks.

Lemma weeksBack_S now issues n :
  weeksBack now issues (S n) = weekStep now issues (weeksBack now issues n) n.
Proof. unfold weeksBack. rewrite seq_S, fold_left_app. reflexivity. Qed.

(** Whether an issue was resolved in the window of [n] weeks before now. *)
Definition resolvedWithin (now : Z) (n : nat) (i : IssueWithMetrics) : bool :=
  match i_resolved i with
  | None => false
  | Some r => inWeek (now - Z.of_nat n * MS_PER_WEEK) now r
  end.

Definition resolvedInWeek (now : Z) (n : nat) (i : IssueWithMetrics) : bool :=
  match i_resolved i with
  | None => false
  | Some r => inWeek (now - Z.of_nat n * MS_PER_WEEK - MS_PER_WEEK)
                     (now - Z.of_nat n * MS_PER_WEEK) r
  end.

Lemma count_split_week now n (issues : list IssueWithMetrics) :
  length (List.filter (resolvedWithin now (S n)) issues)
  = (length (List.filter (resolvedInWeek now n) issues)
     + length (List.filter (resolvedWithin now n) issues))%nat.
Proof.
  induction issues as [|i l IH]; simpl; [reflexivity|].
  assert (Hcase : resolvedWithin now (S n) i
                  = xorb (resolvedInWeek now n i) (resolvedWithin now n i) /\
                  (resolvedInWeek now n i && resolvedWithin now n i = false)).
  { unfold resolvedWithin, resolvedInWeek, inWeek, MS_PER_WEEK.
    destruct (i_resolved i) as [r|]; [|split; reflexivity].
    rewrite Nat2Z.inj_succ.
    assert (Hd : 0 < 7 * DateHelpers.MS_PER_DAY) by reflexivity.
    set (W := 7 * DateHelpers.MS_PER_DAY) in *.
    destruct (r >=? now - Z.succ (Z.of_nat n) * W) eqn:E1;
      destruct (r <? now) eqn:E2;
      destruct (r >=? now - Z.of_nat n * W - W) eqn:E3;
      destruct (r <? now - Z.of_nat n * W) eqn:E4;
      destruct (r >=? now - Z.of_nat n * W) eqn:E5;
      simpl; split; try reflexivity; exfalso;
      rewrite ?Z.geb_leb, ?Z.leb_le, ?Z.leb_gt, ?Z.ltb_lt, ?Z.ltb_ge in *; nia. }
  destruct Hcase as [Hx Hdis]. rewrite Hx.
  destruct (resolvedInWeek now n i), (resolvedWithin now n i); simpl in *;
    try discriminate; lia.
Qed.

Lemma weeksBack_facts now issues n :
  let w := weeksBack now issues n in
  length (weeklyOverload w) = n /\
  length (dangerHourWork w) = n /\
  length (velocityTrend w) = n /\
  Forall (fun x => (0 <= x)%Q /\ (x <= 100)%Q) (weeklyOverload w) /\
  Forall (fun x => x = 0%Q) (dangerHourWork w) /\
  sum_list (velocityTrend w) = length (List.filter (resolvedWithin now n) issues).
Proof.
  induction n as [|n IH]; cbv zeta.
  - unfold weeksBack. simpl. repeat split; try constructor.
    induction issues as [|i l IHl]; simpl; [reflexivity|].
    unfold resolvedWithin at 1. destruct (i_resolved i) as [r|]; [|exact IHl].
    assert (Hout : inWeek (now - Z.of_nat 0 * MS_PER_WEEK) now r = false).
    { unfold inWeek. apply andb_false_iff.
      destruct (r <? now) eqn:E; [left | right; reflexivity].
      apply Z.ltb_lt in E. rewrite Z.geb_leb. apply Z.leb_gt. lia. }
    rewrite Hout. exact IHl.
  - rewrite weeksBack_S. cbv zeta in IH.
    destruct IH as (H1 & H2 & H3 & H4 & H5 & H6).
    unfold weekStep. cbv zeta.
    cbn [weeklyOverload dangerHourWork velocityTrend length sum_list].
    rewrite H1, H2, H3. repeat split.
    + constructor; [|exact H4].
      destruct (0 <? _) eqn:E; [|split; discriminate].
      apply Z.ltb_lt in E. split.
      * apply Q.min_glb; [discriminate|].
        apply Qmult_le_0_compat; [|discriminate].
        apply Qle_shift_div_l; [reflexivity|]. rewrite Qmult_0_l.
        change 0%Q with (inject_Z 0). rewrite <- Zle_Qle. lia.
      * apply Q.le_min_l.
    + constructor; [reflexivity | exact H5].
    + rewrite count_split_week, H6. f_equal.
Qed.

(** X16: the weekly patterns cover exactly 8 weeks (three series of 8
    values, oldest week first); every overload estimate lies between 0
    and 100 and the danger-hour series is all zeros. *)
Theorem weekly_patterns_shape (now : Z) (issues : list IssueWithMetrics)
    (loadAnalysis : LoadAnalysis) (timingAnalysis : TimingAnalysis) :
  let w := analyzeWeeklyPatterns now issues loadAnalysis timingAnalysis in
  length (weeklyOverload w) = 8%nat /\
  length (dangerHourWork w) = 8%nat /\
  length (velocityTrend w) = 8%nat /\
  Forall (fun x => (0 <= x)%Q /\ (x <= 100)%Q) (weeklyOverload w) /\
  Forall (fun x => x = 0%Q) (dangerHourWork w).
Proof.
  pose proof (weeksBack_facts now issues 8) as H. cbv zeta in H.
  cbv zeta. unfold analyzeWeeklyPatterns. cbv zeta. fold emptyWeeks.
  fold (weeksBack now issues 8). tauto.
Qed.

(** X17: the eight weekly velocities add up to the number of issues that
    were resolved during the 56 days before now: the weeks do not overlap
    and leave no gap, so no resolved issue is counted twice and none
    resolved in that window is missed. *)
Theorem weekly_velocity_total (now : Z) (issues : list IssueWithMetrics)
    (loadAnalysis : LoadAnalysis) (timingAnalysis : TimingAnalysis) :
  sum_list (velocityTrend (analyzeWeeklyPatterns now issues loadAnalysis timingAnalysis))
  = length (List.filter
              (fun i : IssueWithMetrics =>
                 match i_resolved i with
                 | Some r => (now - 56 * DateHelpers.MS_PER_DAY <=? r) && (r <? now)
                 | None => false
                 end) issues).
Proof.
  pose proof (weeksBack_facts now issues 8) as H. cbv zeta in H.
  unfold analyzeWeeklyPatterns. cbv zeta. fold emptyWeeks.
  fold (weeksBack now issues 8).
  destruct H as (_ & _ & _ & _ & _ & ->).
  f_equal. apply List.filter_ext. intros i.
  unfold resolvedWithin, inWeek. destruct (i_resolved i) as [r|]; [|reflexivity].
  rewrite Z.geb_leb. reflexivity.
Qed.

End WeeklyFacts.

Module BurnoutPlan.

(** [generateRecoveryPlan]: the risk level is compared with ['high'] and
    ['critical']; the factors are not read. *)
Definition generateRecoveryPlan (riskLevel : RiskLevel)
    (factors : list BurnoutRiskFactor) : list string :=
  match riskLevel with
  | high_risk | critical =>
      [ "🏥 RECOVERY PLAN:";
        "Week 1: Reduce to 3-4 active tickets maximum";
        "Week 2: Return to normal 5-9 ticket range";
        "Week 3: Monitor energy levels and adjust";
        "Ongoing: Protect peak hours, avoid danger zone work" ]
  | _ => []
  end.

End BurnoutPlan.

Section RecoveryPlanFacts.
Import Burnout.

Lemma analyzeBurnoutRisk_plan env h accountId (st : Storage) :
  let r := fst (analyzeBurnoutRisk env h accountId st) in
  (r = createInsufficientDataResponse (now env) accountId
         (length (getUserIssuesWithMetrics env accountId 84))) \/
  (riskLevel r = determinRiskLevel (burnoutScore r) /\
   recoveryPlan r =
     (let plan := generateRecoveryPlan h (riskLevel r) (riskFactors r) in
      if (0 <? length plan)%nat then Some plan else None)).
Proof.
  cbv zeta. unfold analyzeBurnoutRisk, bind.
  destruct (getCachedAs asBurnout _ _ _ st) as [cached st1].
  destruct (length (getUserIssuesWithMetrics env accountId 84) <? 5)%nat.
  - left. reflexivity.
  - right.
    destruct (Load.analyzeLoadPatterns env h accountId st1) as [la st2].
    destruct (Timing.analyzeTimingPatterns env h accountId "6months" st2) as [ta st3].
    simpl. split; reflexivity.
Qed.

(** X18: when the recovery-plan generator is the one of the source, the
    burnout analysis carries a recovery plan exactly when its score is at
    least 50 (risk level high or critical), and the plan then has five
    lines. *)
Theorem recovery_plan_iff_high_score env h accountId (st : Storage) :
  generateRecoveryPlan h = BurnoutPlan.generateRecoveryPlan ->
  let r := fst (analyzeBurnoutRisk env h accountId st) in
  (recoveryPlan r <> None <-> 50 <= burnoutScore r) /\
  (forall plan, recoveryPlan r = Some plan -> length plan = 5%nat).
Proof.
  intros Hgen r.
  destruct (analyzeBurnoutRisk_plan env h accountId st) as [Hr | [Hlevel Hplan]];
    fold r in Hr || fold r in Hlevel, Hplan.
  - rewrite Hr. simpl. split; [split; intros; first [lia | congruence] | discriminate].
  - rewrite Hplan, Hgen, Hlevel. unfold determinRiskLevel.
    destruct (burnoutScore r >=? 70) eqn:E1;
      [|destruct (burnoutScore r >=? 50) eqn:E2;
        [|destruct (burnoutScore r >=? 30) eqn:E3]];
      rewrite ?Z.geb_leb, ?Z.leb_le, ?Z.leb_gt in *; simpl;
      (split; [split; intros; first [lia | congruence] |]);
      intros plan Hp; inversion Hp; reflexivity.
Qed.

End RecoveryPlanFacts.

(** ** analyzers/pitcrew.ts: collaborators and profiles *)

Module PitCrewProfiles.

(** [profiles.sort((a, b) => b.collaborationCount - a.collaborationCount)]:
    a stable sort, larger counts first. *)
Fixpoint insertByCount (p : TeamMateProfile) (sorted : list TeamMateProfile)
  : list TeamMateProfile :=
  match sorted with
  | [] => [p]
  | q :: rest =>
      if (collaborationCount q <=? collaborationCount p)%nat then p :: q :: rest
      else q :: insertByCount p rest
  end.

Definition sortByCount (profiles : list TeamMateProfile) : list TeamMateProfile :=
  fold_right insertByCount [] profiles.

Definition profileOf (accountId : string) (data : CollaborationData) : TeamMateProfile :=
  {| tm_accountId := accountId;
     tm_displayName :=
       if String.eqb (cd_displayName data) "" then "Unknown" else cd_displayName data;
     collaborationCount := length (sharedIssues data);
     tm_sharedIssues := length (sharedIssues data);
     mentionCount := 0 |}.

Definition buildTeammateProfiles (collaborationData : list (string * CollaborationData))
  : list TeamMateProfile :=
  let profiles := map (fun kv => profileOf (fst kv) (snd kv)) collaborationData in
  take 10 (sortByCount profiles).

End PitCrewProfiles.

Section PitCrewFacts.
Import PitCrew PitCrewProfiles.

(** An issue assigned to somebody else. *)
Definition isShared (currentUserId : string) (i : IssueWithMetrics) : bool :=
  negb (String.eqb (i_assigneeAccountId i) "") &&
  negb (String.eqb (i_assigneeAccountId i) currentUserId).

Definition sharedTotal (m : list (string * CollaborationData)) : nat :=
  sum_list (map (fun kv => length (sharedIssues (snd kv))) m).

(** What holds of every entry of the collaboration map. *)
Definition entryOk (currentUserId : string) (kv : string * CollaborationData) : Prop :=
  fst kv <> "" /\ fst kv <> currentUserId /\ cd_accountId (snd kv) = fst kv /\
  (length (cycleTimes (snd kv)) <= length (sharedIssues (snd kv)))%nat.

Lemma mapUpdate_keys {V : Type} key (f : V -> V) m :
  map fst (mapUpdate key f m) = map fst m.
Proof.
  unfold mapUpdate. induction m as [|[k v] m IH]; simpl; [reflexivity|].
  rewrite IH. destruct (String.eqb k key); reflexivity.
Qed.

Lemma mapHas_in {V : Type} key (m : list (string * V)) :
  mapHas key m = true <-> In key (map fst m).
Proof.
  unfold mapHas. rewrite existsb_exists. split.
  - intros ([k v] & Hin & Hk). simpl in Hk. apply String.eqb_eq in Hk. subst.
    apply in_map_iff. exists (key, v). auto.
  - intros Hin. apply in_map_iff in Hin as ([k v] & Hk & Hin). simpl in Hk. subst.
    exists (key, v). split; [exact Hin | apply String.eqb_refl].
Qed.

Lemma length_recordShared_shared issue d :
  length (sharedIssues (recordShared issue d)) = S (length (sharedIssues d)).
Proof. simpl. rewrite length_app. simpl. lia. Qed.

Lemma recordShared_cycle issue d :
  (length (cycleTimes d) <= length (sharedIssues d))%nat ->
  (length (cycleTimes (recordShared issue d))
     <= length (sharedIssues (recordShared issue d)))%nat.
Proof.
  intros H. rewrite length_recordShared_shared. simpl.
  destruct (metrics issue) as [m|]; [|lia].
  destruct (0 <? cycleTimeDays m); [rewrite length_app; simpl|]; lia.
Qed.

Lemma mapUpdate_total issue key m :
  NoDup (map fst m) -> In key (map fst m) ->
  sharedTotal (mapUpdate key (recordShared issue) m) = S (sharedTotal m).
Proof.
  unfold sharedTotal, mapUpdate.
  induction m as [|[k d] m IH]; intros Hnd Hin; [destruct Hin|].
  inversion Hnd as [|? ? Hk Hnd']; subst. simpl in *.
  destruct (String.eqb k key) eqn:E.
  - apply String.eqb_eq in E. subst k. simpl.
    rewrite length_app. simpl.
    replace (map _ (map _ m)) with (map (fun kv : string * CollaborationData =>
                                           length (sharedIssues (snd kv))) m); [lia|].
    clear -Hk. induction m as [|[k' d'] m IH]; simpl; [reflexivity|].
    destruct (String.eqb k' key) eqn:E'.
    + apply String.eqb_eq in E'. subst. exfalso. apply Hk. simpl.
      apply elem_of_cons. left. reflexivity.
    + simpl. f_equal. apply IH. intros Hin. apply Hk. simpl.
      apply elem_of_cons. right. exact Hin.
  - apply String.eqb_neq in E. destruct Hin as [Heq | Hin]; [congruence|].
    simpl. rewrite (IH Hnd' Hin). lia.
Qed.

Lemma mapUpdate_ok user issue key m :
  Forall (entryOk user) m -> Forall (entryOk user) (mapUpdate key (recordShared issue) m).
Proof.
  unfold mapUpdate. intros H. induction H as [|[k d] m Hkd _ IH]; simpl; constructor;
    try exact IH.
  destruct (String.eqb k key); [|exact Hkd].
  destruct Hkd as (H1 & H2 & H3 & H4). repeat split; try assumption.
  apply recordShared_cycle, H4.
Qed.

Lemma extract_invariant user (issues : list IssueWithMetrics) :
  forall acc,
    NoDup (map fst acc) -> Forall (entryOk user) acc ->
    let result :=
      fold_left
        (fun collaborations (issue : IssueWithMetrics) =>
           if negb (String.eqb (i_assigneeAccountId issue) "") &&
              negb (String.eqb (i_assigneeAccountId issue) user)
           then
             let key := i_assigneeAccountId issue in
             let collaborations :=
               if negb (mapHas key collaborations) then
                 (collaborations ++
                    [(key, {| cd_accountId := i_assigneeAccountId issue;
                              cd_displayName := i_assignee issue;
                              sharedIssues := [];
                              cycleTimes := [] |})])%list
               else collaborations in
             mapUpdate key (recordShared issue) collaborations
           else collaborations)
        issues acc in
    NoDup (map fst result) /\ Forall (entryOk user) result /\
    sharedTotal result
      = (sharedTotal acc + length (List.filter (isShared user) issues))%nat.
Proof.
  induction issues as [|i l IH]; intros acc Hnd Hok; cbv zeta; cbn [fold_left List.filter].
  - repeat split; try assumption. simpl. lia.
  - fold (isShared user i). destruct (isShared user i) eqn:Hs.
    + unfold isShared in Hs. apply andb_true_iff in Hs as [He Hu].
      apply negb_true_iff in He, Hu. apply String.eqb_neq in He, Hu.
      set (key := i_assigneeAccountId i) in *.
      set (fresh := {| cd_accountId := key; cd_displayName := i_assignee i;
                       sharedIssues := []; cycleTimes := [] |}).
      set (acc' := if negb (mapHas key acc) then (acc ++ [(key, fresh)])%list else acc).
      assert (Hacc' : NoDup (map fst acc') /\ Forall (entryOk user) acc' /\
                      In key (map fst acc') /\ sharedTotal acc' = sharedTotal acc).
      { subst acc'. destruct (mapHas key acc) eqn:Hhas; simpl.
        - repeat split; try assumption. apply mapHas_in, Hhas.
        - repeat split.
          + rewrite map_app. simpl. apply NoDup_app.
            split; [assumption|]. split; [|apply NoDup_singleton].
            intros x Hx Hy. apply list_elem_of_singleton in Hy. subst x.
            apply list_elem_of_In, mapHas_in in Hx. congruence.
          + apply Forall_app_2; [assumption|]. constructor; [|constructor].
            unfold entryOk. simpl. repeat split; try assumption. lia.
          + rewrite map_app. apply in_or_app. right. left. reflexivity.
          + unfold sharedTotal. rewrite map_app, sum_list_with_app. simpl. lia. }
      destruct Hacc' as (Hnd' & Hok' & Hin' & Htot').
      specialize (IH (mapUpdate key (recordShared i) acc')).
      cbv zeta in IH.
      destruct IH as (R1 & R2 & R3).
      * rewrite mapUpdate_keys. exact Hnd'.
      * apply mapUpdate_ok, Hok'.
      * repeat split; try assumption.
        rewrite R3, (mapUpdate_total i key acc' Hnd' Hin'), Htot'. simpl. lia.
    + specialize (IH acc Hnd Hok). cbv zeta in IH. exact IH.
Qed.

(** X19: the collaboration map has one entry per distinct collaborator:
    its keys are pairwise different, none is empty or the subject's own
    account id, every entry is stored under its own account id and holds
    at most as many cycle times as shared issues; the shared issues of
    all entries together are exactly the issues assigned to somebody
    else. *)
Theorem collaboration_map_invariant (issues : list IssueWithMetrics)
    (currentUserId : string) :
  let data := extractCollaborationData issues currentUserId in
  NoDup (map fst data) /\
  Forall (entryOk currentUserId) data /\
  sharedTotal data = length (List.filter (isShared currentUserId) issues).
Proof.
  cbv zeta. unfold extractCollaborationData.
  pose proof (extract_invariant currentUserId issues [] (NoDup_nil_2) (List.Forall_nil _)) as H.
  cbv zeta in H. exact H.
Qed.

Definition byCountDesc (p q : TeamMateProfile) : Prop :=
  (collaborationCount q <= collaborationCount p)%nat.

Lemma insertByCount_perm p l : Permutation (insertByCount p l) (p :: l).
Proof.
  induction l as [|q l IH]; simpl; [reflexivity|].
  destruct (collaborationCount q <=? collaborationCount p)%nat; [reflexivity|].
  rewrite IH. apply perm_swap.
Qed.

Lemma sortByCount_perm l : Permutation (sortByCount l) l.
Proof.
  induction l as [|p l IH]; simpl; [reflexivity|].
  rewrite insertByCount_perm. apply perm_skip, IH.
Qed.

Lemma insertByCount_sorted p l :
  StronglySorted byCountDesc l -> StronglySorted byCountDesc (insertByCount p l).
Proof.
  induction l as [|q l IH]; intros Hs; simpl.
  - constructor; constructor.
  - inversion Hs as [|? ? Hl Hq]; subst.
    destruct (collaborationCount q <=? collaborationCount p)%nat eqn:E.
    + apply Nat.leb_le in E. constructor; [exact Hs|].
      constructor; [exact E|].
      eapply List.Forall_impl; [|exact Hq]. unfold byCountDesc. intros x Hx. lia.
    + apply Nat.leb_gt in E. constructor; [apply IH, Hl|].
      rewrite insertByCount_perm. constructor; [unfold byCountDesc; lia | exact Hq].
Qed.

Lemma sortByCount_sorted l : StronglySorted byCountDesc (sortByCount l).
Proof.
  induction l as [|p l IH]; simpl; [constructor|]. apply insertByCount_sorted, IH.
Qed.

Lemma take_sorted {A : Type} (R : A -> A -> Prop) n (l : list A) :
  StronglySorted R l -> StronglySorted R (take n l).
Proof.
  intros H. rewrite <- (take_drop n l) in H.
  apply StronglySorted_app_1_l in H. exact H.
Qed.

(** X20: the teammate profiles are the (at most) ten collaborators with
    the most shared issues, in descending order of that count; every
    profile belongs to a collaborator of the map, reports the number of
    shared issues as its collaboration count and has no mentions. *)
Theorem teammate_profiles_top_ten (collaborationData : list (string * CollaborationData)) :
  let profiles := buildTeammateProfiles collaborationData in
  length profiles = Nat.min 10 (length collaborationData) /\
  StronglySorted byCountDesc profiles /\
  Forall (fun p => exists kv, In kv collaborationData /\ p = profileOf (fst kv) (snd kv))
         profiles /\
  Forall (fun p => ~ In p profiles ->
                   Forall (fun q => (collaborationCount p <= collaborationCount q)%nat) profiles)
         (map (fun kv => profileOf (fst kv) (snd kv)) collaborationData).
Proof.
  cbv zeta. unfold buildTeammateProfiles. cbv zeta.
  set (all := map (fun kv => profileOf (fst kv) (snd kv)) collaborationData).
  pose proof (sortByCount_perm all) as Hperm.
  pose proof (sortByCount_sorted all) as Hsorted.
  repeat split.
  - rewrite length_take, (Permutation_length Hperm). unfold all. rewrite length_map. lia.
  - apply take_sorted, Hsorted.
  - rewrite List.Forall_forall. intros p Hp.
    assert (Hin : In p all).
    { apply (Permutation_in _ Hperm). apply list_elem_of_In.
      eapply subseteq_take. apply list_elem_of_In. exact Hp. }
    unfold all in Hin. apply in_map_iff in Hin as (kv & Hkv & Hin). eauto.
  - rewrite List.Forall_forall. intros p Hp Hnot.
    rewrite List.Forall_forall. intros q Hq.
    assert (Hps : In p (sortByCount all)) by (apply (Permutation_in _ (Permutation_sym Hperm)), Hp).
    rewrite <- (take_drop 10 (sortByCount all)) in Hps, Hsorted.
    apply in_app_or in Hps as [Hps | Hps]; [contradiction|].
    apply (StronglySorted_app_1_elem_of _ _ _ q p Hsorted); apply list_elem_of_In; assumption.
Qed.

End PitCrewFacts.

Section ChemistryMoreFacts.
Import PitCrew.

Lemma chemistryOf_rating soloAvg accountId data :
  let c := chemistryOf soloAvg accountId data in
  30 <= score c /\
  (rating c = excellent -> (1 < speedMultiplier c)%Q) /\
  (rating c = needs_work ->
   (speedMultiplier c < 8 # 10)%Q /\ (collaborations c <= 5)%nat).
Proof.
  unfold chemistryOf. cbv zeta.
  cbn [score speedMultiplier collaborations rating].
  set (n := length (sharedIssues data)).
  set (m := if Qgtb soloAvg 0 then _ else _).
  destruct (Qgtb m (12 # 10)) eqn:E1;
    [|destruct (Qgtb m 1) eqn:E2; [|destruct (Qltb m (8 # 10)) eqn:E3]];
    destruct (10 <? n)%nat eqn:N1; try destruct (5 <? n)%nat eqn:N2;
    (split; [vm_compute; discriminate|]);
    (split; intros Hr; try (vm_compute in Hr; discriminate Hr)).
  all: try (apply Qgtb_true in E1; eapply Qlt_trans; [|exact E1]; reflexivity).
  all: try (apply Qgtb_true in E2; exact E2).
  apply Qltb_true in E3. apply Nat.ltb_ge in N2. split; assumption.
Qed.

(** X21: for every collaborator, the chemistry score is at least 30; the
    rating excellent is given only when work with the collaborator is
    faster than the subject's average (speed multiplier above 1), and the
    rating needs-work only when it is clearly slower (multiplier below
    0.8) on at most 5 shared issues. *)
Theorem chemistry_rating_meaning
    (collaborationData : list (string * CollaborationData))
    (allIssues : list IssueWithMetrics) (id : string) (c : ChemistryScore) :
  calculateChemistryScores collaborationData allIssues !! id = Some c ->
  30 <= score c /\
  (rating c = excellent -> (1 < speedMultiplier c)%Q) /\
  (rating c = needs_work ->
   (speedMultiplier c < 8 # 10)%Q /\ (collaborations c <= 5)%nat).
Proof.
  intros H. unfold calculateChemistryScores in H. cbv zeta in H.
  apply chemistry_entries in H.
  - destruct H as [data ->].
    pose proof (chemistryOf_rating
                  (if (0 <? length (positiveCycleTimes allIssues))%nat
                   then average (map inject_Z (positiveCycleTimes allIssues))
                   else 10%Q) id data) as Hc.
    cbv zeta in Hc. exact Hc.
  - intros id' c' H'. rewrite lookup_empty in H'. discriminate.
Qed.

Lemma chemistry_rating_meaning_witness :
  30 <= score bobScore /\
  (rating bobScore = excellent -> (1 < speedMultiplier bobScore)%Q) /\
  (rating bobScore = needs_work ->
   (speedMultiplier bobScore < 8 # 10)%Q /\ (collaborations bobScore <= 5)%nat).
Proof.
  apply (chemistry_rating_meaning
           (extractCollaborationData sharedHistory "me") sharedHistory "bob" bobScore).
  vm_compute. reflexivity.
Defined.

End ChemistryMoreFacts.

(** ** Sample runs of the added properties *)

Section SampleRuns.


(** The helper functions of the source where they are modelled, the empty
    ones elsewhere. *)
Definition sourceHelpers : Helpers :=
  {| groupByHour := groupByHour emptyHelpers;
     analyzeDayPatterns := analyzeDayPatterns emptyHelpers;
     findPeakWindow := findPeakWindow emptyHelpers;
     findDangerZone := findDangerZone emptyHelpers;
     generateTimingRecommendations := generateTimingRecommendations emptyHelpers;
     buildLoadCurve := LoadCurve.buildLoadCurve;
     generateLoadRecommendations := generateLoadRecommendations emptyHelpers;
     analyzeByTicketType := analyzeByTicketType emptyHelpers;
     analyzeByComponent := analyzeByComponent emptyHelpers;
     generateStrengthRecommendations := generateStrengthRecommendations emptyHelpers;
     groupByMonth := groupByMonth emptyHelpers;
     calculateVelocityTrend := calculateVelocityTrend emptyHelpers;
     calculateQualityTrend := calculateQualityTrend emptyHelpers;
     calculateSkillsEvolution := calculateSkillsEvolution emptyHelpers;
     calculatePeriodComparison := calculatePeriodComparison emptyHelpers;
     generateTrendRecommendations := generateTrendRecommendations emptyHelpers;
     generateBurnoutRecommendations := generateBurnoutRecommendations emptyHelpers;
     generateRecoveryPlan := BurnoutPlan.generateRecoveryPlan;
     buildTeammateProfiles := PitCrewProfiles.buildTeammateProfiles;
     buildCollaborationNetwork := buildCollaborationNetwork emptyHelpers;
     calculateTeamMetrics := calculateTeamMetrics emptyHelpers;
     generatePitCrewRecommendations := generatePitCrewRecommendations emptyHelpers;
     identifyAtRiskTickets := identifyAtRiskTickets emptyHelpers;
     generateWhatIfScenarios := generateWhatIfScenarios emptyHelpers;
     generatePredictionRecommendations := generatePredictionRecommendations emptyHelpers;
     toFixed0 := toFixed0 emptyHelpers |}.

(** A subject with 5 items created and none resolved in each of the last
    six weeks, and 14 active tickets. *)
Definition overworked : Env :=
  {| now := day 1000;
     getHours := fun _ => 10;
     getUserIssuesWithMetrics := fun _ _ =>
       map (fun k => plainIssue ("DT-" +:+ pretty k)
                       (day (999 - 7 * Z.of_nat (k mod 6))) None) (seq 0 30);
     getActiveIssues := fun _ =>
       map (fun k => issue (plainIssue ("AC-" +:+ pretty k) (day 999) None)) (seq 0 14);
     random := fun _ _ => 0%Q |}.

Lemma recovery_plan_iff_high_score_witness :
  (recoveryPlan (fst (Burnout.analyzeBurnoutRisk overworked sourceHelpers "acc-1" ∅)) <> None
   <-> 50 <= burnoutScore (fst (Burnout.analyzeBurnoutRisk overworked sourceHelpers "acc-1" ∅))) /\
  burnoutScore (fst (Burnout.analyzeBurnoutRisk overworked sourceHelpers "acc-1" ∅)) = 65.
Proof.
  split.
  - apply (proj1 (recovery_plan_iff_high_score overworked sourceHelpers "acc-1" ∅ eq_refl)).
  - vm_compute. reflexivity.
Defined.

(** A raw changelog delivered out of order: closed at hour 50, taken up
    at hour 2, created at hour 0. *)
Definition rawStatus (id : string) (created : Z) (to : string) : MetricsMore.RawHistory :=
  {| MetricsMore.raw_id := id;
     MetricsMore.raw_created := created;
     MetricsMore.raw_author := None;
     MetricsMore.raw_items :=
       [ {| MetricsMore.raw_field := "status";
            MetricsMore.raw_fromString := None;
            MetricsMore.raw_toString := Some to |} ] |}.

Definition unorderedChangelog : MetricsMore.RawChangelog :=
  {| MetricsMore.raw_values :=
       Some [ rawStatus "3" (50 * DateHelpers.MS_PER_HOUR) "Done";
              rawStatus "2" (2 * DateHelpers.MS_PER_HOUR) "In Progress";
              rawStatus "1" 0 "To Do" ] |}.

Definition unorderedMetrics : IssueMetrics :=
  match MetricsMore.calculateIssueMetrics "DT-1" (Some unorderedChangelog) with
  | Some m => m
  | None => MetricsMore.createDefaultMetrics "DT-1"
  end.

Lemma issue_metrics_sane_witness :
  0 <= leadTimeDays unorderedMetrics /\
  cycleTimeDays unorderedMetrics <= leadTimeDays unorderedMetrics /\
  (0 <= inProgressDuration unorderedMetrics)%Q /\
  (0 <= reviewDuration unorderedMetrics)%Q.
Proof.
  apply (issue_metrics_sane "DT-1" unorderedChangelog unorderedMetrics).
  reflexivity.
Defined.


Definition loadedItems : list (IssueWithMetrics * nat) :=
  [(itemA, 2%nat); (itemB, 2%nat); (itemC, 1%nat)].

Definition pointAtTwo : LoadPoint :=
  default {| lp_load := 0; lp_cycleTime := 0; lp_defectRate := 0;
             lp_completionRate := 0; lp_score := 0 |}
          (LoadCurve.buildLoadCurve loadedItems !! 2%nat).

Lemma load_curve_points_witness :
  lp_load pointAtTwo = 2%nat /\ (1 <= 2)%nat /\
  (0 <= lp_defectRate pointAtTwo)%Q /\ (lp_defectRate pointAtTwo <= 1)%Q /\
  (0 <= lp_completionRate pointAtTwo)%Q /\ (lp_completionRate pointAtTwo <= 1)%Q /\
  (0 <= lp_score pointAtTwo)%Q.
Proof.
  apply (load_curve_points loadedItems 2 pointAtTwo).
  vm_compute. reflexivity.
Defined.

(** Eleven collaborators; collaborator number [n] shares [n] issues. *)
Definition crowd : list (string * CollaborationData) :=
  map (fun n => (pretty n,
                 {| cd_accountId := pretty n; cd_displayName := pretty n;
                    sharedIssues := repeat "K" n; cycleTimes := [] |}))
      (seq 0 11).

Lemma teammate_profiles_top_ten_witness :
  Forall (fun q => (0 <= collaborationCount q)%nat)
         (PitCrewProfiles.buildTeammateProfiles crowd) /\
  length (PitCrewProfiles.buildTeammateProfiles crowd) = 10%nat.
Proof.
  split.
  - refine (List.Forall_inv
              (proj2 (proj2 (proj2 (teammate_profiles_top_ten crowd)))) _).
    intros Hin. vm_compute in Hin.
    repeat (destruct Hin as [Hin|Hin]; [discriminate Hin|]). exact Hin.
  - apply (proj1 (teammate_profiles_top_ten crowd)).
Defined.

End SampleRuns.

(** ** The entry points: a computed analysis is served to later runs *)

Section SecondRunFacts.
Import Cache.

(** The least number of fetched items for which an entry point computes
    an analysis. *)
Definition analyzerMinItems (a : Analyzer) : nat :=
  match a with
  | BurnoutAnalyzer | PredictionAnalyzer => 5
  | _ => 10
  end.

Lemma run_on_hit env h (a : Analyzer) accountId (st : Storage) e :
  a <> BurnoutAnalyzer ->
  st !! buildCacheKey (mkKey (analyzerNamespace a) accountId) = Some e ->
  version e = CACHE_VERSION ->
  (inject_Z (now env - lastUpdated e) <= maxAgeOf (analyzerTtl a))%Q ->
  payloadOf a (data e) = true ->
  runAnalyzer env h a accountId st =
    (match a with
     | LoadAnalyzer => servedFromCache env accountId (data e)
     | _ => data e
     end, st).
Proof.
  intros Hb He Hv Hage Hp.
  pose proof (getCached_hit _ _ _ _ _ He Hv Hage) as Hhit.
  destruct a; try congruence; destruct (data e) as [p|p|p|p|p|p|p|p] eqn:Hd;
    try discriminate Hp; simpl in Hhit |- *;
    unfold lift, bind,
      Timing.analyzeTimingPatterns, Load.analyzeLoadPatterns,
      Strengths.analyzeStrengthPatterns, Trends.analyzeTrends,
      Collaboration.analyzeCollaborationPatterns, PitCrew.analyzePitCrewPatterns,
      Predictions.predictSprintCompletion;
    cbv zeta; unfold bind; rewrite getCachedAs_eq, Hhit; reflexivity.
Qed.

Lemma run_on_miss env h (a : Analyzer) accountId (st : Storage) :
  a <> BurnoutAnalyzer ->
  fst (getCached (now env) (mkKey (analyzerNamespace a) accountId) (analyzerTtl a) st) = None ->
  (analyzerMinItems a <= length (getUserIssuesWithMetrics env accountId (analyzerDaysBack a)))%nat ->
  (a = PredictionAnalyzer ->
   positiveCycleTimes (getUserIssuesWithMetrics env accountId 90) <> []) ->
  exists payload,
    payloadOf a payload = true /\
    runAnalyzer env h a accountId st =
      (payload,
       snd (setCache (now env) (mkKey (analyzerNamespace a) accountId) payload (analyzerTtl a)
              (snd (getCached (now env) (mkKey (analyzerNamespace a) accountId)
                      (analyzerTtl a) st)))).
Proof.
  intros Hb Hmiss Hlen Hpos.
  destruct a; try congruence; simpl in Hmiss, Hlen |- *;
    try (apply Nat.ltb_ge in Hlen);
    unfold lift, bind,
      Timing.analyzeTimingPatterns, Load.analyzeLoadPatterns,
      Strengths.analyzeStrengthPatterns, Trends.analyzeTrends,
      Collaboration.analyzeCollaborationPatterns, PitCrew.analyzePitCrewPatterns,
      Predictions.predictSprintCompletion;
    cbv zeta; unfold bind; rewrite getCachedAs_eq, Hmiss;
    try (rewrite (surjective_pairing (DateHelpers.getTimeRange (now env) "6months")),
           timing_daysBack);
    try change (6 * 30) with 180;
    rewrite Hlen.
  7: { specialize (Hpos eq_refl).
       destruct (positiveCycleTimes _) as [|c cs] eqn:Hc; [congruence|].
       cbn [length Nat.eqb]. eexists. split; [|reflexivity]. reflexivity. }
  all: eexists; (split; [|reflexivity]); reflexivity.
Qed.

(** X22: an analysis that an entry point has computed and stored is what
    the entry point returns on every later run that starts within the TTL
    of the first one, whatever the tracker holds by then, and that run
    leaves the storage as it is; the load entry point returns it with the
    current load refreshed. *)
Theorem computed_analysis_is_served env env' h h' (a : Analyzer) accountId (st : Storage) :
  a <> BurnoutAnalyzer ->
  fst (getCached (now env) (mkKey (analyzerNamespace a) accountId) (analyzerTtl a) st) = None ->
  (analyzerMinItems a <= length (getUserIssuesWithMetrics env accountId (analyzerDaysBack a)))%nat ->
  (a = PredictionAnalyzer ->
   positiveCycleTimes (getUserIssuesWithMetrics env accountId 90) <> []) ->
  (inject_Z (now env' - now env) <= maxAgeOf (analyzerTtl a))%Q ->
  let first := runAnalyzer env h a accountId st in
  runAnalyzer env' h' a accountId (snd first) =
    (match a with
     | LoadAnalyzer => servedFromCache env' accountId (fst first)
     | _ => fst first
     end, snd first).
Proof.
  intros Hb Hmiss Hlen Hpos Hage first.
  destruct (run_on_miss env h a accountId st Hb Hmiss Hlen Hpos) as (payload & Hp & Hrun).
  subst first. rewrite Hrun. cbn [fst snd].
  apply (run_on_hit env' h' a accountId _
           {| data := payload; lastUpdated := now env;
              ttlHours := analyzerTtl a; version := CACHE_VERSION |});
    [exact Hb | apply setCache_lookup | reflexivity | exact Hage | exact Hp].
Qed.

End SecondRunFacts.

(** The tracker an hour later, with no history left. *)
Definition anHourLater : Env :=
  {| now := day 1000 + DateHelpers.MS_PER_HOUR;
     getHours := fun _ => 11;
     getUserIssuesWithMetrics := fun _ _ => [];
     getActiveIssues := fun _ => [];
     random := fun _ _ => 0%Q |}.

Lemma computed_analysis_is_served_witness :
  runAnalyzer anHourLater emptyHelpers TimingAnalyzer "acc-1"
    (snd (runAnalyzer (subjectWith 12) emptyHelpers TimingAnalyzer "acc-1" ∅))
  = (fst (runAnalyzer (subjectWith 12) emptyHelpers TimingAnalyzer "acc-1" ∅),
     snd (runAnalyzer (subjectWith 12) emptyHelpers TimingAnalyzer "acc-1" ∅)).
Proof.
  apply (computed_analysis_is_served (subjectWith 12) anHourLater emptyHelpers emptyHelpers
           TimingAnalyzer "acc-1" ∅).
  - discriminate.
  - reflexivity.
  - vm_compute. lia.
  - discriminate.
  - vm_compute. discriminate.
Defined.

(** ** analyzers/predictions.ts: the simulation *)

Section SimulationFacts.
Import Predictions.

Lemma simulateTickets_range draw times days remaining :
  forall ticket daysUsed completed,
    (completed <= simulateTickets draw times days remaining ticket daysUsed completed
     <= completed + remaining)%nat.
Proof.
  induction remaining as [|n IH]; intros ticket daysUsed completed; simpl; [lia|].
  destruct (sample times (draw ticket)) as [c|]; [|lia].
  destruct (daysUsed + c <=? days); [|lia].
  specialize (IH (S ticket) (daysUsed + c) (S completed)). lia.
Qed.

Lemma simulationResults_range rnd ticketCount times days iterations :
  Forall (fun r => (r <= ticketCount)%nat)
         (simulationResults rnd ticketCount times days iterations).
Proof.
  unfold simulationResults. apply List.Forall_forall. intros r Hr.
  apply in_map_iff in Hr as (i & <- & _).
  pose proof (simulateTickets_range (rnd i) times days ticketCount 0 0 0%nat). lia.
Qed.

Lemma length_simulationResults rnd ticketCount times days iterations :
  length (simulationResults rnd ticketCount times days iterations) = iterations.
Proof. unfold simulationResults. rewrite length_map, length_seq. reflexivity. Qed.

Lemma fold_Qplus_bounds (lo hi : Q) (l : list Q) :
  Forall (fun x => (lo <= x)%Q /\ (x <= hi)%Q) l ->
  forall a,
    (a + lo * inject_Z (Z.of_nat (length l)) <= fold_left Qplus l a)%Q /\
    (fold_left Qplus l a <= a + hi * inject_Z (Z.of_nat (length l)))%Q.
Proof.
  induction 1 as [|x l [Hlo Hhi] _ IH]; intros a.
  - simpl. rewrite !Qmult_0_r, Qplus_0_r. split; apply Qle_refl.
  - cbn [fold_left length]. destruct (IH (a + x)%Q) as [IHlo IHhi].
    assert (Hn : (inject_Z (Z.of_nat (S (length l))) == inject_Z (Z.of_nat (length l)) + 1)%Q).
    { rewrite Nat2Z.inj_succ. unfold Z.succ. rewrite inject_Z_plus. reflexivity. }
    rewrite Hn. split.
    + eapply Qle_trans; [|exact IHlo].
      setoid_replace (a + lo * (inject_Z (Z.of_nat (length l)) + 1))%Q
        with ((a + lo) + lo * inject_Z (Z.of_nat (length l)))%Q using relation Qeq by ring.
      apply Qplus_le_l. apply Qplus_le_r. exact Hlo.
    + eapply Qle_trans; [exact IHhi|].
      setoid_replace (a + hi * (inject_Z (Z.of_nat (length l)) + 1))%Q
        with ((a + hi) + hi * inject_Z (Z.of_nat (length l)))%Q using relation Qeq by ring.
      apply Qplus_le_l. apply Qplus_le_r. exact Hhi.
Qed.

(** The mean of numbers between two bounds lies between the bounds. *)
Lemma average_between (lo hi : Q) (l : list Q) :
  l <> [] ->
  Forall (fun x => (lo <= x)%Q /\ (x <= hi)%Q) l ->
  (lo <= average l)%Q /\ (average l <= hi)%Q.
Proof.
  intros Hne Hall.
  destruct (fold_Qplus_bounds lo hi l Hall 0%Q) as [Hlo Hhi].
  rewrite Qplus_0_l in Hlo, Hhi.
  assert (Hpos : (0 < inject_Z (Z.of_nat (length l)))%Q).
  { rewrite <- (Zlt_Qlt 0). destruct l; [congruence|]. simpl. lia. }
  unfold average. destruct l as [|x l']; [congruence|].
  unfold sumQ. split.
  - apply Qle_shift_div_l; assumption.
  - apply Qle_shift_div_r; assumption.
Qed.

Lemma round_between (x : Q) (n : Z) :
  (0 <= x)%Q -> (x <= inject_Z n)%Q -> 0 <= Qfloor (x + (1 # 2)) <= n.
Proof.
  intros H0 Hn. split.
  - change 0 with (Qfloor 0). apply Qfloor_resp_le.
    apply Qle_trans with x; [exact H0|].
    rewrite <- (Qplus_0_r x) at 1. apply Qplus_le_r. discriminate.
  - apply Z.lt_succ_r. rewrite (Zlt_Qlt _ (Z.succ n)).
    eapply Qle_lt_trans; [apply Qfloor_le|].
    unfold Z.succ. rewrite inject_Z_plus.
    apply Qle_lt_trans with (inject_Z n + (1 # 2))%Q.
    + apply Qplus_le_l. exact Hn.
    + apply Qplus_lt_r. reflexivity.
Qed.

Lemma sorted_lookup_le (l : list nat) :
  StronglySorted Nat.le l ->
  forall i j x y, (i <= j)%nat -> l !! i = Some x -> l !! j = Some y -> (x <= y)%nat.
Proof.
  induction 1 as [|a l Hs IH Ha]; intros i j x y Hij Hi Hj.
  - rewrite lookup_nil in Hi. discriminate.
  - destruct i as [|i], j as [|j]; simpl in Hi, Hj.
    + assert (x = y) by congruence. lia.
    + inversion Hi; subst a. rewrite List.Forall_forall in Ha.
      apply Ha. apply list_elem_of_In. eapply list_elem_of_lookup_2. exact Hj.
    + lia.
    + apply (IH i j); [lia | assumption | assumption].
Qed.

Lemma tenth_indices (n : nat) :
  (0 < n)%nat ->
  (Z.to_nat (Qfloor (inject_Z (Z.of_nat n) * (1 # 10)))
   <= Z.to_nat (Qfloor (inject_Z (Z.of_nat n) * (9 # 10))))%nat /\
  (Z.to_nat (Qfloor (inject_Z (Z.of_nat n) * (9 # 10))) < n)%nat.
Proof.
  intros Hn. unfold Qfloor, Qmult, inject_Z. cbn [Qnum Qden Pos.mul].
  split.
  - apply Z2Nat.inj_le.
    + apply Z.div_pos; lia.
    + apply Z.div_pos; lia.
    + apply Z.div_le_mono; lia.
  - apply Nat2Z.inj_lt. rewrite Z2Nat.id by (apply Z.div_pos; lia).
    apply Z.div_lt_upper_bound; lia.
Qed.

(** X23: whatever the random draws and the historical cycle times, a
    simulation with at least one iteration reports a completion
    probability between 0 and 1, an expected number of completed tickets
    between 0 and the number of tickets, and a confidence interval whose
    two ends are defined, ordered, and at most the number of tickets. *)
Theorem simulation_result_bounds (rnd : nat -> nat -> Q) (ticketCount : nat)
    (historicalCycleTimes : list Z) (daysAvailable : Z) (iterations : nat) :
  (0 < iterations)%nat ->
  let r := runMonteCarloSimulation rnd ticketCount historicalCycleTimes
             daysAvailable iterations in
  (0 <= sim_completionProbability r)%Q /\ (sim_completionProbability r <= 1)%Q /\
  0 <= expectedCompleted r <= Z.of_nat ticketCount /\
  exists lo hi,
    ci_low (sim_confidenceInterval r) = Some lo /\
    ci_high (sim_confidenceInterval r) = Some hi /\
    (lo <= hi <= ticketCount)%nat.
Proof.
  intros Hit r. subst r. unfold runMonteCarloSimulation. cbv zeta.
  cbn [sim_completionProbability expectedCompleted sim_confidenceInterval ci_low ci_high].
  set (results := simulationResults rnd ticketCount historicalCycleTimes
                    daysAvailable iterations).
  pose proof (simulationResults_range rnd ticketCount historicalCycleTimes
                daysAvailable iterations) as Hrange. fold results in Hrange.
  pose proof (length_simulationResults rnd ticketCount historicalCycleTimes
                daysAvailable iterations) as Hlen. fold results in Hlen.
  assert (Hpos : (0 < inject_Z (Z.of_nat iterations))%Q).
  { rewrite <- (Zlt_Qlt 0). lia. }
  split; [|split; [|split]].
  - apply Qle_shift_div_l; [exact Hpos|]. rewrite Qmult_0_l.
    rewrite <- (Zle_Qle 0). lia.
  - apply Qle_shift_div_r; [exact Hpos|]. rewrite Qmult_1_l.
    rewrite <- Zle_Qle. apply Nat2Z.inj_le.
    etransitivity; [apply List.filter_length_le|]. rewrite Hlen. reflexivity.
  - apply round_between.
    + apply (average_between 0 (inject_Z (Z.of_nat ticketCount))).
      * destruct results; [simpl in Hlen; lia | discriminate].
      * apply List.Forall_forall. intros x Hx.
        apply in_map_iff in Hx as (k & <- & Hk).
        rewrite List.Forall_forall in Hrange. specialize (Hrange k Hk).
        split; [rewrite <- (Zle_Qle 0) | rewrite <- Zle_Qle]; lia.
    + apply (average_between 0 (inject_Z (Z.of_nat ticketCount))).
      * destruct results; [simpl in Hlen; lia | discriminate].
      * apply List.Forall_forall. intros x Hx.
        apply in_map_iff in Hx as (k & <- & Hk).
        rewrite List.Forall_forall in Hrange. specialize (Hrange k Hk).
        split; [rewrite <- (Zle_Qle 0) | rewrite <- Zle_Qle]; lia.
  - destruct (tenth_indices iterations Hit) as [Hlohi Hhi].
    set (sorted := merge_sort Nat.le results).
    assert (Hperm : sorted ≡ₚ results) by apply merge_sort_Permutation.
    assert (Hsl : length sorted = iterations).
    { rewrite (Permutation_length Hperm). exact Hlen. }
    destruct (lookup_lt_is_Some_2 sorted
                (Z.to_nat (Qfloor (inject_Z (Z.of_nat iterations) * (1 # 10)))))
      as [lo Hlo]; [lia|].
    destruct (lookup_lt_is_Some_2 sorted
                (Z.to_nat (Qfloor (inject_Z (Z.of_nat iterations) * (9 # 10)))))
      as [hi Hhi']; [lia|].
    exists lo, hi. split; [exact Hlo|]. split; [exact Hhi'|]. split.
    + refine (sorted_lookup_le sorted _ _ _ lo hi Hlohi Hlo Hhi').
      apply (StronglySorted_merge_sort Nat.le).
    + rewrite List.Forall_forall in Hrange. apply Hrange.
      apply (Permutation_in _ Hperm). apply list_elem_of_In.
      eapply list_elem_of_lookup_2. exact Hhi'.
Qed.

(** Twenty trials over three tickets, ten days and the draw 1/2. *)
Definition mixedTrials : SimulationResult :=
  runMonteCarloSimulation (fun _ _ => (1 # 2)%Q) 3 [2; 4; 6] 10 20.

Lemma simulation_result_bounds_witness :
  (0 <= sim_completionProbability mixedTrials)%Q /\
  (sim_completionProbability mixedTrials <= 1)%Q /\
  0 <= expectedCompleted mixedTrials <= Z.of_nat 3 /\
  exists lo hi,
    ci_low (sim_confidenceInterval mixedTrials) = Some lo /\
    ci_high (sim_confidenceInterval mixedTrials) = Some hi /\
    (lo <= hi <= 3)%nat.
Proof.
  apply (simulation_result_bounds (fun _ _ => (1 # 2)%Q) 3 [2; 4; 6] 10 20). lia.
Defined.

Lemma all_trials (v : nat) rnd ticketCount times days iterations :
  (forall i, simulateTickets (rnd i) times days ticketCount 0 0 0 = v) ->
  simulationResults rnd ticketCount times days iterations = repeat v iterations.
Proof.
  intros H. unfold simulationResults.
  assert (G : forall s, map (fun i => simulateTickets (rnd i) times days ticketCount 0 0 0)
                          (seq s iterations) = repeat v iterations).
  { induction iterations as [|n IH]; intros s; simpl; [reflexivity|].
    rewrite H, IH. reflexivity. }
  apply G.
Qed.

Lemma filter_repeat_all (v : nat) n :
  List.filter (fun r => (r =? v)%nat) (repeat v n) = repeat v n.
Proof. induction n; simpl; [reflexivity|]. rewrite Nat.eqb_refl, IHn. reflexivity. Qed.

Lemma filter_repeat_none (v w : nat) n :
  v <> w -> List.filter (fun r => (r =? w)%nat) (repeat v n) = [].
Proof.
  intros H. induction n; simpl; [reflexivity|].
  destruct (Nat.eqb_spec v w); [contradiction | exact IHn].
Qed.

Lemma average_repeat_zero n : (average (map (fun r => inject_Z (Z.of_nat r)) (repeat 0%nat n)) == 0)%Q.
Proof.
  destruct (average_between 0 0 (map (fun r => inject_Z (Z.of_nat r)) (repeat 0%nat (S n))))
    as [H0 H1].
  - discriminate.
  - apply List.Forall_forall. intros x Hx. apply in_map_iff in Hx as (k & <- & Hk).
    apply repeat_spec in Hk. subst k. split; apply Qle_refl.
  - destruct n; [reflexivity|].
    destruct (average_between 0 0 (map (fun r => inject_Z (Z.of_nat r)) (repeat 0%nat (S n))))
      as [G0 G1].
    + discriminate.
    + apply List.Forall_forall. intros x Hx. apply in_map_iff in Hx as (k & <- & Hk).
      apply repeat_spec in Hk. subst k. split; apply Qle_refl.
    + apply Qle_antisym; assumption.
Qed.

(** X24: the two ends of the simulation. Without tickets every trial
    completes all of them and the completion probability is 1; when every
    historical cycle time exceeds the days available and there is at
    least one ticket, no trial completes a single ticket, the completion
    probability is 0 and the expected number of completed tickets is 0. *)
Theorem simulation_extremes (rnd : nat -> nat -> Q) (ticketCount : nat)
    (historicalCycleTimes : list Z) (daysAvailable : Z) (iterations : nat) :
  (0 < iterations)%nat ->
  let r := runMonteCarloSimulation rnd ticketCount historicalCycleTimes
             daysAvailable iterations in
  (ticketCount = 0%nat ->
   (sim_completionProbability r == 1)%Q /\ expectedCompleted r = 0) /\
  ((0 < ticketCount)%nat ->
   Forall (fun c => daysAvailable < c) historicalCycleTimes ->
   (sim_completionProbability r == 0)%Q /\ expectedCompleted r = 0).
Proof.
  intros Hit r. subst r. unfold runMonteCarloSimulation. cbv zeta.
  cbn [sim_completionProbability expectedCompleted].
  assert (Hnz : ~ (inject_Z (Z.of_nat iterations) == 0)%Q).
  { intros H. unfold Qeq in H. simpl in H. lia. }
  split.
  - intros ->.
    rewrite (all_trials 0%nat) by reflexivity.
    rewrite filter_repeat_all, repeat_length. split.
    + apply Qmult_inv_r. exact Hnz.
    + rewrite average_repeat_zero. reflexivity.
  - intros Hpos Hall.
    rewrite (all_trials 0%nat).
    + rewrite filter_repeat_none by lia. split.
      * simpl. unfold Qdiv. rewrite Qmult_0_l. reflexivity.
      * rewrite average_repeat_zero. reflexivity.
    + intros i. destruct ticketCount as [|n]; [lia|]. simpl.
      destruct (sample historicalCycleTimes (rnd i 0%nat)) as [c|] eqn:Hs; [|reflexivity].
      unfold sample in Hs. cbv zeta in Hs.
      destruct (Qfloor _ <? 0); [discriminate|].
      rewrite List.Forall_forall in Hall.
      assert (Hc : daysAvailable < c).
      { apply Hall. apply list_elem_of_In. eapply list_elem_of_lookup_2. exact Hs. }
      destruct (0 + c <=? daysAvailable) eqn:E; [|reflexivity].
      apply Z.leb_le in E. lia.
Qed.

(** The same trials when every historical cycle time is above the ten
    days. *)
Definition hopelessTrials : SimulationResult :=
  runMonteCarloSimulation (fun _ _ => (1 # 2)%Q) 3 [12; 14] 10 20.

Lemma simulation_extremes_witness :
  (sim_completionProbability hopelessTrials == 0)%Q /\
  expectedCompleted hopelessTrials = 0.
Proof.
  apply (proj2 (simulation_extremes (fun _ _ => (1 # 2)%Q) 3 [12; 14] 10 20 ltac:(lia))).
  - lia.
  - repeat constructor.
Defined.

End SimulationFacts.

(** ** analyzers/predictions.ts: tickets at risk *)

Module PredictionRisks.

Section WithFormat.
(** [n.toFixed(1)] *)
Context (toFixed1 : Q -> string).

(** The body of the [forEach] callback of [identifyAtRiskTickets] for the
    ticket at position [index] of a queue of [total] tickets. *)
Definition riskLevelAt (avgCycleTime : Q) (daysRemaining : Z) (index : nat) : option Severity :=
  let estimatedDaysToStart := (inject_Z (Z.of_nat index) * avgCycleTime)%Q in
  let estimatedDaysToComplete := (estimatedDaysToStart + avgCycleTime)%Q in
  if Qgtb estimatedDaysToComplete (inject_Z daysRemaining) then
    let overage := (estimatedDaysToComplete - inject_Z daysRemaining)%Q in
    Some (if Qgtb overage (avgCycleTime * 2) then sev_critical
          else if Qgtb overage avgCycleTime then sev_high
          else if Qgtb overage (avgCycleTime * (1 # 2)) then sev_medium
          else sev_low)
  else None.

Definition ticketRisk (avgCycleTime : Q) (daysRemaining : Z) (total : nat)
    (index : nat) (ticket : JiraIssue) : option TicketRisk :=
  match riskLevelAt avgCycleTime daysRemaining index with
  | Some riskLevel =>
      Some {| tk_issueKey := i_key ticket;
              tk_summary :=
                if String.eqb (i_summary ticket) "" then "No summary" else i_summary ticket;
              tk_riskLevel := riskLevel;
              estimatedDaysRemaining := Qceiling avgCycleTime;
              tk_factors :=
                [ "Estimated " +:+ toFixed1 avgCycleTime +:+ " days to complete";
                  "Only " +:+ pretty daysRemaining +:+ " days left in sprint";
                  "Queue position: " +:+ pretty (index + 1)%nat +:+ " of " +:+ pretty total ];
              recommendedAction :=
                match riskLevel with
                | sev_critical => "Move to next sprint immediately"
                | sev_high => "Consider deferring to next sprint"
                | _ => "Monitor closely"
                end |}
  | None => None
  end.

(** The [forEach] from position [index] on; a ticket at risk is pushed. *)
Fixpoint risksFrom (avgCycleTime : Q) (daysRemaining : Z) (total : nat)
    (index : nat) (tickets : list JiraIssue) : list TicketRisk :=
  match tickets with
  | [] => []
  | ticket :: rest =>
      match ticketRisk avgCycleTime daysRemaining total index ticket with
      | Some risk => risk :: risksFrom avgCycleTime daysRemaining total (S index) rest
      | None => risksFrom avgCycleTime daysRemaining total (S index) rest
      end
  end.

Definition identifyAtRiskTickets (activeTickets : list JiraIssue)
    (historicalCycleTimes : list Z) (daysRemaining : Z) : list TicketRisk :=
  let avgCycleTime := average (map inject_Z historicalCycleTimes) in
  risksFrom avgCycleTime daysRemaining (length activeTickets) 0 activeTickets.

End WithFormat.

End PredictionRisks.

Section RiskFacts.
Import PredictionRisks.
Context (toFixed1 : Q -> string).











End RiskFacts.



(** ** analyzers/timing.ts: activity by hour of day *)

Module TimingHours.

(** [calculateIssueQuality] *)
Definition calculateIssueQuality (issue : IssueWithMetrics) : Q :=
  match metrics issue with
  | None => 5%Q
  | Some m =>
      let score := 10%Q in
      let score := if wasReopened m then (score - 3)%Q else score in
      let score := if hadDefect m then (score - 3)%Q else score in
      let score := (score - inject_Z (Z.of_nat (numberOfRevisions m)) * (1 # 2))%Q in
      Qmax 0 score
  end.

(** [calculateHourQuality] *)
Definition calculateHourQuality (activities : list ActivityEvent) : Q :=
  if (length activities =? 0)%nat then 5%Q
  else average (map ev_quality activities).

Definition hoursOfDay : list Z := map Z.of_nat (seq 0 24).

(** [hourlyBuckets.get(hour)?.push(event)]: nothing happens for an hour
    that is not a key of the map. *)
Definition pushEvent (hour : Z) (event : ActivityEvent)
    (hourlyBuckets : gmap Z (list ActivityEvent)) : gmap Z (list ActivityEvent) :=
  match hourlyBuckets !! hour with
  | Some events => <[hour := (events ++ [event])%list]> hourlyBuckets
  | None => hourlyBuckets
  end.

Section WithClock.
(** [getHourOfDay]: the hour of a timestamp in the local time zone. *)
Context (getHourOfDay : Z -> Z).

Definition bucketStep (hourlyBuckets : gmap Z (list ActivityEvent))
    (issue : IssueWithMetrics) : gmap Z (list ActivityEvent) :=
  let updateHour := getHourOfDay (i_updated issue) in
  let hourlyBuckets :=
    pushEvent updateHour
      {| ev_timestamp := i_updated issue; ev_quality := calculateIssueQuality issue;
         ev_issueKey := i_key issue; ev_resolved := false |} hourlyBuckets in
  match i_resolved issue with
  | Some resolved =>
      let resolveHour := getHourOfDay resolved in
      pushEvent resolveHour
        {| ev_timestamp := resolved; ev_quality := calculateIssueQuality issue;
           ev_issueKey := i_key issue; ev_resolved := true |} hourlyBuckets
  | None => hourlyBuckets
  end.

Definition emptyBuckets : gmap Z (list ActivityEvent) :=
  fold_left (fun buckets hour => <[hour := []]> buckets) hoursOfDay ∅.

Definition groupByHour (issues : list IssueWithMetrics) : list HourlyActivity :=
  let hourlyBuckets := fold_left bucketStep issues emptyBuckets in
  map (fun hour =>
         let activities := default [] (hourlyBuckets !! hour) in
         {| hour := hour;
            activities := activities;
            ha_qualityScore := calculateHourQuality activities;
            volume := length activities |})
      hoursOfDay.

End WithClock.

End TimingHours.

Section TimingHoursFacts.
Import TimingHours.
Context (getHourOfDay : Z -> Z).

Lemma issue_quality_range (issue : IssueWithMetrics) :
  (0 <= calculateIssueQuality issue)%Q /\ (calculateIssueQuality issue <= 10)%Q.
Proof.
  unfold calculateIssueQuality. destruct (metrics issue) as [m|].
  - cbv zeta. split; [apply Q.le_max_l|].
    apply Q.max_lub; [discriminate|].
    assert (Hrev : (0 <= inject_Z (Z.of_nat (numberOfRevisions m)) * (1 # 2))%Q).
    { apply Qmult_le_0_compat; [rewrite <- (Zle_Qle 0); lia | discriminate]. }
    assert (Hbase : ((if hadDefect m
                      then (if wasReopened m then 10 - 3 else 10) - 3
                      else (if wasReopened m then 10 - 3 else 10)) <= 10)%Q).
    { destruct (hadDefect m), (wasReopened m); discriminate. }
    eapply Qle_trans; [|exact Hbase].
    unfold Qminus at 1. rewrite <- (Qplus_0_r (if hadDefect m then _ else _)) at 2.
    apply Qplus_le_r. apply (Qopp_le_compat 0). exact Hrev.
  - split; discriminate.
Qed.

(** What holds of the buckets at every point of the loop. *)
Definition eventsOk (events : list ActivityEvent) : Prop :=
  Forall (fun ev => (0 <= ev_quality ev)%Q /\ (ev_quality ev <= 10)%Q) events.

Definition bucketsOk (buckets : gmap Z (list ActivityEvent)) : Prop :=
  (forall hour, hour ∈ hoursOfDay -> is_Some (buckets !! hour)) /\
  (forall hour events, buckets !! hour = Some events -> eventsOk events).

Definition totalEvents (buckets : gmap Z (list ActivityEvent)) (hours : list Z) : nat :=
  sum_list (map (fun hour => length (default [] (buckets !! hour))) hours).

Lemma fill_lookup (hours : list Z) (acc : gmap Z (list ActivityEvent)) (hour : Z) :
  fold_left (fun buckets h => <[h := []]> buckets) hours acc !! hour =
    if decide (hour ∈ hours) then Some [] else acc !! hour.
Proof.
  revert acc. induction hours as [|h hs IH]; intros acc; simpl.
  - destruct (decide (hour ∈ [])) as [Hin|_]; [|reflexivity].
    apply elem_of_nil in Hin. contradiction.
  - rewrite IH. destruct (decide (hour ∈ hs)) as [Hin|Hnin].
    + destruct (decide (hour ∈ h :: hs)) as [_|Hn]; [reflexivity|].
      exfalso. apply Hn. apply elem_of_cons. right. exact Hin.
    + destruct (decide (h = hour)) as [->|Hne].
      * rewrite lookup_insert_eq.
        destruct (decide (hour ∈ hour :: hs)) as [_|Hn]; [reflexivity|].
        exfalso. apply Hn. apply elem_of_cons. left. reflexivity.
      * rewrite lookup_insert_ne by exact Hne.
        destruct (decide (hour ∈ h :: hs)) as [Hin|_]; [|reflexivity].
        apply elem_of_cons in Hin as [Heq|Hin]; [congruence | contradiction].
Qed.

Lemma emptyBuckets_lookup hour :
  emptyBuckets !! hour = if decide (hour ∈ hoursOfDay) then Some [] else None.
Proof.
  unfold emptyBuckets. rewrite fill_lookup.
  destruct (decide (hour ∈ hoursOfDay)); [reflexivity | apply lookup_empty].
Qed.

Lemma emptyBuckets_ok : bucketsOk emptyBuckets.
Proof.
  split.
  - intros hour Hin. rewrite emptyBuckets_lookup.
    destruct (decide (hour ∈ hoursOfDay)); [eauto | contradiction].
  - intros hour events H. rewrite emptyBuckets_lookup in H.
    destruct (decide (hour ∈ hoursOfDay)); [|discriminate].
    inversion H. constructor.
Qed.

Lemma emptyBuckets_total hours : totalEvents emptyBuckets hours = 0%nat.
Proof.
  unfold totalEvents. induction hours as [|h hs IH]; [reflexivity|].
  cbn [map sum_list sum_list_with]. rewrite emptyBuckets_lookup.
  destruct (decide (h ∈ hoursOfDay)); unfold default; cbn [from_option id length Nat.add]; exact IH.
Qed.

Lemma pushEvent_ok hour event buckets :
  (0 <= ev_quality event)%Q /\ (ev_quality event <= 10)%Q ->
  bucketsOk buckets -> bucketsOk (pushEvent hour event buckets).
Proof.
  intros Hev [Hkeys Hevents]. unfold pushEvent.
  destruct (buckets !! hour) as [events|] eqn:E; [|split; assumption].
  split.
  - intros h Hin. destruct (decide (hour = h)) as [->|Hne].
    + rewrite lookup_insert_eq. eauto.
    + rewrite lookup_insert_ne by exact Hne. apply Hkeys, Hin.
  - intros h l Hl. destruct (decide (hour = h)) as [->|Hne].
    + rewrite lookup_insert_eq in Hl. inversion Hl; subst l.
      apply Forall_app_2; [exact (Hevents h events E) | constructor; [exact Hev | constructor]].
    + rewrite lookup_insert_ne in Hl by exact Hne. apply (Hevents h l Hl).
Qed.

Lemma totalEvents_insert_out hour events buckets hours :
  hour ∉ hours ->
  totalEvents (<[hour := events]> buckets) hours = totalEvents buckets hours.
Proof.
  intros Hnin. unfold totalEvents. induction hours as [|h hs IH]; [reflexivity|].
  cbn [map sum_list sum_list_with]. rewrite lookup_insert_ne
    by (intros ->; apply Hnin; apply elem_of_cons; left; reflexivity).
  f_equal. apply IH. intros Hin. apply Hnin. apply elem_of_cons. right. exact Hin.
Qed.

Lemma pushEvent_total hour event buckets hours :
  NoDup hours ->
  totalEvents (pushEvent hour event buckets) hours =
    (totalEvents buckets hours
     + if decide (hour ∈ hours)
       then match buckets !! hour with Some _ => 1 | None => 0 end
       else 0)%nat.
Proof.
  intros Hnd. unfold pushEvent.
  destruct (buckets !! hour) as [events|] eqn:E;
    [|destruct (decide (hour ∈ hours)); lia].
  induction Hnd as [|h hs Hnin Hnd IH].
  - destruct (decide (hour ∈ [])) as [Hin|_]; [|reflexivity].
    apply elem_of_nil in Hin. contradiction.
  - assert (Hcons : forall b, totalEvents b (h :: hs)
                      = (length (default [] (b !! h)) + totalEvents b hs)%nat)
      by reflexivity.
    rewrite !Hcons.
    destruct (decide (h = hour)) as [->|Hne].
    + rewrite lookup_insert_eq, E. unfold default. cbn [from_option id].
      rewrite length_app. cbn [length].
      rewrite (totalEvents_insert_out _ _ _ _ Hnin).
      destruct (decide (hour ∈ hour :: hs)) as [_|Hn]; [lia|].
      exfalso. apply Hn. apply elem_of_cons. left. reflexivity.
    + rewrite lookup_insert_ne by congruence. rewrite IH.
      destruct (decide (hour ∈ hs)) as [Hin|Hnin'];
        destruct (decide (hour ∈ h :: hs)) as [Hin'|Hnin'']; try lia.
      * exfalso. apply Hnin''. apply elem_of_cons. right. exact Hin.
      * apply elem_of_cons in Hin' as [Heq|Hin']; [congruence | contradiction].
Qed.

Lemma hoursOfDay_NoDup : NoDup hoursOfDay.
Proof. apply (bool_decide_unpack _). vm_compute. reflexivity. Qed.

Lemma hoursOfDay_spec hour : hour ∈ hoursOfDay <-> 0 <= hour < 24.
Proof.
  rewrite list_elem_of_In. unfold hoursOfDay. rewrite in_map_iff. split.
  - intros (n & <- & Hn). apply in_seq in Hn. lia.
  - intros H. exists (Z.to_nat hour). split; [lia|]. apply in_seq. lia.
Qed.

(** The number of events an issue contributes: one for its update and one
    for its resolution, each only if its hour is an hour of the day. *)
Definition eventsOf (issue : IssueWithMetrics) : nat :=
  ((if decide (getHourOfDay (i_updated issue) ∈ hoursOfDay) then 1 else 0)
   + match i_resolved issue with
     | Some resolved => if decide (getHourOfDay resolved ∈ hoursOfDay) then 1 else 0
     | None => 0
     end)%nat.

Lemma bucketStep_ok buckets issue :
  bucketsOk buckets ->
  bucketsOk (bucketStep getHourOfDay buckets issue) /\
  totalEvents (bucketStep getHourOfDay buckets issue) hoursOfDay
    = (totalEvents buckets hoursOfDay + eventsOf issue)%nat.
Proof.
  intros Hok. unfold bucketStep, eventsOf. cbv zeta.
  set (e1 := {| ev_timestamp := i_updated issue; ev_quality := calculateIssueQuality issue;
                ev_issueKey := i_key issue; ev_resolved := false |}).
  pose proof (pushEvent_ok (getHourOfDay (i_updated issue)) e1 buckets
                (issue_quality_range issue) Hok) as Hok1.
  pose proof (pushEvent_total (getHourOfDay (i_updated issue)) e1 buckets hoursOfDay
                hoursOfDay_NoDup) as Ht1.
  assert (Hc1 : (if decide (getHourOfDay (i_updated issue) ∈ hoursOfDay)
                 then match buckets !! getHourOfDay (i_updated issue) with Some _ => 1 | None => 0 end
                 else 0)%nat
                = (if decide (getHourOfDay (i_updated issue) ∈ hoursOfDay) then 1 else 0)%nat).
  { destruct (decide _) as [Hin|]; [|reflexivity].
    destruct (proj1 Hok _ Hin) as [l ->]. reflexivity. }
  rewrite Hc1 in Ht1.
  destruct (i_resolved issue) as [resolved|].
  - set (e2 := {| ev_timestamp := resolved; ev_quality := calculateIssueQuality issue;
                  ev_issueKey := i_key issue; ev_resolved := true |}).
    split; [apply pushEvent_ok; [apply issue_quality_range | exact Hok1]|].
    rewrite (pushEvent_total _ _ _ _ hoursOfDay_NoDup), Ht1.
    destruct (decide (getHourOfDay resolved ∈ hoursOfDay)) as [Hin|]; [|lia].
    destruct (proj1 Hok1 _ Hin) as [l ->]. lia.
  - split; [exact Hok1 | lia].
Qed.

Lemma buckets_after issues :
  forall buckets,
    bucketsOk buckets ->
    bucketsOk (fold_left (bucketStep getHourOfDay) issues buckets) /\
    totalEvents (fold_left (bucketStep getHourOfDay) issues buckets) hoursOfDay
      = (totalEvents buckets hoursOfDay + sum_list (map eventsOf issues))%nat.
Proof.
  induction issues as [|i rest IH]; intros buckets Hok; cbn [fold_left].
  - split; [exact Hok|]. change (sum_list (map eventsOf [])) with 0%nat. lia.
  - destruct (bucketStep_ok buckets i Hok) as [Hok' Ht].
    destruct (IH _ Hok') as [Hok'' Ht'].
    split; [exact Hok''|]. rewrite Ht', Ht.
    change (sum_list (map eventsOf (i :: rest)))
      with (eventsOf i + sum_list (map eventsOf rest))%nat. lia.
Qed.

Lemma hour_quality_range (events : list ActivityEvent) :
  eventsOk events ->
  (0 <= calculateHourQuality events)%Q /\ (calculateHourQuality events <= 10)%Q.
Proof.
  intros Hok. unfold calculateHourQuality.
  destruct events as [|e es]; [split; discriminate|].
  cbn [length Nat.eqb].
  apply average_between; [discriminate|].
  apply List.Forall_forall. intros q Hq. apply in_map_iff in Hq as (ev & <- & Hev).
  unfold eventsOk in Hok. rewrite List.Forall_forall in Hok. apply Hok, Hev.
Qed.

(** X26: the activity by hour has one entry for each hour 0 to 23, in
    that order; the volume of an hour is the number of its events, its
    quality score lies between 0 and 10 (5 without events), and when the
    clock maps every timestamp to an hour of the day, the volumes add up
    to one event per issue plus one per resolved issue. *)
Theorem hourly_activity_shape (issues : list IssueWithMetrics) :
  let hourly := groupByHour getHourOfDay issues in
  map hour hourly = map Z.of_nat (seq 0 24) /\
  Forall (fun h => volume h = length (activities h) /\
                   (0 <= ha_qualityScore h)%Q /\ (ha_qualityScore h <= 10)%Q /\
                   (volume h = 0%nat -> ha_qualityScore h = 5%Q)) hourly /\
  ((forall t, 0 <= getHourOfDay t < 24) ->
   sum_list (map volume hourly)
   = (length issues
      + length (List.filter (fun i : IssueWithMetrics =>
                               match i_resolved i with Some _ => true | None => false end)
                            issues))%nat).
Proof.
  cbv zeta. unfold groupByHour. cbv zeta.
  destruct (buckets_after issues emptyBuckets emptyBuckets_ok) as [Hok Htotal].
  set (buckets := fold_left (bucketStep getHourOfDay) issues emptyBuckets) in *.
  split; [|split].
  - rewrite map_map. cbn [hour]. apply map_id.
  - apply List.Forall_forall. intros h Hh. apply in_map_iff in Hh as (k & <- & Hk).
    cbn [volume activities ha_qualityScore].
    assert (Hev : eventsOk (default [] (buckets !! k))).
    { destruct (buckets !! k) as [l|] eqn:E; [apply (proj2 Hok k l E) | constructor]. }
    destruct (hour_quality_range _ Hev) as [H0 H10].
    repeat split; try assumption.
    intros Hz. unfold calculateHourQuality. rewrite Hz. reflexivity.
  - intros Hclock. rewrite map_map. cbn [volume].
    change (sum_list (map (fun x => length (default [] (buckets !! x))) hoursOfDay))
      with (totalEvents buckets hoursOfDay).
    rewrite Htotal, emptyBuckets_total. rewrite Nat.add_0_l.
    clear Htotal Hok buckets.
    induction issues as [|i rest IH]; [reflexivity|].
    change (sum_list (map eventsOf (i :: rest)))
      with (eventsOf i + sum_list (map eventsOf rest))%nat.
    rewrite IH. cbn [List.filter length].
    unfold eventsOf.
    destruct (decide (getHourOfDay (i_updated i) ∈ hoursOfDay)) as [_|Hn];
      [|exfalso; apply Hn, hoursOfDay_spec, Hclock].
    destruct (i_resolved i) as [resolved|]; cbn [length]; [|lia].
    destruct (decide (getHourOfDay resolved ∈ hoursOfDay)) as [_|Hn];
      [lia | exfalso; apply Hn, hoursOfDay_spec, Hclock].
Qed.

End TimingHoursFacts.

Lemma hourly_activity_shape_witness :
  sum_list (map volume (TimingHours.groupByHour (fun t => t mod 24) [itemA; itemB; itemC]))
  = (length [itemA; itemB; itemC]
     + length (List.filter (fun i : IssueWithMetrics =>
                              match i_resolved i with Some _ => true | None => false end)
                           [itemA; itemB; itemC]))%nat.
Proof.
  apply (proj2 (proj2 (hourly_activity_shape (fun t => t mod 24) [itemA; itemB; itemC]))).
  intros t. apply Z.mod_pos_bound. lia.
Defined.

(** ** utils/dateHelpers.ts and utils/calculations.ts *)

Section UtilityFacts.
Import DateHelpers.





End UtilityFacts.



(** ** analyzers/pitcrew.ts: the collaboration network *)

Module PitCrewNetwork.

(** [teammates.forEach]: a teammate without a chemistry entry is skipped. *)
Definition buildCollaborationNetwork (currentUserId : string)
    (teammates : list TeamMateProfile) (chemistryScores : gmap string ChemistryScore)
  : list CollaborationEdge :=
  fold_left
    (fun edges teammate =>
       match chemistryScores !! tm_accountId teammate with
       | None => edges
       | Some chemistry =>
           (edges ++
              [ {| ce_from := currentUserId;
                   ce_to := tm_accountId teammate;
                   strength := (inject_Z (score chemistry) / 100)%Q;
                   issueCount := tm_sharedIssues teammate;
                   ce_avgCycleTime := 0%Q |} ])%list
       end)
    teammates [].

End PitCrewNetwork.

Section NetworkFacts.
Import PitCrew PitCrewProfiles PitCrewNetwork.

Lemma chemistry_has_key soloAvg (collaborationData : list (string * CollaborationData)) :
  forall (acc : gmap string ChemistryScore) id,
    (is_Some (acc !! id) \/ In id (map fst collaborationData)) ->
    is_Some (fold_left
               (fun scores kv => <[fst kv := chemistryOf soloAvg (fst kv) (snd kv)]> scores)
               collaborationData acc !! id).
Proof.
  induction collaborationData as [|[k d] rest IH]; intros acc id H; simpl.
  - destruct H as [H|[]]. exact H.
  - apply IH. simpl in H. destruct (decide (k = id)) as [->|Hne].
    + left. rewrite lookup_insert_eq. eauto.
    + rewrite lookup_insert_ne by exact Hne. destruct H as [H|[H|H]]; tauto.
Qed.

Lemma profiles_from_data (collaborationData : list (string * CollaborationData)) :
  Forall (fun p => In (tm_accountId p) (map fst collaborationData))
         (PitCrewProfiles.buildTeammateProfiles collaborationData).
Proof.
  unfold PitCrewProfiles.buildTeammateProfiles. cbv zeta.
  apply List.Forall_forall. intros p Hp.
  assert (Hin : In p (map (fun kv => profileOf (fst kv) (snd kv)) collaborationData)).
  { apply (Permutation_in _ (sortByCount_perm _)). apply list_elem_of_In.
    eapply subseteq_take. apply list_elem_of_In. exact Hp. }
  apply in_map_iff in Hin as (kv & <- & Hkv). simpl.
  apply in_map_iff. exists kv. split; [reflexivity | exact Hkv].
Qed.

Definition edgeOk (currentUserId : string) (e : CollaborationEdge) : Prop :=
  ce_from e = currentUserId /\ (3 # 10 <= strength e)%Q /\ (strength e <= 1)%Q /\
  (ce_avgCycleTime e == 0)%Q.

Lemma network_fold currentUserId (scores : gmap string ChemistryScore)
    (teammates : list TeamMateProfile) :
  Forall (fun p => exists c, scores !! tm_accountId p = Some c /\ 30 <= score c <= 100)
         teammates ->
  forall edges,
    Forall (edgeOk currentUserId) edges ->
    let result :=
      fold_left
        (fun edges teammate =>
           match scores !! tm_accountId teammate with
           | None => edges
           | Some chemistry =>
               (edges ++
                  [ {| ce_from := currentUserId;
                       ce_to := tm_accountId teammate;
                       strength := (inject_Z (score chemistry) / 100)%Q;
                       issueCount := tm_sharedIssues teammate;
                       ce_avgCycleTime := 0%Q |} ])%list
           end)
        teammates edges in
    map ce_to result = (map ce_to edges ++ map tm_accountId teammates)%list /\
    map issueCount result = (map issueCount edges ++ map tm_sharedIssues teammates)%list /\
    Forall (edgeOk currentUserId) result.
Proof.
  induction 1 as [|p rest (c & Hc & Hscore) _ IH]; intros edges Hedges; cbv zeta.
  - simpl. rewrite !app_nil_r. auto.
  - cbn [fold_left]. rewrite Hc.
    match goal with |- context [fold_left _ rest ?acc] => specialize (IH acc) end.
    cbv zeta in IH. destruct IH as (H1 & H2 & H3).
    + apply Forall_app_2; [exact Hedges|]. constructor; [|constructor].
      unfold edgeOk. cbn [ce_from strength ce_avgCycleTime].
      split; [reflexivity|]. split; [|split; [|reflexivity]].
      * unfold Qle, Qdiv, Qmult, Qinv, inject_Z. simpl. lia.
      * unfold Qle, Qdiv, Qmult, Qinv, inject_Z. simpl. lia.
    + rewrite H1, H2. rewrite !map_app. simpl. rewrite <- !app_assoc. simpl. auto.
Qed.

(** X29: the collaboration network has exactly one edge for each teammate
    profile, in the order of the profiles, from the subject to the
    teammate and with the teammate's number of shared issues; no teammate
    is skipped for lack of a chemistry score, and the strength of every
    edge lies between 0.3 and 1. *)
Theorem network_edge_per_teammate (currentUserId : string)
    (collaborationData : list (string * CollaborationData))
    (allIssues : list IssueWithMetrics) :
  let teammates := PitCrewProfiles.buildTeammateProfiles collaborationData in
  let chemistryScores := calculateChemistryScores collaborationData allIssues in
  let edges := buildCollaborationNetwork currentUserId teammates chemistryScores in
  map ce_to edges = map tm_accountId teammates /\
  map issueCount edges = map tm_sharedIssues teammates /\
  Forall (fun e => ce_from e = currentUserId /\
                   (3 # 10 <= strength e)%Q /\ (strength e <= 1)%Q) edges.
Proof.
  cbv zeta. unfold buildCollaborationNetwork, calculateChemistryScores. cbv zeta.
  set (soloAvg := if (0 <? length (positiveCycleTimes allIssues))%nat then _ else _).
  set (scores := fold_left _ collaborationData ∅).
  assert (Hall : Forall (fun p => exists c, scores !! tm_accountId p = Some c /\
                                            30 <= score c <= 100)
                        (PitCrewProfiles.buildTeammateProfiles collaborationData)).
  { eapply List.Forall_impl; [|apply profiles_from_data].
    intros p Hp. simpl in Hp.
    destruct (chemistry_has_key soloAvg collaborationData ∅ (tm_accountId p)
                (or_intror Hp)) as [c Hc].
    fold scores in Hc. exists c. split; [exact Hc|].
    destruct (chemistry_entries soloAvg collaborationData ∅
                ltac:(intros id' c' H'; rewrite lookup_empty in H'; discriminate)
                (tm_accountId p) c Hc) as [data ->].
    pose proof (chemistryOf_rating soloAvg (tm_accountId p) data) as Hr.
    pose proof (chemistryOf_spec soloAvg (tm_accountId p) data) as Hs.
    cbv zeta in Hr, Hs. lia. }
  destruct (network_fold currentUserId scores _ Hall [] (List.Forall_nil _)) as (H1 & H2 & H3).
  split; [exact H1|]. split; [exact H2|].
  eapply List.Forall_impl; [|exact H3]. unfold edgeOk. tauto.
Qed.

End NetworkFacts.
